(** * ai-debates: a shallow embedding of the debate orchestration code

    The Python sources embedded here are
      - [app/models/filter_model.py]     (module [FilterModel]),
      - [app/models/prompt_model.py]     (module [PromptModel]: stance
                                          generation, its retry and the
                                          system prompts),
      - [app/models/debate_model.py]     (module [DebateModel]),
      - [app/models/moderator_model.py]  (module [ModeratorModel]),
      - [app/routes.py]                  (module [Routes]: the decorator
                                          [handle_errors] and the routes
                                          [start_debate], [debate_round]
                                          and [end_debate]),
      - [config.py]                      (module [Config]).

    Text is a sequence of Unicode code points: [len] counts them and
    [strip] removes the whole of Python's whitespace class.  The case
    mappings are written out on U+0000..U+007F and follow the tables of the
    interpreter, a parameter of the development, above.  Values decoded
    from JSON are the inductive type [pyval].  Code that talks to the
    Ollama service runs in a small state-and-exception monad [M]: the state
    is the list of requests sent so far, and what [requests.post] answers
    is a function of that list and of the request being sent. *)

From Stdlib Require Import List NArith ZArith Bool Arith Lia.
From Stdlib Require Import Strings.Byte.
Import ListNotations.
Set Warnings "-register-all".

(* ===================================================================== *)
(** ** Python [str] *)
(* ===================================================================== *)

Module PyStr.

(** A character is a Unicode code point. *)
Definition char : Set := N.
Bind Scope N_scope with char.

(** A Python [str]: a sequence of code points.  The literals of this file
    are ASCII, one code point for each byte. *)
Inductive string : Set :=
| EmptyString : string
| String (c : char) (s : string) : string.

Fixpoint of_bytes (l : list byte) : string :=
  match l with
  | [] => EmptyString
  | b :: l' => String (Byte.to_N b) (of_bytes l')
  end.

Fixpoint to_bytes (s : string) : option (list byte) :=
  match s with
  | EmptyString => Some []
  | String c s' =>
      match Byte.of_N c, to_bytes s' with
      | Some b, Some l => Some (b :: l)
      | _, _ => None
      end
  end.

Declare Scope string_scope.
Delimit Scope string_scope with string.
Bind Scope string_scope with string.
String Notation string of_bytes to_bytes : string_scope.

(** [a + b]. *)
Fixpoint append (a b : string) : string :=
  match a with
  | EmptyString => b
  | String c a' => String c (append a' b)
  end.

Infix "++" := append (right associativity, at level 60) : string_scope.

(** [len(s)]: the number of code points. *)
Fixpoint len (s : string) : nat :=
  match s with
  | EmptyString => 0
  | String _ s' => S (len s')
  end.

(** [a == b]. *)
Fixpoint eqb (a b : string) : bool :=
  match a, b with
  | EmptyString, EmptyString => true
  | String c a', String d b' => N.eqb c d && eqb a' b'
  | _, _ => false
  end.

(** [p] is a prefix of [s]. *)
Fixpoint prefix (p s : string) : bool :=
  match p, s with
  | EmptyString, _ => true
  | String _ _, EmptyString => false
  | String c p', String d s' => N.eqb c d && prefix p' s'
  end.

(** The line feed, Python's ["\n"]. *)
Definition LF : char := 10%N.
Definition nl : string := String LF EmptyString.

(** [c.isspace()], the characters [strip] removes: tab, line feed, vertical
    tab, form feed, carriage return, the four separators U+001C..U+001F,
    the space, and above U+007F the next line U+0085, the no-break space
    U+00A0, U+1680, U+2000..U+200A, U+2028, U+2029, U+202F, U+205F and
    U+3000. *)
Definition isspace (c : char) : bool :=
  (((9 <=? c) && (c <=? 13)) || ((28 <=? c) && (c <=? 31)) || (c =? 32)
   || (c =? 0x85) || (c =? 0xA0) || (c =? 0x1680)
   || ((0x2000 <=? c) && (c <=? 0x200A))
   || (c =? 0x2028) || (c =? 0x2029) || (c =? 0x202F) || (c =? 0x205F)
   || (c =? 0x3000))%N.

(** The case mappings follow the Unicode tables of the interpreter, which
    differ from one version to the next.  On U+0000..U+007F they are
    written out below.  Above U+007F they are these two tables:
    [unicode_upper c] is the upper-casing of the code point [c], one code
    point or more (two for U+00DF); [unicode_lower before c after] is the
    lower-casing of [c] where it stands between the texts [before] and
    [after] (that of the capital sigma U+03A3 depends on them). *)
Class CaseMap : Type := {
  unicode_upper : char -> string;
  unicode_lower : string -> char -> string -> string
}.

(** The instance that leaves the characters above U+007F as they are; it
    runs the examples, whose texts are ASCII. *)
Definition plain_case : CaseMap :=
  {| unicode_upper := fun c => String c EmptyString;
     unicode_lower := fun _ c _ => String c EmptyString |}.

Definition ascii_upper (c : char) : char :=
  if ((97 <=? c) && (c <=? 122))%N then (c - 32)%N else c.

Definition ascii_lower (c : char) : char :=
  if ((65 <=? c) && (c <=? 90))%N then (c + 32)%N else c.

Section WithCaseMap.
Context {cm : CaseMap}.

Definition upper_char (c : char) : string :=
  if (c <? 128)%N then String (ascii_upper c) EmptyString else unicode_upper c.

(** [s.upper()]: every code point is mapped by itself. *)
Fixpoint upper (s : string) : string :=
  match s with
  | EmptyString => EmptyString
  | String c s' => (upper_char c ++ upper s')%string
  end.

(** [s.lower()]; [before] is the text that stands before [s]. *)
Fixpoint lower_from (before s : string) : string :=
  match s with
  | EmptyString => EmptyString
  | String c s' =>
      ((if (c <? 128)%N then String (ascii_lower c) EmptyString
        else unicode_lower before c s')
       ++ lower_from (before ++ String c EmptyString) s')%string
  end.

Definition lower (s : string) : string := lower_from EmptyString s.

End WithCaseMap.

(** [s.lstrip()], [s.rstrip()] and [s.strip()]. *)
Fixpoint lstrip (s : string) : string :=
  match s with
  | EmptyString => EmptyString
  | String c s' => if isspace c then lstrip s' else s
  end.

Fixpoint rstrip (s : string) : string :=
  match s with
  | EmptyString => EmptyString
  | String c s' =>
      match rstrip s' with
      | EmptyString => if isspace c then EmptyString else String c EmptyString
      | r => String c r
      end
  end.

Definition strip (s : string) : string := rstrip (lstrip s).

(** [s.startswith(p)]. *)
Definition startswith (s p : string) : bool := prefix p s.

(** The slice [s[n:]] for [n >= 0]. *)
Fixpoint slice_from (n : nat) (s : string) : string :=
  match n, s with
  | O, _ => s
  | S _, EmptyString => EmptyString
  | S n', String _ s' => slice_from n' s'
  end.

(** The slice [s[-n:]] for [n > 0]. *)
Definition slice_last (n : nat) (s : string) : string :=
  slice_from (len s - n) s.

(** [s.split(sep)] for a one-character separator: never the empty list. *)
Fixpoint split (sep : char) (s : string) : list string :=
  match s with
  | EmptyString => [EmptyString]
  | String c s' =>
      if N.eqb c sep then EmptyString :: split sep s'
      else match split sep s' with
           | h :: t => String c h :: t
           | [] => [String c EmptyString]
           end
  end.

(** [sub in s]. *)
Fixpoint contains (sub s : string) : bool :=
  prefix sub s ||
  match s with
  | EmptyString => false
  | String _ s' => contains sub s'
  end.

(** [s.replace(old, new)] for a non-empty [old] (every call site passes a
    literal): occurrences are found left to right and do not overlap;
    [skip] counts the characters of a matched occurrence still to drop. *)
Fixpoint replace_from (skip : nat) (old new s : string) : string :=
  match s with
  | EmptyString => EmptyString
  | String c s' =>
      match skip with
      | S k => replace_from k old new s'
      | O =>
          if prefix old s
          then (new ++ replace_from (len old - 1) old new s')%string
          else String c (replace_from 0 old new s')
      end
  end.

Definition replace (old new s : string) : string := replace_from 0 old new s.

(** [sep.join(l)]. *)
Fixpoint join (sep : string) (l : list string) : string :=
  match l with
  | [] => EmptyString
  | [x] => x
  | x :: rest => (x ++ sep ++ join sep rest)%string
  end.

(** [str(n)] for a natural number: its decimal digits. *)
Fixpoint of_uint (d : Decimal.uint) : string :=
  match d with
  | Decimal.Nil => EmptyString
  | Decimal.D0 d' => String 48 (of_uint d')
  | Decimal.D1 d' => String 49 (of_uint d')
  | Decimal.D2 d' => String 50 (of_uint d')
  | Decimal.D3 d' => String 51 (of_uint d')
  | Decimal.D4 d' => String 52 (of_uint d')
  | Decimal.D5 d' => String 53 (of_uint d')
  | Decimal.D6 d' => String 54 (of_uint d')
  | Decimal.D7 d' => String 55 (of_uint d')
  | Decimal.D8 d' => String 56 (of_uint d')
  | Decimal.D9 d' => String 57 (of_uint d')
  end.

Definition of_nat (n : nat) : string := of_uint (Nat.to_uint n).

(** The list slice [l[-n:]] for [n > 0]. *)
Definition list_last {A : Type} (n : nat) (l : list A) : list A :=
  skipn (List.length l - n) l.

(** The characters of a string, each as a one-character string (what
    iterating over a [str] yields). *)
Fixpoint chars (s : string) : list string :=
  match s with
  | EmptyString => []
  | String c s' => String c EmptyString :: chars s'
  end.

End PyStr.

Import PyStr.
Open Scope string_scope.
Open Scope list_scope.
Open Scope nat_scope.

(* ===================================================================== *)
(** ** Values, exceptions and the request monad *)
(* ===================================================================== *)

(** Values decoded from JSON ([request.json], [response.json()]) and the
    dicts and lists the code builds from them.  JSON numbers are kept as
    integers: the code only tests a number for truth and never computes
    with one.  A dict is an association list read at its first binding. *)
Inductive pyval : Type :=
| PNone
| PBool (b : bool)
| PInt (z : Z)
| PStr (s : string)
| PList (l : list pyval)
| PDict (d : list (string * pyval)).

(** [d.get(key)] on the bindings of a dict. *)
Fixpoint assoc (key : string) (d : list (string * pyval)) : option pyval :=
  match d with
  | [] => None
  | (k, v) :: rest => if PyStr.eqb k key then Some v else assoc key rest
  end.

(** Python truth value testing: [bool(v)]. *)
Definition truthy (v : pyval) : bool :=
  match v with
  | PNone => false
  | PBool b => b
  | PInt z => negb (Z.eqb z 0)
  | PStr s => negb (PyStr.eqb s "")
  | PList l => match l with [] => false | _ => true end
  | PDict d => match d with [] => false | _ => true end
  end.

(** [v == s] for a string literal [s]. *)
Definition eq_str (v : pyval) (s : string) : bool :=
  match v with
  | PStr t => PyStr.eqb t s
  | _ => false
  end.

(** [isinstance(v, dict)]. *)
Definition is_dict (v : pyval) : bool :=
  match v with
  | PDict _ => true
  | _ => false
  end.

(** What the [try] block of [_make_api_request] can raise: the exception
    classes of the [requests] package the handlers name, with
    [ConnectTimeout] a subclass of both [requests.exceptions.ConnectionError]
    and [requests.exceptions.Timeout], the [HTTPError] of
    [raise_for_status], the [JSONDecodeError] of [response.json()], and any
    other exception, by name. *)
Inductive requests_exc : Type :=
| RequestsConnectionError
| ConnectTimeout
| ReadTimeout
| HTTPError (status : Z)
| JSONDecodeError
| OtherError (name : string).

(** [isinstance(e, requests.exceptions.ConnectionError)]. *)
Definition is_requests_ConnectionError (e : requests_exc) : bool :=
  match e with
  | RequestsConnectionError | ConnectTimeout => true
  | _ => false
  end.

(** [isinstance(e, requests.exceptions.Timeout)]. *)
Definition is_requests_Timeout (e : requests_exc) : bool :=
  match e with
  | ConnectTimeout | ReadTimeout => true
  | _ => false
  end.

(** [isinstance(e, json.JSONDecodeError)]. *)
Definition is_JSONDecodeError (e : requests_exc) : bool :=
  match e with
  | JSONDecodeError => true
  | _ => false
  end.

(** Exceptions that leave a function of this code: a library exception
    re-raised as it is ([Reraised]), the built-in exceptions the code
    raises with a message of its own, and the ones the interpreter raises
    on a failed subscript or attribute access. *)
Inductive pyexc : Type :=
| Reraised (e : requests_exc)
| ConnectionError (msg : string)
| TimeoutError (msg : string)
| ValueError (msg : string)
| KeyError (key : string)
| TypeError
| AttributeError.

(** One call of [requests.post]: the URL, the JSON body and the timeout. *)
Record request : Type := mkRequest {
  req_url : string;
  req_model : string;
  req_prompt : string;
  req_stream : bool;
  req_timeout : Z
}.

(** What [requests.post] answers: it raises, or it returns a response with
    a status code and a body that decodes as JSON ([Some]) or does not. *)
Inductive post_outcome : Type :=
| PostRaises (e : requests_exc)
| Response (status : Z) (body : option pyval).

(** The requests sent so far, oldest first. *)
Definition world : Type := list request.

(** The service: its answer to a request, given the earlier requests. *)
Definition backend : Type := world -> request -> post_outcome.

Inductive outcome (A : Type) : Type :=
| Return (a : A)
| Raise (e : pyexc).

Arguments Return {A} a.
Arguments Raise {A} e.

Definition M (A : Type) : Type := world -> outcome A * world.

Definition ret {A : Type} (a : A) : M A := fun w => (Return a, w).

Definition raise {A : Type} (e : pyexc) : M A := fun w => (Raise e, w).

Definition bind {A B : Type} (c : M A) (k : A -> M B) : M B :=
  fun w =>
    match c w with
    | (Return a, w') => k a w'
    | (Raise e, w') => (Raise e, w')
    end.

(** [try: body  except Exception as e: handler(e)]. *)
Definition try_except {A : Type} (body : M A) (handler : pyexc -> M A) : M A :=
  fun w =>
    match body w with
    | (Return a, w') => (Return a, w')
    | (Raise e, w') => handler e w'
    end.

(** A step that cannot touch the service. *)
Definition lift {A : Type} (o : outcome A) : M A := fun w => (o, w).

Declare Scope py_scope.
Delimit Scope py_scope with py.
Notation "x <- c ;; k" := (bind c (fun x => k))
  (at level 61, c at next level, right associativity) : py_scope.
Open Scope py_scope.

(** [v[key]] for a string key. *)
Definition getitem (v : pyval) (key : string) : outcome pyval :=
  match v with
  | PDict d =>
      match assoc key d with
      | Some x => Return x
      | None => Raise (KeyError key)
      end
  | _ => Raise TypeError
  end.

(** [v.get(key, default)]: only a dict has the method. *)
Definition method_get (v : pyval) (key : string) (default : pyval) : outcome pyval :=
  match v with
  | PDict d =>
      match assoc key d with
      | Some x => Return x
      | None => Return default
      end
  | _ => Raise AttributeError
  end.

(** A [str] method called on a value: only a string has it. *)
Definition as_str (v : pyval) : outcome string :=
  match v with
  | PStr s => Return s
  | _ => Raise AttributeError
  end.

(** [raise_for_status()]: an [HTTPError] for a 4xx or 5xx status. *)
Definition raise_for_status (status : Z) : option requests_exc :=
  if ((400 <=? status) && (status <? 600))%Z then Some (HTTPError status) else None.

(** The handlers of [_make_api_request], in the order of the source; the
    last one logs and re-raises the exception it caught. *)
Definition api_handlers (e : requests_exc) : pyexc :=
  if is_requests_ConnectionError e then ConnectionError "AI service is unavailable"
  else if is_requests_Timeout e then TimeoutError "Request took too long to process"
  else if is_JSONDecodeError e then ValueError "Invalid response from AI service"
  else Reraised e.

(** The body of the [try] block of [_make_api_request]. *)
Definition api_try (o : post_outcome) : requests_exc + pyval :=
  match o with
  | PostRaises e => inl e
  | Response status body =>
      match raise_for_status status with
      | Some e => inl e
      | None =>
          match body with
          | Some j => inr j
          | None => inl JSONDecodeError
          end
      end
  end.

(** [_make_api_request], the same text in the four model classes up to
    the timeout. *)
Definition make_api_request (post : backend) (timeout : Z)
    (model_name prompt : string) : M pyval :=
  fun w =>
    let rq := mkRequest "http://localhost:11434/api/generate"
                model_name prompt false timeout in
    match api_try (post w rq) with
    | inr j => (Return j, w ++ [rq])
    | inl e => (Raise (api_handlers e), w ++ [rq])
    end.

(** [mapM]: a comprehension whose element expression can raise. *)
Fixpoint traverse {A B : Type} (f : A -> outcome B) (l : list A) : outcome (list B) :=
  match l with
  | [] => Return []
  | x :: rest =>
      match f x with
      | Raise e => Raise e
      | Return y =>
          match traverse f rest with
          | Raise e => Raise e
          | Return ys => Return (y :: ys)
          end
      end
  end.

(** [config.py]. *)
Module Config.
Definition FILTER_MODEL : string := "llama3.2:3b".
Definition PROMPT_MODEL : string := "llama3.2:3b".
Definition DEBATE_MODEL : string := "llama3.2:3b".
Definition MODERATOR_MODEL : string := "llama3.2:3b".
End Config.

(* ===================================================================== *)
(** ** [app/models/filter_model.py] *)
(* ===================================================================== *)

Module FilterModel.
Import PyStr.

Section WithBackend.
Context {cm : CaseMap}.
Variable post : backend.

(** [FilterModel._make_api_request]: timeout 30. *)
Definition _make_api_request (model_name prompt : string) : M pyval :=
  make_api_request post 30 model_name prompt.

(** The prompt of [filter_topic], a triple-quoted f-string: it opens with a
    line feed and every line carries the eight blanks of the source. *)
Definition filter_prompt (topic : string) : string :=
  (nl
   ++ "        Analyze the following debate topic and determine if it is appropriate:" ++ nl
   ++ "        Topic: " ++ topic ++ nl
   ++ "        " ++ nl
   ++ "        Consider these criteria:" ++ nl
   ++ "        1. Not harmful or promoting hate" ++ nl
   ++ "        2. Not explicitly graphic or violent" ++ nl
   ++ "        3. Suitable for constructive debate" ++ nl
   ++ "        4. Not personally targeting individuals" ++ nl
   ++ "        " ++ nl
   ++ "        Return only 'true' if the topic is appropriate for debate, 'false' if not." ++ nl
   ++ "        Include a brief reason for the decision." ++ nl
   ++ "        ")%string.

(** The verdict read off the normalised response text. *)
Definition parse_verdict (result : string) : pyval :=
  let is_appropriate := contains "true" result in
  let reason := strip (replace "false" "" (replace "true" "" result)) in
  PDict [("is_appropriate", PBool is_appropriate);
         ("reason", PStr (if PyStr.eqb reason "" then "Topic analyzed for appropriateness"
                          else reason))].

(** The body of the [try] block of [filter_topic]. *)
Definition filter_try (model_name topic : string) : M pyval :=
  response <- _make_api_request model_name (filter_prompt topic) ;;
  field <- lift (getitem response "response") ;;
  text <- lift (as_str field) ;;
  let result := lower (strip text) in
  ret (parse_verdict result).

(** The dict returned by the [except] branch of [filter_topic]. *)
Definition rejected_on_error : pyval :=
  PDict [("is_appropriate", PBool false);
         ("reason", PStr "Unable to verify topic appropriateness")].

(** [FilterModel.filter_topic]. *)
Definition filter_topic (model_name topic : string) : M pyval :=
  if PyStr.eqb topic "" || (len (strip topic) =? 0)
  then raise (ValueError "Empty topic provided")
  else try_except (filter_try model_name topic) (fun _ => ret rejected_on_error).

End WithBackend.
End FilterModel.

(* ===================================================================== *)
(** ** [app/models/prompt_model.py] *)
(* ===================================================================== *)

Module PromptModel.
Import PyStr.

Section Parsing.
Context {cm : CaseMap}.

(** One turn of the loop over the lines in [generate_stances]: the pair is
    [(for_stance, against_stance)]. *)
Definition scan_line (st : string * string) (line : string) : string * string :=
  let line := strip line in
  if startswith (upper line) "FOR:" then (strip (slice_from 4 line), snd st)
  else if startswith (upper line) "AGAINST:" then (fst st, strip (slice_from 8 line))
  else if startswith (upper line) "FOR " then (strip (slice_from 4 line), snd st)
  else if startswith (upper line) "AGAINST " then (fst st, strip (slice_from 8 line))
  else st.

(** [[line.strip() for line in text.split('\n') if line.strip()]]. *)
Definition nonempty_lines (text : string) : list string :=
  map strip (filter (fun line => negb (PyStr.eqb (strip line) "")) (split LF text)).

(** The parsing steps of [generate_stances], from the response text to the
    two cleaned stances. *)
Definition parse_stances (result : string) : string * string :=
  let lines := nonempty_lines result in
  let '(for_stance, against_stance) := fold_left scan_line lines ("", "") in
  let '(for_stance, against_stance) :=
    if PyStr.eqb for_stance "" && PyStr.eqb against_stance "" && (2 <=? List.length lines)
    then (strip (nth 0 lines ""), strip (nth 1 lines ""))
    else (for_stance, against_stance) in
  (strip (replace "FOR" "" (replace "FOR:" "" for_stance)),
   strip (replace "AGAINST" "" (replace "AGAINST:" "" against_stance))).

End Parsing.

Definition stances_prompt (topic : string) : string :=
  ("You are helping set up a debate about: '" ++ topic ++ "'" ++ nl ++ nl
   ++ "Generate exactly two opposing stances in this exact format:" ++ nl
   ++ "FOR: (write a one-sentence stance supporting the topic)" ++ nl
   ++ "AGAINST: (write a one-sentence stance opposing the topic)" ++ nl ++ nl
   ++ "Make each stance clear and specific. Do not add any other text." ++ nl
   ++ "Example format:" ++ nl
   ++ "FOR: Remote work increases productivity and work-life balance while reducing commute times and environmental impact." ++ nl
   ++ "AGAINST: Traditional office work promotes better collaboration, team cohesion, and work-life separation while ensuring proper oversight.")%string.

Definition simple_prompt (topic : string) : string :=
  ("Topic: " ++ topic ++ nl ++ nl
   ++ "1. Write one sentence supporting this topic." ++ nl
   ++ "2. Write one sentence opposing this topic." ++ nl
   ++ "Be clear and specific.")%string.

Section WithBackend.
Context {cm : CaseMap}.
Variable post : backend.

(** [str(e)] for an exception whose text is not written in this code. *)
Variable describe : pyexc -> string.

(** [str(e)]. *)
Definition str_exc (e : pyexc) : string :=
  match e with
  | ConnectionError msg | TimeoutError msg | ValueError msg => msg
  | _ => describe e
  end.

(** [PromptModel._make_api_request]: timeout 60. *)
Definition _make_api_request (model_name prompt : string) : M pyval :=
  make_api_request post 60 model_name prompt.

(** [PromptModel._retry_generate_stances]. *)
Definition _retry_generate_stances (model_name topic : string) : M (string * string) :=
  try_except
    (response <- _make_api_request model_name (simple_prompt topic) ;;
     field <- lift (getitem response "response") ;;
     text <- lift (as_str field) ;;
     let lines := nonempty_lines text in
     if 2 <=? List.length lines
     then ret (nth 0 lines "", nth 1 lines "")
     else raise (ValueError "Could not generate valid stances even with retry"))
    (fun _ => raise (ValueError "Failed to generate debate stances even with retry")).

(** [PromptModel.generate_stances]. *)
Definition generate_stances (model_name topic : string) : M (string * string) :=
  if PyStr.eqb topic "" || (len (strip topic) =? 0)
  then raise (ValueError "Empty topic provided")
  else
    try_except
      (response <- _make_api_request model_name (stances_prompt topic) ;;
       field <- lift (getitem response "response") ;;
       result <- lift (as_str field) ;;
       let '(for_stance, against_stance) := parse_stances result in
       if (len for_stance <? 5) || (len against_stance <? 5)
       then _retry_generate_stances model_name topic
       else ret (for_stance, against_stance))
      (fun e => raise (ValueError ("Failed to generate debate stances: " ++ str_exc e))).

(** The double quote, which the prompt of [generate_system_prompt] puts
    around the topic. *)
Definition DQ : string := String (34%N) "".

(** The prompt of [generate_system_prompt], a triple-quoted f-string with
    the eight blanks of the source on every line. *)
Definition system_prompt_request (stance topic : string) : string :=
  (nl
   ++ "        Create a system prompt for an AI debater that will argue " ++ stance
   ++ " on the topic: " ++ DQ ++ topic ++ DQ ++ nl
   ++ "        " ++ nl
   ++ "        The system prompt should include:" ++ nl
   ++ "        1. Clear definition of the AI's role and perspective" ++ nl
   ++ "        2. Guidelines for maintaining respectful discourse" ++ nl
   ++ "        3. Requirements for using logic and evidence" ++ nl
   ++ "        4. Instructions for keeping responses focused and concise" ++ nl
   ++ "        5. Strategies for addressing counter-arguments" ++ nl
   ++ "        " ++ nl
   ++ "        Return only the system prompt, no explanations." ++ nl
   ++ "        Make it clear and actionable." ++ nl
   ++ "        ")%string.

(** [PromptModel.generate_system_prompt]. *)
Definition generate_system_prompt (model_name stance topic : string) : M string :=
  if PyStr.eqb stance "" || PyStr.eqb topic ""
  then raise (ValueError "Stance and topic are required")
  else
    try_except
      (response <- _make_api_request model_name (system_prompt_request stance topic) ;;
       field <- lift (getitem response "response") ;;
       text <- lift (as_str field) ;;
       let system_prompt := strip text in
       if len system_prompt <? 50
       then raise (ValueError "Generated system prompt is too short")
       else ret system_prompt)
      (fun e => raise e).

End WithBackend.

(** The parsing algorithm in the words of the specification: the response
    is split into its non-empty trimmed lines; for each label the statement
    is the remainder of the last line that carries the label, with its colon
    or a blank, in any letter case; when no statement was extracted and
    there are two lines, these are the statements; the label tokens left in
    a statement are removed.  Nothing here is taken from the code above:
    lines, trimming and the removal of a token are written out anew. *)
Module Spec.

(** A text without the blanks at its start. *)
Fixpoint drop_blanks (s : string) : string :=
  match s with
  | EmptyString => EmptyString
  | String c s' => if isspace c then drop_blanks s' else s
  end.

(** A text read backwards. *)
Fixpoint backwards (s : string) : string :=
  match s with
  | EmptyString => EmptyString
  | String c s' => (backwards s' ++ String c EmptyString)%string
  end.

(** A trimmed text: without the blanks at its start and at its end. *)
Definition trim (s : string) : string :=
  backwards (drop_blanks (backwards (drop_blanks s))).

(** The lines of a text, cut at each line feed; [current] is the line
    being read. *)
Fixpoint cut (current s : string) : list string :=
  match s with
  | EmptyString => [current]
  | String c s' =>
      if N.eqb c LF then current :: cut EmptyString s'
      else cut (current ++ String c EmptyString)%string s'
  end.

(** The non-empty trimmed lines of a response. *)
Definition lines (response : string) : list string :=
  filter (fun line => negb (PyStr.eqb line "")) (map trim (cut "" response)).

(** What follows the first characters of [line], as many as [label] has. *)
Fixpoint after (label line : string) : string :=
  match label, line with
  | EmptyString, _ => line
  | String _ _, EmptyString => EmptyString
  | String _ label', String _ line' => after label' line'
  end.

(** [s] without the occurrences of [token], found from left to right;
    [fuel] bounds the characters still to read. *)
Fixpoint without_from (fuel : nat) (token s : string) : string :=
  match fuel with
  | O => s
  | S fuel' =>
      match s with
      | EmptyString => EmptyString
      | String c s' =>
          if prefix token s then without_from fuel' token (after token s)
          else String c (without_from fuel' token s')
      end
  end.

Definition without (token s : string) : string := without_from (len s) token s.

Section WithCaseMap.
Context {cm : CaseMap}.

(** Two characters are one letter, up to letter case, when they have the
    same upper-casing. *)
Definition same_letter (a b : char) : bool := PyStr.eqb (upper_char a) (upper_char b).

(** [label] is a prefix of [line], up to letter case. *)
Fixpoint prefix_nocase (label line : string) : bool :=
  match label, line with
  | EmptyString, _ => true
  | String _ _, EmptyString => false
  | String a label', String b line' => same_letter a b && prefix_nocase label' line'
  end.

Definition labelled (label line : string) : bool :=
  prefix_nocase (label ++ ":") line || prefix_nocase (label ++ " ") line.

(** The remainder of a labelled line: what follows the label and its
    colon or blank, trimmed. *)
Definition remainder (label line : string) : string :=
  trim (after (label ++ ":") line).

(** The statement extracted for [label]: the last labelled line wins; the
    empty string when no line carries the label. *)
Definition extracted (label : string) (lines : list string) : string :=
  last (map (remainder label) (filter (labelled label) lines)) "".

Definition strip_label (label stmt : string) : string :=
  trim (without label (without (label ++ ":") stmt)).

Definition parse (response : string) : string * string :=
  let lines := lines response in
  let f := extracted "FOR" lines in
  let a := extracted "AGAINST" lines in
  match lines with
  | first :: second :: _ =>
      if PyStr.eqb f "" && PyStr.eqb a ""
      then (strip_label "FOR" first, strip_label "AGAINST" second)
      else (strip_label "FOR" f, strip_label "AGAINST" a)
  | _ => (strip_label "FOR" f, strip_label "AGAINST" a)
  end.

End WithCaseMap.

End Spec.

End PromptModel.

(* ===================================================================== *)
(** ** [app/models/debate_model.py] *)
(* ===================================================================== *)

Module DebateModel.
Import PyStr.

Section WithBackend.
Context {cm : CaseMap}.
Variable post : backend.

(** [str(v)] of a value that is not a string, as an f-string inserts it. *)
Variable py_repr : pyval -> string.

(** [f"{v}"]. *)
Definition py_str (v : pyval) : string :=
  match v with
  | PStr s => s
  | _ => py_repr v
  end.

(** [DebateModel._make_api_request]: timeout 60. *)
Definition _make_api_request (model_name prompt : string) : M pyval :=
  make_api_request post 60 model_name prompt.

(** [context[-3:]] followed by the iteration over it: a list gives its
    last three items, a string its last three characters, and nothing else
    that is true can be sliced (a number or [True] raises [TypeError]; so
    does a dict, up to Python 3.11, and the model keeps that class for it). *)
Definition last_three (context : pyval) : outcome (list pyval) :=
  match context with
  | PList l => Return (list_last 3 l)
  | PStr s => Return (map PStr (chars (slice_last 3 s)))
  | _ => Raise TypeError
  end.

(** One turn of the loop over [enumerate(context[-3:])]: the text added
    to [context_formatted] for the entry at index [i]. *)
Definition format_entry (i : nat) (entry : pyval) : outcome string :=
  if is_dict entry then
    match getitem entry "side" with
    | Raise e => Raise e
    | Return side_value =>
        match as_str side_value with
        | Raise e => Raise e
        | Return side_text =>
            let side := upper side_text in
            match getitem entry "text" with
            | Raise e => Raise e
            | Return text => Return (side ++ ": " ++ py_str text ++ nl)%string
            end
        end
    end
  else Return ("Point " ++ of_nat (i + 1) ++ ": " ++ py_str entry ++ nl)%string.

(** The loop itself, from index [i] on, appending to [acc]. *)
Fixpoint format_entries (i : nat) (acc : string) (entries : list pyval) : outcome string :=
  match entries with
  | [] => Return acc
  | entry :: rest =>
      match format_entry i entry with
      | Raise e => Raise e
      | Return line => format_entries (S i) (acc ++ line)%string rest
      end
  end.

(** The context-formatting step of [generate_response]. *)
Definition format_context (context : pyval) : outcome string :=
  if truthy context then
    match last_three context with
    | Raise e => Raise e
    | Return entries => format_entries 0 "" entries
    end
  else Return "".

Definition response_prompt (topic : pyval) (stance context_formatted : string) : string :=
  ("You are participating in a casual debate about: " ++ py_str topic ++ nl
   ++ "Your stance is: " ++ upper stance ++ nl ++ nl
   ++ "Previous discussion:" ++ nl ++ context_formatted ++ nl ++ nl
   ++ "Respond in a conversational way by:" ++ nl
   ++ "1. Using natural, casual language" ++ nl
   ++ "2. Keeping it brief (1-2 sentences)" ++ nl
   ++ "3. Making it feel like a real-time discussion" ++ nl
   ++ "4. Starting with phrases like 'Actually...', 'I see your point, but...', 'Let me add...'" ++ nl
   ++ "5. Being engaging but concise" ++ nl ++ nl
   ++ "Keep your response under 30 words and make it feel like a natural conversation.")%string.

(** [DebateModel.generate_response]. *)
Definition generate_response (model_name : string) (topic context : pyval)
    (stance : string) : M pyval :=
  if negb (truthy topic) || PyStr.eqb stance ""
  then raise (ValueError "Topic and stance are required")
  else if negb (PyStr.eqb stance "for" || PyStr.eqb stance "against")
  then raise (ValueError "Stance must be either 'for' or 'against'")
  else
    context_formatted <- lift (format_context context) ;;
    let prompt := response_prompt topic stance context_formatted in
    try_except
      (response <- _make_api_request model_name prompt ;;
       field <- lift (method_get response "response" PNone) ;;
       if negb (truthy field)
       then raise (ValueError "Empty response from model")
       else ret response)
      (fun e => raise e).

End WithBackend.
End DebateModel.

(* ===================================================================== *)
(** ** [app/models/moderator_model.py] *)
(* ===================================================================== *)

Module ModeratorModel.
Import PyStr.

Section WithBackend.
Context {cm : CaseMap}.
Variable post : backend.
Variable py_repr : pyval -> string.

Definition py_str : pyval -> string := DebateModel.py_str py_repr.

(** [ModeratorModel._make_api_request]: timeout 60. *)
Definition _make_api_request (model_name prompt : string) : M pyval :=
  make_api_request post 60 model_name prompt.

(** One history item as the three operations render it. *)
Definition format_item (entry : pyval) : outcome string :=
  if is_dict entry then
    match getitem entry "side" with
    | Raise e => Raise e
    | Return side_value =>
        match as_str side_value with
        | Raise e => Raise e
        | Return side_text =>
            match getitem entry "text" with
            | Raise e => Raise e
            | Return text => Return (upper side_text ++ ": " ++ py_str text)%string
            end
        end
    end
  else Return (py_str entry).

(** The loop that fills [formatted_history] from [debate_history[-n:]],
    joined with line feeds into [context_str]. *)
Definition context_str (n : nat) (debate_history : list pyval) : outcome string :=
  match traverse format_item (list_last n debate_history) with
  | Raise e => Raise e
  | Return formatted_history => Return (join nl formatted_history)
  end.

Definition evaluation_prompt (topic current_argument : pyval) (context : string) : string :=
  ("As a debate moderator, evaluate the following argument in the context of the debate:" ++ nl ++ nl
   ++ "Topic: " ++ py_str topic ++ nl
   ++ "Current Argument: " ++ py_str current_argument ++ nl ++ nl
   ++ "Previous Discussion:" ++ nl ++ context ++ nl ++ nl
   ++ "Analyze and return a JSON-like response with these keys:" ++ nl
   ++ "1. is_on_topic (true/false)" ++ nl
   ++ "2. is_circular (true/false)" ++ nl
   ++ "3. is_logical (true/false)" ++ nl
   ++ "4. feedback (brief moderator feedback)")%string.

(** [ModeratorModel.evaluate_response]. *)
Definition evaluate_response (model_name : string) (topic current_argument : pyval)
    (debate_history : list pyval) : M pyval :=
  if negb (truthy current_argument)
  then raise (ValueError "No argument provided for evaluation")
  else
    context <- lift (context_str 3 debate_history) ;;
    let prompt := evaluation_prompt topic current_argument context in
    try_except (_make_api_request model_name prompt) (fun e => raise e).

Definition summary_prompt (topic : pyval) (context : string) : string :=
  ("Provide a brief, impartial summary of the following debate:" ++ nl ++ nl
   ++ "Topic: " ++ py_str topic ++ nl ++ nl
   ++ "Debate History:" ++ nl ++ context ++ nl ++ nl
   ++ "Focus on:" ++ nl
   ++ "1. Key arguments from both sides" ++ nl
   ++ "2. Main points of contention" ++ nl
   ++ "3. Current state of the debate" ++ nl ++ nl
   ++ "Keep the summary concise and neutral.")%string.

(** [ModeratorModel.generate_summary]. *)
Definition generate_summary (model_name : string) (topic : pyval)
    (debate_history : list pyval) : M pyval :=
  match debate_history with
  | [] => raise (ValueError "No debate history provided for summary")
  | _ =>
      context <- lift (context_str 5 debate_history) ;;
      let prompt := summary_prompt topic context in
      try_except
        (response <- _make_api_request model_name prompt ;;
         lift (getitem response "response"))
        (fun e => raise e)
  end.

Definition intervention_prompt (topic : pyval) (context : string) : string :=
  ("Analyze this debate and determine if moderator intervention is needed:" ++ nl ++ nl
   ++ "Topic: " ++ py_str topic ++ nl ++ nl
   ++ "Recent Discussion:" ++ nl ++ context ++ nl ++ nl
   ++ "Check for:" ++ nl
   ++ "1. Off-topic discussion" ++ nl
   ++ "2. Circular arguments" ++ nl
   ++ "3. Logical fallacies" ++ nl
   ++ "4. Need for summary" ++ nl ++ nl
   ++ "Return true if intervention needed, false if not, and include reason.")%string.

(** The body of the [try] block of [should_intervene]. *)
Definition intervene_try (model_name prompt : string) : M pyval :=
  response <- _make_api_request model_name prompt ;;
  field <- lift (getitem response "response") ;;
  text <- lift (as_str field) ;;
  let result := lower text in
  let needs_intervention := contains "true" result in
  ret (PDict [("needs_intervention", PBool needs_intervention);
              ("reason", PStr result)]).

(** [ModeratorModel.should_intervene]. *)
Definition should_intervene (model_name : string) (topic : pyval)
    (debate_history : list pyval) : M pyval :=
  match debate_history with
  | [] => ret (PDict [("needs_intervention", PBool false);
                      ("reason", PStr "Debate hasn't started yet")])
  | _ =>
      context <- lift (context_str 3 debate_history) ;;
      let prompt := intervention_prompt topic context in
      try_except
        (intervene_try model_name prompt)
        (fun _ => ret (PDict [("needs_intervention", PBool false);
                              ("reason", PStr "Error in intervention check")]))
  end.

End WithBackend.
End ModeratorModel.

(* ===================================================================== *)
(** ** [app/routes.py] *)
(* ===================================================================== *)

Module Routes.
Import PyStr.

(** A Flask response: the value given to [jsonify] and the status code. *)
Definition flask_response : Type := (pyval * Z)%type.

Definition jsonify (fields : list (string * pyval)) : pyval := PDict fields.

(** The [handle_errors] decorator. *)
Definition handle_errors (f : M flask_response) : M flask_response :=
  try_except f
    (fun e =>
       match e with
       | Reraised r =>
           if is_requests_ConnectionError r
           then ret (jsonify [("status", PStr "error");
                              ("message", PStr "AI service is currently unavailable. Please ensure Ollama is running.")],
                     503%Z)
           else ret (jsonify [("status", PStr "error");
                              ("message", PStr "An unexpected error occurred. Please try again.")],
                     500%Z)
       | _ => ret (jsonify [("status", PStr "error");
                            ("message", PStr "An unexpected error occurred. Please try again.")],
                   500%Z)
       end).

(** [field in data]. *)
Definition field_in (field : string) (data : pyval) : outcome bool :=
  match data with
  | PDict d => Return (match assoc field d with Some _ => true | None => false end)
  | PList l => Return (existsb (fun v => eq_str v field) l)
  | PStr s => Return (contains field s)
  | _ => Raise TypeError
  end.

(** [all(field in data for field in required_fields)]: it stops at the
    first field that is missing. *)
Fixpoint all_fields_in (required_fields : list string) (data : pyval) : outcome bool :=
  match required_fields with
  | [] => Return true
  | field :: rest =>
      match field_in field data with
      | Raise e => Raise e
      | Return false => Return false
      | Return true => all_fields_in rest data
      end
  end.

(** ['for' if current_side == 'against' else 'against']. *)
Definition next_side (current_side : string) : string :=
  if PyStr.eqb current_side "against" then "for" else "against".

(** [if debate_history is None: debate_history = []] and
    [debate_history.append(entry)]: only a list has the method. *)
Definition append_entry (debate_history entry : pyval) : outcome (list pyval) :=
  match debate_history with
  | PNone => Return [entry]
  | PList l => Return (l ++ [entry])
  | _ => Raise AttributeError
  end.

(** [[h['text'] for h in debate_history]]. *)
Definition texts_of (debate_history : list pyval) : outcome (list pyval) :=
  traverse (fun h => getitem h "text") debate_history.

Section WithBackend.
Context {cm : CaseMap}.
Variable post : backend.
Variable py_repr : pyval -> string.

(** The [try] block of [debate_round], after the request is validated. *)
Definition round_try (topic debate_history : pyval) (current_side : string)
    : M flask_response :=
  response <- DebateModel.generate_response post py_repr Config.DEBATE_MODEL
                topic debate_history current_side ;;
  current_argument <- lift (getitem response "response") ;;
  debate_history <- lift (append_entry debate_history
                            (PDict [("side", PStr current_side);
                                    ("text", current_argument)])) ;;
  texts <- lift (texts_of debate_history) ;;
  moderator_check <- ModeratorModel.should_intervene post py_repr
                       Config.MODERATOR_MODEL topic texts ;;
  needs <- lift (getitem moderator_check "needs_intervention") ;;
  if truthy needs then
    texts <- lift (texts_of debate_history) ;;
    summary <- ModeratorModel.generate_summary post py_repr
                 Config.MODERATOR_MODEL topic texts ;;
    message <- lift (getitem moderator_check "reason") ;;
    ret (jsonify [("status", PStr "moderator_intervention");
                  ("argument", current_argument);
                  ("message", message);
                  ("summary", summary);
                  ("next_side", PStr (next_side current_side))],
         200%Z)
  else
    texts <- lift (texts_of debate_history) ;;
    evaluation <- ModeratorModel.evaluate_response post py_repr
                    Config.MODERATOR_MODEL topic current_argument texts ;;
    ret (jsonify [("status", PStr "success");
                  ("argument", current_argument);
                  ("evaluation", evaluation);
                  ("next_side", PStr (next_side current_side));
                  ("debate_history", PList debate_history)],
         200%Z).

(** The steps of [round_try] that follow the projection of the history,
    given its result [texts]: the form [round_try] takes once the three
    comprehensions [[h['text'] for h in debate_history]] have been run. *)
Definition moderation (topic : pyval) (current_side : string) (current_argument : pyval)
    (debate_history texts : list pyval) : M flask_response :=
  moderator_check <- ModeratorModel.should_intervene post py_repr
                       Config.MODERATOR_MODEL topic texts ;;
  needs <- lift (getitem moderator_check "needs_intervention") ;;
  if truthy needs then
    summary <- ModeratorModel.generate_summary post py_repr
                 Config.MODERATOR_MODEL topic texts ;;
    message <- lift (getitem moderator_check "reason") ;;
    ret (jsonify [("status", PStr "moderator_intervention");
                  ("argument", current_argument);
                  ("message", message);
                  ("summary", summary);
                  ("next_side", PStr (next_side current_side))],
         200%Z)
  else
    evaluation <- ModeratorModel.evaluate_response post py_repr
                    Config.MODERATOR_MODEL topic current_argument texts ;;
    ret (jsonify [("status", PStr "success");
                  ("argument", current_argument);
                  ("evaluation", evaluation);
                  ("next_side", PStr (next_side current_side));
                  ("debate_history", PList debate_history)],
         200%Z).

(** The view function [debate_round], before [handle_errors] wraps it;
    [data] is [request.json]. *)
Definition debate_round_view (data : pyval) : M flask_response :=
  present <- lift (all_fields_in ["topic"; "current_side"] data) ;;
  if negb present
  then ret (jsonify [("status", PStr "error");
                     ("message", PStr "Missing required debate information")],
            400%Z)
  else
    topic <- lift (method_get data "topic" PNone) ;;
    debate_history <- lift (method_get data "debate_history" (PList [])) ;;
    current_side <- lift (method_get data "current_side" PNone) ;;
    match current_side with
    | PStr side =>
        if PyStr.eqb side "for" || PyStr.eqb side "against"
        then try_except (round_try topic debate_history side) (fun e => raise e)
        else ret (jsonify [("status", PStr "error");
                           ("message", PStr "Invalid debate side specified")],
                  400%Z)
    | _ => ret (jsonify [("status", PStr "error");
                         ("message", PStr "Invalid debate side specified")],
                400%Z)
    end.

(** The route [/debate_round]. *)
Definition debate_round (data : pyval) : M flask_response :=
  handle_errors (debate_round_view data).

(** [str(e)] for an exception whose text is not written in this code, as
    [PromptModel.generate_stances] needs it. *)
Variable describe : pyexc -> string.

(** The two steps of [start_debate] that follow the filter: the stances
    and the two system prompts. *)
Definition start_debate_setup (topic : string) : M flask_response :=
  stances <- PromptModel.generate_stances post describe Config.PROMPT_MODEL topic ;;
  let '(for_stance, against_stance) := stances in
  if PyStr.eqb for_stance "" || PyStr.eqb against_stance ""
  then raise (ValueError "Failed to generate valid debate stances")
  else
    for_system_prompt <- PromptModel.generate_system_prompt post Config.PROMPT_MODEL
                           for_stance topic ;;
    against_system_prompt <- PromptModel.generate_system_prompt post Config.PROMPT_MODEL
                               against_stance topic ;;
    ret (jsonify [("status", PStr "success");
                  ("data", PDict [("topic", PStr topic);
                                  ("for_stance", PStr for_stance);
                                  ("against_stance", PStr against_stance);
                                  ("for_system_prompt", PStr for_system_prompt);
                                  ("against_system_prompt", PStr against_system_prompt)])],
         200%Z).

(** The view function [start_debate], before [handle_errors] wraps it;
    [data] is [request.json].  Only a string has the [strip] of the
    guard. *)
Definition start_debate_view (data : pyval) : M flask_response :=
  topic <- lift (method_get data "topic" PNone) ;;
  if negb (truthy topic)
  then ret (jsonify [("status", PStr "error");
                     ("message", PStr "Please provide a valid debate topic")],
            400%Z)
  else
    text <- lift (as_str topic) ;;
    if len (strip text) =? 0
    then ret (jsonify [("status", PStr "error");
                       ("message", PStr "Please provide a valid debate topic")],
              400%Z)
    else
      try_except
        (filter_result <- FilterModel.filter_topic post Config.FILTER_MODEL text ;;
         appropriate <- lift (getitem filter_result "is_appropriate") ;;
         if negb (truthy appropriate)
         then ret (jsonify [("status", PStr "error");
                            ("message", PStr "Topic is not appropriate for debate. Please choose another topic.")],
                   400%Z)
         else try_except (start_debate_setup text) (fun e => raise e))
        (fun e => raise e).

(** The route [/start_debate]. *)
Definition start_debate (data : pyval) : M flask_response :=
  handle_errors (start_debate_view data).

(** The history [generate_summary] works on when [end_debate] hands it
    the value [data['debate_history']]: a list as it is, a string as its
    characters, nothing for a value that is false, and no other value can
    be sliced. *)
Definition summary_history (debate_history : pyval) : outcome (list pyval) :=
  match debate_history with
  | PList l => Return l
  | PStr s => Return (map PStr (chars s))
  | _ => if truthy debate_history then Raise TypeError else Return []
  end.

(** The view function [end_debate], before [handle_errors] wraps it. *)
Definition end_debate_view (data : pyval) : M flask_response :=
  has_topic <- lift (field_in "topic" data) ;;
  if negb has_topic
  then ret (jsonify [("status", PStr "error");
                     ("message", PStr "Missing required debate information for summary")],
            400%Z)
  else
    has_history <- lift (field_in "debate_history" data) ;;
    if negb has_history
    then ret (jsonify [("status", PStr "error");
                       ("message", PStr "Missing required debate information for summary")],
              400%Z)
    else
      try_except
        (topic <- lift (getitem data "topic") ;;
         debate_history <- lift (getitem data "debate_history") ;;
         history <- lift (summary_history debate_history) ;;
         final_summary <- ModeratorModel.generate_summary post py_repr
                            Config.MODERATOR_MODEL topic history ;;
         ret (jsonify [("status", PStr "success");
                       ("final_summary", final_summary)],
              200%Z))
        (fun e => raise e).

(** The route [/end_debate]. *)
Definition end_debate (data : pyval) : M flask_response :=
  handle_errors (end_debate_view data).

End WithBackend.

(** The [side] of a history entry, when it is a dict that has one. *)
Definition side_of (entry : pyval) : option pyval :=
  match entry with
  | PDict d => assoc "side" d
  | _ => None
  end.

(** The sides of successive entries differ. *)
Fixpoint alternating (sides : list (option pyval)) : Prop :=
  match sides with
  | a :: ((b :: _) as rest) => a <> b /\ alternating rest
  | _ => True
  end.

(** The history a request carries: [data.get('debate_history', [])], with
    [None] read as the empty list. *)
Definition supplied_history (data : pyval) : list pyval :=
  match method_get data "debate_history" (PList []) with
  | Return (PList l) => l
  | _ => []
  end.

End Routes.

(* ===================================================================== *)
(** ** Vocabulary of the statements *)
(* ===================================================================== *)

Module Vocabulary.
Import PyStr.

Section WithCaseMap.
Context {cm : CaseMap}.

(** [sub] occurs in [s]. *)
Definition Occurs (sub s : string) : Prop :=
  exists before after : string, s = (before ++ sub ++ after)%string.

(** The well-formed answer to the stance prompt: two labelled lines. *)
Definition labelled_response (X Y : string) : string :=
  ("FOR: " ++ X ++ nl ++ "AGAINST: " ++ Y)%string.

(** A statement that fits on a labelled line and passes the validation of
    [generate_stances] as it is: trimmed, on one line, of five characters
    or more, and free of the label token the clean-up removes. *)
Definition statement (label X : string) : Prop :=
  strip X = X /\ 5 <= len X /\
  contains nl X = false /\ contains label X = false.

(** An exception the request layer raises in place of the one it caught:
    one of the three built-in classes its handlers construct. *)
Definition mapped (e : pyexc) : Prop :=
  exists msg, e = ConnectionError msg \/ e = TimeoutError msg \/ e = ValueError msg.

(** A 4xx or 5xx status, the ones [raise_for_status] raises for. *)
Definition error_status (status : Z) : Prop := (400 <= status < 600)%Z.

(** The error [generate_stances] raises when its retry failed. *)
Definition retry_failure : pyexc :=
  ValueError "Failed to generate debate stances: Failed to generate debate stances even with retry".

(** A structured history entry: a dict with a textual [side] and a [text]. *)
Definition structured (entry : pyval) : Prop :=
  exists d side text,
    entry = PDict d /\ assoc "side" d = Some (PStr side) /\ assoc "text" d = Some text.

(** An entry the formatting loops can render: a structured entry, or any
    value that is not a dict. *)
Definition renderable (entry : pyval) : Prop :=
  is_dict entry = false \/ structured entry.

(** The line for the entry at index [i] of the rendered window: a
    structured entry gives [SIDE: text], anything else [Point N: rawText]
    with [N = i + 1]. *)
Inductive rendered (py_repr : pyval -> string) : nat -> pyval -> string -> Prop :=
| rendered_structured (i : nat) (d : list (string * pyval)) (side : string) (text : pyval) :
    assoc "side" d = Some (PStr side) ->
    assoc "text" d = Some text ->
    rendered py_repr i (PDict d)
      (upper side ++ ": " ++ DebateModel.py_str py_repr text ++ nl)
| rendered_point (i : nat) (entry : pyval) :
    is_dict entry = false ->
    rendered py_repr i entry
      ("Point " ++ of_nat (i + 1) ++ ": " ++ DebateModel.py_str py_repr entry ++ nl).

(** The two responses [moderation] can return. *)
Definition intervention_body (side : string) (argument message summary : pyval) : pyval :=
  Routes.jsonify [("status", PStr "moderator_intervention");
           ("argument", argument);
           ("message", message);
           ("summary", summary);
           ("next_side", PStr (Routes.next_side side))].

Definition success_body (side : string) (argument evaluation : pyval)
    (entries : list pyval) : pyval :=
  Routes.jsonify [("status", PStr "success");
           ("argument", argument);
           ("evaluation", evaluation);
           ("next_side", PStr (Routes.next_side side));
           ("debate_history", PList entries)].

(** The error response of a route: status 400, 500 or 503. *)
Definition error_response (response : Routes.flask_response) : Prop :=
  exists message code,
    response = (Routes.jsonify [("status", PStr "error"); ("message", PStr message)], code)
    /\ code <> 200%Z.

(** [data.get('debate_history', [])] on the bindings of the request. *)
Definition history_value (d : list (string * pyval)) : pyval :=
  match assoc "debate_history" d with
  | Some h => h
  | None => PList []
  end.




(** The request a moderator operation sends for [prompt]. *)
Definition moderator_request (prompt : string) : request :=
  mkRequest "http://localhost:11434/api/generate" Config.MODERATOR_MODEL prompt false 60.

(** The response of [handle_errors] to an exception that is not a
    [requests] connection error. *)
Definition internal_error : Routes.flask_response :=
  (Routes.jsonify [("status", PStr "error");
                   ("message", PStr "An unexpected error occurred. Please try again.")],
   500%Z).

(** An exception [handle_errors] answers with status 500: anything but a
    connection error of the [requests] package. *)
Definition answered_500 (e : pyexc) : Prop :=
  match e with
  | Reraised r => is_requests_ConnectionError r = false
  | _ => True
  end.

(** The request a prompt-model operation sends for [prompt]. *)
Definition prompt_request (prompt : string) : request :=
  mkRequest "http://localhost:11434/api/generate" Config.PROMPT_MODEL prompt false 60.

(** The request [filter_topic] sends for [topic]. *)
Definition filter_request (topic : string) : request :=
  mkRequest "http://localhost:11434/api/generate" Config.FILTER_MODEL
    (FilterModel.filter_prompt topic) false 30.

(** [entry] is a dict with the textual side [side] and the text [text],
    and [line] is its rendering [SIDE: text]. *)
Definition structured_line (entry : pyval) (line : string) : Prop :=
  exists d side text,
    entry = PDict d /\ assoc "side" d = Some (PStr side)
    /\ assoc "text" d = Some (PStr text)
    /\ line = (PyStr.upper side ++ ": " ++ text)%string.

(** A text each of whose characters upper-cases to one character.  Every
    ASCII text is one; a text that holds U+00DF, whose upper-casing has two
    characters, is none. *)
Fixpoint letterwise (s : string) : Prop :=
  match s with
  | EmptyString => True
  | String c s' => len (upper_char c) = 1 /\ letterwise s'
  end.

(** A label whose characters are their own upper-casing. *)
Fixpoint capital (label : string) : Prop :=
  match label with
  | EmptyString => True
  | String a label' => upper_char a = String a EmptyString /\ capital label'
  end.

End WithCaseMap.

(** A text of ASCII characters. *)
Fixpoint ascii_text (s : string) : Prop :=
  match s with
  | EmptyString => True
  | String c s' => (c < 128)%N /\ ascii_text s'
  end.

End Vocabulary.

(* ===================================================================== *)
(** * Properties *)
(* ===================================================================== *)

(* ===================================================================== *)
(** ** Facts about the string operations *)
(* ===================================================================== *)

Module PyStrFacts.
Import PyStr Vocabulary.

Section Runs.
#[local] Existing Instance plain_case.

Example strip_both_ends : strip "  a b  " = "a b".
Proof. reflexivity. Qed.

(** The no-break space, the ideographic space and the line separator are
    blanks; a text of three ideographs has length three. *)
Example strip_unicode_blanks :
  strip (String 0xA0 (String 0x3000 ("a b" ++ String 0x2028 ""))) = "a b"
  /\ strip (String 0xA0 "") = "".
Proof. split; reflexivity. Qed.

Example len_counts_code_points :
  len (String 0x732B (String 0x306F (String 0x5BDD ""))) = 3.
Proof. reflexivity. Qed.

Example upper_lower : upper "For: x" = "FOR: X" /\ lower "TrUe." = "true.".
Proof. split; reflexivity. Qed.

Example replace_every_occurrence :
  replace "true" "" "it is truetrue tr-true." = "it is  tr-.".
Proof. reflexivity. Qed.

Example split_keeps_empty_lines :
  split LF ("a" ++ nl ++ nl ++ "b" ++ nl) = ["a"; ""; "b"; ""].
Proof. reflexivity. Qed.

Example contains_substring : contains "true" "not untrue" = true /\ contains "true" "tru e" = false.
Proof. split; reflexivity. Qed.


End Runs.

Lemma str_eqb_eq (a b : string) : PyStr.eqb a b = true <-> a = b.
Proof.
  revert b. induction a as [|c a IH]; intros [|d b]; simpl;
    try (split; [discriminate|discriminate]); [split; reflexivity|].
  rewrite andb_true_iff, N.eqb_eq, IH. split.
  - intros [-> ->]. reflexivity.
  - intros H. inversion H. now split.
Qed.

Lemma str_eqb_refl (a : string) : PyStr.eqb a a = true.
Proof. now apply str_eqb_eq. Qed.

Lemma str_eqb_neq (a b : string) : PyStr.eqb a b = false <-> a <> b.
Proof.
  rewrite <- str_eqb_eq. destruct (PyStr.eqb a b); split; congruence.
Qed.

Lemma append_assoc (a b c : string) : ((a ++ b) ++ c = a ++ (b ++ c))%string.
Proof.
  induction a as [|x a IH]; simpl; [reflexivity|]. now rewrite IH.
Qed.

Lemma append_empty_r (a : string) : (a ++ "")%string = a.
Proof.
  induction a as [|x a IH]; simpl; [reflexivity|]. now rewrite IH.
Qed.

Lemma append_length (a b : string) :
  len (a ++ b) = len a + len b.
Proof.
  induction a as [|x a IH]; simpl; [reflexivity|]. now rewrite IH.
Qed.

Lemma prefix_iff (p s : string) :
  prefix p s = true <-> exists rest, s = (p ++ rest)%string.
Proof.
  revert s. induction p as [|a p IH]; intros s; simpl.
  - destruct s; simpl; split; intros; eauto.
  - destruct s as [|b s]; simpl.
    + split; [discriminate|]. intros [rest H]. discriminate.
    + destruct (N.eqb_spec a b) as [->|Hne]; cbn [andb].
      * rewrite IH. split; intros [rest H]; exists rest.
        -- now rewrite H.
        -- now inversion H.
      * split; [discriminate|]. intros [rest H]. congruence.
Qed.

Lemma contains_iff (sub s : string) : contains sub s = true <-> Occurs sub s.
Proof.
  induction s as [|c s IH].
  - cbn [contains]. rewrite orb_false_r, prefix_iff. split.
    + intros [rest H]. exists "", rest. exact H.
    + intros [before [after H]]. destruct before; simpl in H.
      * now exists after.
      * discriminate.
  - cbn [contains]. rewrite orb_true_iff, IH, prefix_iff. split.
    + intros [[rest H]|[before [after H]]].
      * exists "", rest. exact H.
      * exists (String c before), after. simpl. now rewrite H.
    + intros [before [after H]]. destruct before as [|b before]; simpl in H.
      * left. now exists after.
      * right. inversion H. now exists before, after.
Qed.

Lemma contains_false_iff (sub s : string) : contains sub s = false <-> ~ Occurs sub s.
Proof.
  rewrite <- contains_iff. destruct (contains sub s); split; intros; congruence.
Qed.

(** An occurrence of a longer token is one of each of its prefixes. *)
Lemma Occurs_prefix (a b s : string) : Occurs (a ++ b) s -> Occurs a s.
Proof.
  intros [before [after H]]. exists before, (b ++ after)%string.
  now rewrite H, append_assoc.
Qed.

Lemma replace_absent (old new s : string) :
  contains old s = false -> replace old new s = s.
Proof.
  unfold replace. induction s as [|c s IH]; [reflexivity|].
  cbn [contains replace_from]. intros H. apply orb_false_iff in H as [Hp Hc].
  rewrite Hp. now rewrite (IH Hc).
Qed.

Lemma lstrip_length (s : string) : len (lstrip s) <= len s.
Proof.
  induction s as [|c s IH]; simpl; [lia|]. destruct (isspace c); simpl; lia.
Qed.

Lemma rstrip_length (s : string) : len (rstrip s) <= len s.
Proof.
  induction s as [|c s IH]; simpl; [lia|].
  destruct (rstrip s); [destruct (isspace c)|]; simpl in *; lia.
Qed.

Lemma lstrip_fixed_of_length (s : string) :
  len (lstrip s) = len s -> lstrip s = s.
Proof.
  destruct s as [|c s]; simpl; [reflexivity|].
  destruct (isspace c); [|reflexivity].
  intros H. pose proof (lstrip_length s). lia.
Qed.

(** A string that [strip] leaves alone is left alone by both halves. *)
Lemma strip_fixed (s : string) : strip s = s -> lstrip s = s /\ rstrip s = s.
Proof.
  unfold strip. intros H.
  assert (Hl : lstrip s = s).
  { apply lstrip_fixed_of_length.
    pose proof (lstrip_length s). pose proof (rstrip_length (lstrip s)).
    rewrite H in *. lia. }
  split; [exact Hl|]. now rewrite Hl in H.
Qed.

Lemma rstrip_cons (c : char) (s : string) :
  rstrip s <> "" -> rstrip (String c s) = String c (rstrip s).
Proof.
  simpl. destruct (rstrip s); [congruence|reflexivity].
Qed.

Lemma rstrip_cons_nonspace (c : char) (s : string) :
  isspace c = false -> rstrip (String c s) = String c (rstrip s).
Proof.
  intros H. simpl. destruct (rstrip s); [now rewrite H|reflexivity].
Qed.

Lemma rstrip_app_fixed (p s : string) :
  rstrip s = s -> s <> "" -> rstrip (p ++ s) = (p ++ s)%string.
Proof.
  intros Hs Hne. induction p as [|c p IH]; simpl append; [exact Hs|].
  rewrite rstrip_cons.
  - now rewrite IH.
  - rewrite IH. destruct p; simpl; [exact Hne|discriminate].
Qed.

Lemma rstrip_idem (s : string) : rstrip (rstrip s) = rstrip s.
Proof.
  induction s as [|c s IH]; [reflexivity|].
  cbn [rstrip]. destruct (rstrip s) as [|d r] eqn:E.
  - destruct (isspace c) eqn:Ec; [reflexivity|]. simpl. now rewrite Ec.
  - rewrite rstrip_cons; [now rewrite IH|]. rewrite IH. discriminate.
Qed.

Lemma lstrip_head (s : string) :
  lstrip s = "" \/ exists c t, lstrip s = String c t /\ isspace c = false.
Proof.
  induction s as [|c s IH]; simpl; [now left|].
  destruct (isspace c) eqn:E; [exact IH|]. right. now exists c, s.
Qed.

Lemma strip_idem (s : string) : strip (strip s) = strip s.
Proof.
  unfold strip. destruct (lstrip_head s) as [H|[c [t [H Hc]]]]; rewrite H.
  - reflexivity.
  - rewrite rstrip_cons_nonspace by exact Hc.
    cbn [lstrip]. rewrite Hc. rewrite <- rstrip_cons_nonspace by exact Hc.
    apply rstrip_idem.
Qed.

Lemma strip_empty_iff_length (s : string) :
  (len (strip s) =? 0) = PyStr.eqb (strip s) "".
Proof. destruct (strip s); reflexivity. Qed.

(** Splitting at line feeds a text whose first line holds none. *)
Lemma split_first_line (line rest : string) :
  contains nl line = false ->
  split LF (line ++ String LF rest) = line :: split LF rest.
Proof.
  induction line as [|c line IH]; intros H.
  - reflexivity.
  - cbn [contains] in H. apply orb_false_iff in H as [Hp Hc].
    cbn [append split].
    destruct (N.eqb c LF) eqn:E.
    + apply N.eqb_eq in E. subst c. simpl in Hp.
      destruct line; discriminate.
    + now rewrite (IH Hc).
Qed.

Lemma split_single_line (line : string) :
  contains nl line = false -> split LF line = [line].
Proof.
  induction line as [|c line IH]; intros H; [reflexivity|].
  cbn [contains] in H. apply orb_false_iff in H as [Hp Hc].
  cbn [split]. destruct (N.eqb c LF) eqn:E.
  - apply N.eqb_eq in E. subst c. simpl in Hp. destruct line; discriminate.
  - now rewrite (IH Hc).
Qed.

End PyStrFacts.

Module StanceParsing.
Import PyStr PyStrFacts Vocabulary PromptModel.

Section Runs.
#[local] Existing Instance plain_case.

Example parse_labelled_lines :
  parse_stances ("for: Cats are fine pets." ++ nl ++ nl ++ "  Against cats scratching  ") =
    ("Cats are fine pets.", "cats scratching").
Proof. reflexivity. Qed.

Example parse_falls_back_to_first_lines :
  parse_stances ("Cats are fine pets." ++ nl ++ "Cats scratch the sofa.") =
    ("Cats are fine pets.", "Cats scratch the sofa.").
Proof. reflexivity. Qed.

Example parse_removes_label_tokens :
  parse_stances ("FOR: Vote FOR cats" ++ nl ++ "AGAINST: Dogs first") =
    ("Vote  cats", "Dogs first").
Proof. reflexivity. Qed.

End Runs.

Section General.
Context {cm : CaseMap}.

Lemma strip_after_label (c : char) (p X : string) :
  isspace c = false -> strip X = X -> X <> "" ->
  strip (String c p ++ X) = (String c p ++ X)%string.
Proof.
  intros Hc HX Hne. unfold strip. cbn [append lstrip]. rewrite Hc.
  apply (rstrip_app_fixed (String c p) X); [|exact Hne].
  now apply strip_fixed.
Qed.

Lemma strip_after_blank (X : string) : strip X = X -> strip (String 32 X) = X.
Proof. intros H. unfold strip in *. simpl. exact H. Qed.

Lemma statement_nonempty (label X : string) : statement label X -> X <> "".
Proof. intros (_ & H & _) ->. simpl in H. lia. Qed.

Lemma labelled_response_lines (X Y : string) :
  statement "FOR" X -> statement "AGAINST" Y ->
  nonempty_lines (labelled_response X Y) = [("FOR: " ++ X)%string; ("AGAINST: " ++ Y)%string].
Proof.
  intros HX HY.
  pose proof (statement_nonempty _ _ HX) as HXne.
  pose proof (statement_nonempty _ _ HY) as HYne.
  destruct HX as (HX1 & _ & HX3 & _). destruct HY as (HY1 & _ & HY3 & _).
  unfold nonempty_lines, labelled_response.
  change ("FOR: " ++ X ++ nl ++ "AGAINST: " ++ Y)%string
    with ("FOR: " ++ (X ++ String LF ("AGAINST: " ++ Y)))%string.
  rewrite <- append_assoc.
  rewrite split_first_line.
  2:{ simpl. exact HX3. }
  rewrite split_single_line.
  2:{ simpl. exact HY3. }
  cbn [filter map].
  rewrite !(strip_after_label 70) by (try reflexivity; assumption).
  rewrite !(strip_after_label 65) by (try reflexivity; assumption).
  change (negb (PyStr.eqb ("FOR: " ++ X) "")) with true.
  change (negb (PyStr.eqb ("AGAINST: " ++ Y) "")) with true.
  cbn [map].
  rewrite (strip_after_label 70 "OR: ") by (try reflexivity; assumption).
  rewrite (strip_after_label 65 "GAINST: ") by (try reflexivity; assumption).
  reflexivity.
Qed.

Lemma scan_labelled_response (X Y : string) :
  statement "FOR" X -> statement "AGAINST" Y ->
  fold_left scan_line [("FOR: " ++ X)%string; ("AGAINST: " ++ Y)%string] ("", "") = (X, Y).
Proof.
  intros HX HY.
  pose proof (statement_nonempty _ _ HX) as HXne.
  pose proof (statement_nonempty _ _ HY) as HYne.
  destruct HX as (HX1 & _). destruct HY as (HY1 & _).
  cbn [fold_left]. unfold scan_line at 2.
  rewrite (strip_after_label 70) by (try reflexivity; assumption).
  change (startswith (upper ("FOR: " ++ X)) "FOR:") with true. cbv iota.
  change (slice_from 4 ("FOR: " ++ X)) with (String 32 X).
  rewrite strip_after_blank by assumption. cbn [snd].
  unfold scan_line.
  rewrite (strip_after_label 65) by (try reflexivity; assumption).
  change (startswith (upper ("AGAINST: " ++ Y)) "FOR:") with false.
  change (startswith (upper ("AGAINST: " ++ Y)) "AGAINST:") with true. cbv iota.
  change (slice_from 8 ("AGAINST: " ++ Y)) with (String 32 Y).
  rewrite strip_after_blank by assumption. reflexivity.
Qed.

Lemma clean_statement (label X : string) :
  statement label X -> strip (replace label "" (replace (label ++ ":") "" X)) = X.
Proof.
  intros (H1 & _ & _ & H4).
  rewrite (replace_absent (label ++ ":")).
  - now rewrite replace_absent.
  - apply contains_false_iff. intros H. apply Occurs_prefix in H.
    apply contains_false_iff in H4. contradiction.
Qed.

Lemma parse_labelled_response (X Y : string) :
  statement "FOR" X -> statement "AGAINST" Y ->
  parse_stances (labelled_response X Y) = (X, Y).
Proof.
  intros HX HY. unfold parse_stances.
  rewrite labelled_response_lines, scan_labelled_response by assumption.
  pose proof (statement_nonempty _ _ HX) as HXne.
  assert (E : PyStr.eqb X "" = false) by now apply str_eqb_neq.
  rewrite E. cbn [andb].
  change "FOR:" with ("FOR" ++ ":")%string.
  change "AGAINST:" with ("AGAINST" ++ ":")%string.
  now rewrite !clean_statement.
Qed.

End General.

End StanceParsing.

Module StanceRefinement.
Import PyStr PyStrFacts Vocabulary PromptModel.

Section General.
Context {cm : CaseMap}.

(** *** Trimming *)

Lemma backwards_app (a b : string) :
  Spec.backwards (a ++ b) = (Spec.backwards b ++ Spec.backwards a)%string.
Proof.
  induction a as [|c a IH]; simpl.
  - now rewrite append_empty_r.
  - now rewrite IH, append_assoc.
Qed.

Lemma backwards_involutive (s : string) : Spec.backwards (Spec.backwards s) = s.
Proof.
  induction s as [|c s IH]; [reflexivity|].
  simpl. rewrite backwards_app, IH. reflexivity.
Qed.

Lemma drop_blanks_lstrip (s : string) : Spec.drop_blanks s = lstrip s.
Proof. induction s as [|c s IH]; simpl; [reflexivity|]. now rewrite IH. Qed.

(** [rstrip] reads the text from its end. *)
Lemma rstrip_snoc (s : string) (c : char) :
  rstrip (s ++ String c "") = if isspace c then rstrip s else (s ++ String c "")%string.
Proof.
  induction s as [|d s IH].
  - simpl. now destruct (isspace c).
  - cbn [append rstrip]. rewrite IH. destruct (isspace c); [reflexivity|].
    now destruct s.
Qed.

Lemma rstrip_backwards (t : string) :
  rstrip (Spec.backwards t) = Spec.backwards (lstrip t).
Proof.
  induction t as [|c t IH]; [reflexivity|].
  cbn [Spec.backwards lstrip]. rewrite rstrip_snoc, IH.
  now destruct (isspace c).
Qed.

(** The trimming of the specification is [strip]. *)
Lemma trim_strip (s : string) : Spec.trim s = strip s.
Proof.
  unfold Spec.trim, strip. rewrite !drop_blanks_lstrip, <- rstrip_backwards.
  now rewrite backwards_involutive.
Qed.

(** *** Lines *)

Lemma split_not_nil (sep : char) (s : string) : split sep s <> [].
Proof.
  induction s as [|c s IH]; simpl; [discriminate|].
  destruct (N.eqb c sep); [discriminate|].
  destruct (split sep s); [congruence|discriminate].
Qed.

Lemma cut_split (current s : string) :
  Spec.cut current s =
    match split LF s with
    | h :: t => (current ++ h)%string :: t
    | [] => [current]
    end.
Proof.
  revert current. induction s as [|c s IH]; intros current.
  - simpl. now rewrite append_empty_r.
  - cbn [Spec.cut split]. destruct (N.eqb c LF).
    + rewrite IH, append_empty_r.
      pose proof (split_not_nil LF s) as Hne.
      destruct (split LF s); [congruence|reflexivity].
    + rewrite IH. pose proof (split_not_nil LF s) as Hne.
      destruct (split LF s); [congruence|].
      now rewrite append_assoc.
Qed.

Lemma filter_map_strip (l : list string) :
  filter (fun line => negb (PyStr.eqb line "")) (map strip l) =
    map strip (filter (fun line => negb (PyStr.eqb (strip line) "")) l).
Proof.
  induction l as [|x l IH]; [reflexivity|].
  cbn [map filter]. rewrite IH. now destruct (negb _).
Qed.

(** The lines of the specification are those of the code. *)
Lemma lines_nonempty_lines (text : string) : Spec.lines text = nonempty_lines text.
Proof.
  unfold Spec.lines, nonempty_lines. rewrite cut_split.
  pose proof (split_not_nil LF text) as Hne.
  destruct (split LF text) as [|h t] eqn:E; [congruence|].
  cbn [append]. rewrite (map_ext _ _ trim_strip). apply filter_map_strip.
Qed.

(** *** The remainder of a line and the removal of a token *)

Lemma after_slice (label line : string) :
  Spec.after label line = slice_from (len label) line.
Proof.
  revert line. induction label as [|a label IH]; intros line; [reflexivity|].
  destruct line as [|b line]; [reflexivity|]. apply IH.
Qed.

Lemma slice_from_empty (n : nat) : slice_from n "" = "".
Proof. now destruct n. Qed.

Lemma slice_from_length (n : nat) (s : string) : len (slice_from n s) <= len s.
Proof.
  revert s. induction n as [|n IH]; intros s; [simpl; lia|].
  destruct s as [|c s]; [simpl; lia|]. simpl. specialize (IH s). lia.
Qed.

(** To drop the rest of an occurrence is to go on behind it. *)
Lemma replace_from_skip (k : nat) (old s : string) :
  replace_from k old "" s = replace_from 0 old "" (slice_from k s).
Proof.
  revert s. induction k as [|k IH]; intros s; [reflexivity|].
  destruct s as [|c s]; [reflexivity|]. cbn [replace_from slice_from]. apply IH.
Qed.

Lemma without_from_replace (fuel : nat) (t : char) (token s : string) :
  len s <= fuel ->
  Spec.without_from fuel (String t token) s = replace (String t token) "" s.
Proof.
  unfold replace. revert s. induction fuel as [|fuel IH]; intros s Hlen.
  - destruct s; [reflexivity|simpl in Hlen; lia].
  - destruct s as [|c s]; [reflexivity|].
    cbn [Spec.without_from replace_from].
    destruct (prefix (String t token) (String c s)).
    + cbn [append]. rewrite replace_from_skip.
      cbn [Spec.after len Nat.sub]. rewrite Nat.sub_0_r, after_slice.
      apply IH. pose proof (slice_from_length (len token) s). simpl in Hlen. lia.
    + rewrite IH; [reflexivity|]. simpl in Hlen. lia.
Qed.

(** The removal of a token of the specification is [replace] by nothing. *)
Lemma without_replace (t : char) (token s : string) :
  Spec.without (String t token) s = replace (String t token) "" s.
Proof. unfold Spec.without. now apply without_from_replace. Qed.

Lemma strip_label_clean (t : char) (label stmt : string) :
  Spec.strip_label (String t label) stmt =
    strip (replace (String t label) "" (replace (String t label ++ ":") "" stmt)).
Proof.
  unfold Spec.strip_label. rewrite trim_strip. cbn [append].
  now rewrite !without_replace.
Qed.

(** *** Labels *)

(** On a line whose characters upper-case one by one, the test of the code
    on the upper-cased line is the match of the label up to letter case. *)
Lemma startswith_upper (label line : string) :
  capital label -> letterwise line ->
  startswith (upper line) label = Spec.prefix_nocase label line.
Proof.
  unfold startswith. revert line.
  induction label as [|a label IH]; intros line Hcap Hline; [reflexivity|].
  destruct line as [|b line]; [reflexivity|].
  destruct Hcap as [Ha Hcap]. destruct Hline as [Hb Hline].
  cbn [upper Spec.prefix_nocase]. unfold Spec.same_letter. rewrite Ha.
  destruct (upper_char b) as [|u [|v r]]; try discriminate.
  cbn [append prefix PyStr.eqb]. rewrite andb_true_r.
  now rewrite (IH line Hcap Hline).
Qed.

Lemma first_letters_differ (c : char) :
  Spec.same_letter 70 c = true -> Spec.same_letter 65 c = false.
Proof.
  unfold Spec.same_letter. intros H. apply str_eqb_eq in H. now rewrite <- H.
Qed.

(** No line carries both labels: they differ at the first letter. *)
Lemma labels_exclusive (line : string) :
  Spec.labelled "FOR" line = true -> Spec.labelled "AGAINST" line = false.
Proof.
  unfold Spec.labelled. destruct line as [|c line]; [discriminate|].
  cbn [append Spec.prefix_nocase].
  destruct (Spec.same_letter 70 c) eqn:E.
  - now rewrite (first_letters_differ c E).
  - discriminate.
Qed.

Lemma scan_line_labelled (st : string * string) (line : string) :
  strip line = line -> letterwise line ->
  scan_line st line =
    if Spec.labelled "FOR" line then (Spec.remainder "FOR" line, snd st)
    else if Spec.labelled "AGAINST" line then (fst st, Spec.remainder "AGAINST" line)
    else st.
Proof.
  intros Hs Hl. unfold scan_line. rewrite Hs.
  rewrite (startswith_upper "FOR:"), (startswith_upper "AGAINST:"),
    (startswith_upper "FOR "), (startswith_upper "AGAINST ")
    by (try exact Hl; cbn; repeat split).
  pose proof (labels_exclusive line) as Hex. unfold Spec.labelled in *.
  change ("FOR" ++ ":")%string with "FOR:" in *.
  change ("FOR" ++ " ")%string with "FOR " in *.
  change ("AGAINST" ++ ":")%string with "AGAINST:" in *.
  change ("AGAINST" ++ " ")%string with "AGAINST " in *.
  unfold Spec.remainder. rewrite !trim_strip, !after_slice. cbn [append len].
  destruct (Spec.prefix_nocase "FOR:" line), (Spec.prefix_nocase "FOR " line),
    (Spec.prefix_nocase "AGAINST:" line), (Spec.prefix_nocase "AGAINST " line);
    cbn [orb] in *; try reflexivity; specialize (Hex eq_refl); discriminate.
Qed.

Lemma last_cons {A : Type} (x d : A) (l : list A) : last (x :: l) d = last l x.
Proof.
  revert x d. induction l as [|y l IH]; intros x d; [reflexivity|].
  change (last (x :: y :: l) d) with (last (y :: l) d). now rewrite !IH.
Qed.

(** The loop extracts, for each label, the remainder of the last line
    that carries it, and keeps the initial value when there is none. *)
Lemma scan_lines_extracted (lines : list string) (st : string * string) :
  Forall (fun line => strip line = line /\ letterwise line) lines ->
  fold_left scan_line lines st =
    (last (map (Spec.remainder "FOR") (filter (Spec.labelled "FOR") lines)) (fst st),
     last (map (Spec.remainder "AGAINST") (filter (Spec.labelled "AGAINST") lines)) (snd st)).
Proof.
  intros H. revert st. induction H as [|line lines [Hl Hw] _ IH]; intros st.
  - destruct st; reflexivity.
  - cbn [fold_left filter]. rewrite IH, scan_line_labelled by assumption.
    destruct (Spec.labelled "FOR" line) eqn:EF.
    + rewrite (labels_exclusive line EF). cbn [map fst snd]. now rewrite last_cons.
    + destruct (Spec.labelled "AGAINST" line); cbn [map fst snd];
        [now rewrite last_cons|reflexivity].
Qed.

(** *** Texts whose characters upper-case one by one *)

Lemma ascii_letterwise (s : string) : ascii_text s -> letterwise s.
Proof.
  induction s as [|c s IH]; [exact id|].
  intros [Hc Hs]. split; [|exact (IH Hs)].
  unfold upper_char. apply N.ltb_lt in Hc. now rewrite Hc.
Qed.

Lemma letterwise_lstrip (s : string) : letterwise s -> letterwise (lstrip s).
Proof.
  induction s as [|c s IH]; [exact id|].
  intros [Hc Hs]. cbn [lstrip]. destruct (isspace c); [exact (IH Hs)|now split].
Qed.

Lemma letterwise_rstrip (s : string) : letterwise s -> letterwise (rstrip s).
Proof.
  induction s as [|c s IH]; [exact id|].
  intros [Hc Hs]. cbn [rstrip]. specialize (IH Hs).
  destruct (rstrip s); [destruct (isspace c); [exact I|now split]|now split].
Qed.

Lemma letterwise_split (s : string) : letterwise s -> Forall letterwise (split LF s).
Proof.
  induction s as [|c s IH]; [intros _; now repeat constructor|].
  intros [Hc Hs]. specialize (IH Hs). cbn [split].
  destruct (N.eqb c LF); [constructor; [exact I|exact IH]|].
  destruct (split LF s) as [|h t]; [now repeat constructor|].
  inversion IH; subst. constructor; [now split|assumption].
Qed.

Lemma nonempty_lines_stripped (text : string) :
  Forall (fun line => strip line = line) (nonempty_lines text).
Proof.
  unfold nonempty_lines. apply Forall_forall. intros line Hin.
  apply in_map_iff in Hin as [raw [<- _]]. apply strip_idem.
Qed.

Lemma nonempty_lines_letterwise (text : string) :
  letterwise text ->
  Forall (fun line => strip line = line /\ letterwise line) (nonempty_lines text).
Proof.
  intros Hw. unfold nonempty_lines. apply Forall_forall. intros line Hin.
  apply in_map_iff in Hin as [raw [<- Hraw]]. apply filter_In in Hraw as [Hraw _].
  split; [apply strip_idem|].
  pose proof (letterwise_split text Hw) as Hall.
  rewrite Forall_forall in Hall. unfold strip.
  apply letterwise_rstrip, letterwise_lstrip, Hall, Hraw.
Qed.

(** On a text whose characters upper-case one by one, the parse of the
    code is the parse of the specification. *)
Lemma parse_stances_refines (text : string) :
  letterwise text -> parse_stances text = Spec.parse text.
Proof.
  intros Hw. unfold parse_stances, Spec.parse.
  rewrite lines_nonempty_lines.
  pose proof (nonempty_lines_letterwise text Hw) as Hs.
  rewrite (scan_lines_extracted _ _ Hs). cbn [fst snd].
  fold (Spec.extracted "FOR" (nonempty_lines text)).
  fold (Spec.extracted "AGAINST" (nonempty_lines text)).
  rewrite !strip_label_clean.
  change ("FOR" ++ ":")%string with "FOR:".
  change ("AGAINST" ++ ":")%string with "AGAINST:".
  destruct (nonempty_lines text) as [|first [|second rest]].
  - cbn [List.length Nat.leb]. rewrite !andb_false_r. reflexivity.
  - cbn [List.length Nat.leb]. rewrite !andb_false_r. reflexivity.
  - cbn [List.length Nat.leb nth]. rewrite andb_true_r.
    inversion Hs as [|? ? [H1 _] Hs']. inversion Hs' as [|? ? [H2 _] _]. subst.
    rewrite H1, H2.
    destruct (_ && _); rewrite ?strip_label_clean; reflexivity.
Qed.

End General.

Section Runs.

(** Why the characters have to upper-case one by one: the ligature U+FB06
    upper-cases to [ST], so the code finds the label [AGAINST:] on a line
    that spells it with seven characters, and its slice from the eighth on
    drops a character of the statement; the line carries no label up to
    letter case. *)
Example ligature_shifts_the_remainder :
  let cm : CaseMap :=
    {| unicode_upper := fun c => if (c =? 0xFB06)%N then "ST" else String c "";
       unicode_lower := fun _ c _ => String c "" |} in
  let text := ("FOR: Cats are fine" ++ nl ++ "AGAIN" ++ String 0xFB06 ":dogs bark loudly")%string in
  parse_stances text = ("Cats are fine", "ogs bark loudly")
  /\ Spec.parse text = ("Cats are fine", "")
  /\ ~ letterwise text.
Proof.
  cbv zeta. split; [reflexivity|]. split; [reflexivity|].
  cbn. intros H. do 24 (destruct H as [_ H]). destruct H as [H _]. discriminate.
Qed.

End Runs.

End StanceRefinement.

(* ===================================================================== *)
(** ** The request layer *)
(* ===================================================================== *)

Module RequestLayer.
Import PyStr PyStrFacts Vocabulary.

Lemma raise_for_status_error (status : Z) :
  error_status status -> raise_for_status status = Some (HTTPError status).
Proof.
  unfold error_status, raise_for_status. intros [H1 H2].
  apply Z.leb_le in H1. apply Z.ltb_lt in H2. now rewrite H1, H2.
Qed.

Lemma raise_for_status_fine (status : Z) :
  ~ error_status status -> raise_for_status status = None.
Proof.
  unfold error_status, raise_for_status. intros H.
  destruct (400 <=? status)%Z eqn:E1, (status <? 600)%Z eqn:E2; try reflexivity.
  apply Z.leb_le in E1. apply Z.ltb_lt in E2. lia.
Qed.

Lemma raise_for_status_None (status : Z) :
  raise_for_status status = None -> ~ error_status status.
Proof.
  intros H He. rewrite (raise_for_status_error _ He) in H. discriminate.
Qed.

(** Every call records exactly its own request. *)
Lemma make_api_request_world (post : backend) (timeout : Z)
    (model_name prompt : string) (w : world) :
  snd (make_api_request post timeout model_name prompt w) =
    w ++ [mkRequest "http://localhost:11434/api/generate" model_name prompt false timeout].
Proof.
  unfold make_api_request. now destruct (api_try _).
Qed.

(** What the call does, by what the [try] block did. *)
Lemma make_api_request_run (post : backend) (timeout : Z)
    (model_name prompt : string) (w : world) :
  let rq := mkRequest "http://localhost:11434/api/generate" model_name prompt false timeout in
  make_api_request post timeout model_name prompt w =
    (match api_try (post w rq) with
     | inr j => Return j
     | inl e => Raise (api_handlers e)
     end, w ++ [rq]).
Proof.
  unfold make_api_request. cbv zeta. now destruct (api_try _).
Qed.

End RequestLayer.

Module RequestFailures.
Import PyStr PyStrFacts Vocabulary RequestLayer.

(** C9, as stated, fails: a reply with status 503 makes
    [DebateModel._make_api_request] re-raise the [HTTPError] of
    [raise_for_status] itself; the exception that leaves is the one that was
    caught, neither replaced by an error of the taxonomy nor wrapped. *)
Lemma C9_http_error_leaves_unchanged :
  let post : backend := fun _ _ => Response 503 (Some (PDict [("error", PStr "busy")])) in
  fst (DebateModel._make_api_request post "llama3.2:3b" "hello" []) =
    Raise (Reraised (HTTPError 503))
  /\ ~ mapped (Reraised (HTTPError 503)).
Proof.
  split; [reflexivity|].
  intros [msg [H|[H|H]]]; discriminate.
Qed.

(** C9, amended: [DebateModel._make_api_request] sends one request and
    never swallows a failure.  A [requests] connection error (a timeout
    while connecting is one) leaves as [ConnectionError], any other
    [requests] timeout as [TimeoutError], a body that is not JSON as
    [ValueError "Invalid response from AI service"]; a 4xx or 5xx status
    and every other exception leave as the exception that was caught,
    unchanged.  A value is returned only for a reply whose status is no
    error status and whose body decodes. *)
Theorem C9_request_failures (post : backend) (model_name prompt : string) (w : world) :
  let rq := mkRequest "http://localhost:11434/api/generate" model_name prompt false 60 in
  let run := DebateModel._make_api_request post model_name prompt w in
  snd run = w ++ [rq]
  /\ (forall e, post w rq = PostRaises e -> is_requests_ConnectionError e = true ->
        fst run = Raise (ConnectionError "AI service is unavailable"))
  /\ (forall e, post w rq = PostRaises e -> is_requests_ConnectionError e = false ->
        is_requests_Timeout e = true ->
        fst run = Raise (TimeoutError "Request took too long to process"))
  /\ (forall status, post w rq = Response status None -> ~ error_status status ->
        fst run = Raise (ValueError "Invalid response from AI service"))
  /\ (forall status body, post w rq = Response status body -> error_status status ->
        fst run = Raise (Reraised (HTTPError status)))
  /\ (forall name, post w rq = PostRaises (OtherError name) ->
        fst run = Raise (Reraised (OtherError name)))
  /\ (forall j, fst run = Return j ->
        exists status, post w rq = Response status (Some j) /\ ~ error_status status).
Proof.
  cbv zeta. unfold DebateModel._make_api_request.
  rewrite make_api_request_run. cbn [fst snd].
  set (rq := mkRequest _ _ _ _ _).
  split; [reflexivity|].
  split; [|split; [|split; [|split; [|split]]]].
  - intros e He Hc. rewrite He. cbn [api_try]. unfold api_handlers. now rewrite Hc.
  - intros e He Hc Ht. rewrite He. cbn [api_try]. unfold api_handlers. now rewrite Hc, Ht.
  - intros status He Hs. rewrite He. cbn [api_try].
    now rewrite (raise_for_status_fine _ Hs).
  - intros status body He Hs. rewrite He. cbn [api_try].
    now rewrite (raise_for_status_error _ Hs).
  - intros name He. now rewrite He.
  - intros j Hj. destruct (post w rq) as [e|status body] eqn:He; cbn [api_try] in Hj.
    + discriminate.
    + destruct (raise_for_status status) eqn:Hs; [discriminate|].
      destruct body as [j'|]; [|discriminate].
      inversion Hj. subst. exists status. split; [reflexivity|].
      now apply raise_for_status_None.
Qed.

(** The amended C9 at concrete services: one that times out while reading,
    one that times out while connecting, one that answers 200 with a body
    that is not JSON, and one that answers 404. *)
Lemma C9_request_failures_witness :
  fst (DebateModel._make_api_request (fun _ _ => PostRaises ReadTimeout) "m" "p" []) =
    Raise (TimeoutError "Request took too long to process")
  /\ fst (DebateModel._make_api_request (fun _ _ => PostRaises ConnectTimeout) "m" "p" []) =
    Raise (ConnectionError "AI service is unavailable")
  /\ fst (DebateModel._make_api_request (fun _ _ => Response 200 None) "m" "p" []) =
    Raise (ValueError "Invalid response from AI service")
  /\ fst (DebateModel._make_api_request (fun _ _ => Response 404 None) "m" "p" []) =
    Raise (Reraised (HTTPError 404)).
Proof.
  split; [|split; [|split]].
  - apply (proj1 (proj2 (proj2
      (C9_request_failures (fun _ _ => PostRaises ReadTimeout) "m" "p" []))) ReadTimeout);
      reflexivity.
  - apply (proj1 (proj2
      (C9_request_failures (fun _ _ => PostRaises ConnectTimeout) "m" "p" [])) ConnectTimeout);
      reflexivity.
  - apply (proj1 (proj2 (proj2 (proj2
      (C9_request_failures (fun _ _ => Response 200 None) "m" "p" [])))) 200%Z);
      [reflexivity|unfold error_status; lia].
  - apply (proj1 (proj2 (proj2 (proj2 (proj2
      (C9_request_failures (fun _ _ => Response 404 None) "m" "p" []))))) 404%Z None);
      [reflexivity|unfold error_status; lia].
Defined.

End RequestFailures.

(* ===================================================================== *)
(** ** The topic filter *)
(* ===================================================================== *)

Module TopicFilter.
Import PyStr PyStrFacts Vocabulary RequestLayer FilterModel.

Section General.
Context {cm : CaseMap}.

(** The guard of [filter_topic] and of [generate_stances] lets through
    exactly the topics that are not blank. *)
Lemma topic_guard (topic : string) :
  strip topic <> "" ->
  PyStr.eqb topic "" || (len (strip topic) =? 0) = false.
Proof.
  intros H. apply orb_false_iff. split.
  - apply str_eqb_neq. intros ->. now apply H.
  - destruct (strip topic); [congruence|reflexivity].
Qed.

(** [filter_topic] by what its [try] block does. *)
Lemma filter_topic_run (post : backend) (model_name topic : string) (w : world) :
  strip topic <> "" ->
  filter_topic post model_name topic w =
    match filter_try post model_name topic w with
    | (Return d, w') => (Return d, w')
    | (Raise _, w') => (Return rejected_on_error, w')
    end.
Proof.
  intros H. unfold filter_topic. now rewrite (topic_guard _ H).
Qed.

End General.

Section Runs.
#[local] Existing Instance plain_case.

(** C1, as stated, fails: a topic of one blank is a non-empty string, and
    with the service out of reach [filter_topic] raises [ValueError] on it
    instead of returning the rejection. *)
Lemma C1_blank_topic_raises :
  " " <> ""
  /\ filter_topic (fun _ _ => PostRaises RequestsConnectionError) Config.FILTER_MODEL " " [] =
       (Raise (ValueError "Empty topic provided"), []).
Proof. split; [discriminate|reflexivity]. Qed.

End Runs.

Section General.
Context {cm : CaseMap}.

(** C1, amended: a topic that is empty once trimmed makes [filter_topic]
    raise [ValueError] before any request.  For every other topic
    [filter_topic] returns and never raises; whatever exception the request
    raises, and whatever is wrong with the decoded reply (no ['response']
    field, or one that is not text), the result is the rejection
    [is_appropriate = False] with the reason
    ["Unable to verify topic appropriateness"]. *)
Theorem C1_filter_fails_closed (post : backend) (model_name topic : string) (w : world) :
  (strip topic = "" ->
     filter_topic post model_name topic w = (Raise (ValueError "Empty topic provided"), w))
  /\ (strip topic <> "" ->
      (exists d w', filter_topic post model_name topic w = (Return d, w'))
      /\ (forall e w',
            _make_api_request post model_name (filter_prompt topic) w = (Raise e, w') ->
            filter_topic post model_name topic w = (Return rejected_on_error, w'))
      /\ (forall response w',
            _make_api_request post model_name (filter_prompt topic) w = (Return response, w') ->
            (forall text, getitem response "response" <> Return (PStr text)) ->
            filter_topic post model_name topic w = (Return rejected_on_error, w'))).
Proof.
  split.
  { intros Hblank. unfold filter_topic. rewrite Hblank. cbn [len Nat.eqb].
    now rewrite orb_true_r. }
  intros H. rewrite (filter_topic_run _ _ _ _ H).
  unfold filter_try, bind, lift.
  destruct (_make_api_request post model_name (filter_prompt topic) w) as [[response|e] w1].
  - split; [|split].
    + destruct (getitem response "response") as [field|e];
        [|do 2 eexists; reflexivity].
      destruct (as_str field); do 2 eexists; reflexivity.
    + intros e w' He. discriminate.
    + intros r w' Hr Hno. inversion Hr. subst r w'.
      destruct (getitem response "response") as [field|e]; [|reflexivity].
      destruct field; try reflexivity. exfalso. now apply (Hno s).
  - split; [|split].
    + do 2 eexists; reflexivity.
    + intros e' w' He. now inversion He.
    + intros r w' Hr. discriminate.
Qed.

End General.

Section Runs.
#[local] Existing Instance plain_case.

(** The amended C1 on a topic that is one no-break space, and on the topic
    ["cats"] with the service out of reach and with a reply that has no
    ['response'] field. *)
Lemma C1_filter_fails_closed_witness :
  filter_topic (fun _ _ => PostRaises RequestsConnectionError) Config.FILTER_MODEL
    (String 0xA0 "") [] = (Raise (ValueError "Empty topic provided"), [])
  /\ filter_topic (fun _ _ => PostRaises RequestsConnectionError) Config.FILTER_MODEL "cats" [] =
    (Return rejected_on_error,
     [mkRequest "http://localhost:11434/api/generate" Config.FILTER_MODEL
        (filter_prompt "cats") false 30])
  /\ filter_topic (fun _ _ => Response 200 (Some (PDict []))) Config.FILTER_MODEL "cats" [] =
    (Return rejected_on_error,
     [mkRequest "http://localhost:11434/api/generate" Config.FILTER_MODEL
        (filter_prompt "cats") false 30]).
Proof.
  split; [|split].
  - apply (proj1 (C1_filter_fails_closed
      (fun _ _ => PostRaises RequestsConnectionError) Config.FILTER_MODEL (String 0xA0 "") [])).
    reflexivity.
  - apply (proj1 (proj2 (proj2 (C1_filter_fails_closed
      (fun _ _ => PostRaises RequestsConnectionError) Config.FILTER_MODEL "cats" [])
      ltac:(discriminate))) (ConnectionError "AI service is unavailable")).
    reflexivity.
  - apply (proj2 (proj2 (proj2 (C1_filter_fails_closed
      (fun _ _ => Response 200 (Some (PDict []))) Config.FILTER_MODEL "cats" [])
      ltac:(discriminate))) (PDict [])).
    + reflexivity.
    + intros text. discriminate.
Defined.

End Runs.

End TopicFilter.

(* ===================================================================== *)
(** ** Reading a verdict off the response text *)
(* ===================================================================== *)

Module Verdicts.
Import PyStr PyStrFacts Vocabulary RequestLayer TopicFilter.

Section General.
Context {cm : CaseMap}.

Lemma verdict_iff (s : string) (b : bool) :
  b = contains "true" s -> (b = true <-> Occurs "true" s).
Proof. intros ->. apply contains_iff. Qed.

(** C8: when the service answers with the text [text], the verdict of
    [filter_topic] is [True] exactly when ["true"] occurs in the trimmed,
    lower-cased text, whether or not ["false"] occurs in it: with both the
    verdict is [True], with neither it is [False].  [should_intervene]
    reads [needs_intervention] by the same rule off the lower-cased text. *)
Theorem C8_verdict_by_substring (post : backend) (py_repr : pyval -> string) :
  (forall model_name topic text w response w',
      strip topic <> "" ->
      FilterModel._make_api_request post model_name (FilterModel.filter_prompt topic) w =
        (Return response, w') ->
      getitem response "response" = Return (PStr text) ->
      exists verdict reason,
        FilterModel.filter_topic post model_name topic w =
          (Return (PDict [("is_appropriate", PBool verdict); ("reason", PStr reason)]), w')
        /\ (verdict = true <-> Occurs "true" (lower (strip text)))
        /\ (Occurs "true" (lower (strip text)) -> Occurs "false" (lower (strip text)) ->
            verdict = true)
        /\ (~ Occurs "true" (lower (strip text)) -> ~ Occurs "false" (lower (strip text)) ->
            verdict = false))
  /\ (forall model_name topic debate_history context text w response w',
      debate_history <> [] ->
      ModeratorModel.context_str py_repr 3 debate_history = Return context ->
      ModeratorModel._make_api_request post model_name
        (ModeratorModel.intervention_prompt py_repr topic context) w = (Return response, w') ->
      getitem response "response" = Return (PStr text) ->
      exists verdict,
        ModeratorModel.should_intervene post py_repr model_name topic debate_history w =
          (Return (PDict [("needs_intervention", PBool verdict); ("reason", PStr (lower text))]), w')
        /\ (verdict = true <-> Occurs "true" (lower text))).
Proof.
  split.
  - intros model_name topic text w response w' Ht Hr Hf.
    rewrite (filter_topic_run _ _ _ _ Ht).
    unfold FilterModel.filter_try, bind, lift, ret. rewrite Hr, Hf. cbn [as_str].
    unfold FilterModel.parse_verdict.
    eexists _, _. split; [reflexivity|].
    pose proof (verdict_iff (lower (strip text)) _ eq_refl) as Hv.
    split; [exact Hv|]. split.
    + intros Ht' _. now apply Hv.
    + intros Hn _. destruct (contains "true" (lower (strip text))); [|reflexivity].
      exfalso. apply Hn. now apply Hv.
  - intros model_name topic debate_history context text w response w' Hne Hc Hr Hf.
    unfold ModeratorModel.should_intervene.
    destruct debate_history as [|entry rest]; [congruence|].
    unfold bind, lift, try_except, ModeratorModel.intervene_try, bind, lift, ret.
    rewrite Hc, Hr, Hf. cbn [as_str].
    eexists. split; [reflexivity|]. apply contains_iff.
Qed.

End General.

Section Runs.
#[local] Existing Instance plain_case.

(** C8 at two answers of the service: one with both words, read by
    [filter_topic], and one with neither, read by [should_intervene]. *)
Lemma C8_verdict_by_substring_witness :
  (exists reason,
     fst (FilterModel.filter_topic
            (fun _ _ => Response 200 (Some (PDict [("response", PStr " Not false: TRUE ")])))
            Config.FILTER_MODEL "cats" []) =
       Return (PDict [("is_appropriate", PBool true); ("reason", PStr reason)]))
  /\ fst (ModeratorModel.should_intervene
            (fun _ _ => Response 200 (Some (PDict [("response", PStr "No need")])))
            (fun _ => "") Config.MODERATOR_MODEL (PStr "cats") [PStr "Cats purr."] []) =
       Return (PDict [("needs_intervention", PBool false); ("reason", PStr "no need")]).
Proof.
  split.
  - destruct (proj1 (C8_verdict_by_substring
        (fun _ _ => Response 200 (Some (PDict [("response", PStr " Not false: TRUE ")])))
        (fun _ => ""))
        Config.FILTER_MODEL "cats" " Not false: TRUE " []
        (PDict [("response", PStr " Not false: TRUE ")]) _
        ltac:(discriminate) eq_refl eq_refl)
      as (verdict & reason & Hrun & Hiff & _).
    exists reason. rewrite Hrun. cbn [fst].
    assert (Hv : verdict = true).
    { apply Hiff. exists "not false: ", "". reflexivity. }
    now rewrite Hv.
  - destruct (proj2 (C8_verdict_by_substring
        (fun _ _ => Response 200 (Some (PDict [("response", PStr "No need")])))
        (fun _ => ""))
        Config.MODERATOR_MODEL (PStr "cats") [PStr "Cats purr."] "Cats purr." "No need" []
        (PDict [("response", PStr "No need")]) _
        ltac:(discriminate) eq_refl eq_refl eq_refl)
      as (verdict & Hrun & Hiff).
    rewrite Hrun. cbn [fst].
    destruct verdict; [|reflexivity].
    exfalso. apply (proj1 (contains_false_iff "true" "no need")); [reflexivity|].
    now apply Hiff.
Defined.

End Runs.

End Verdicts.

(* ===================================================================== *)
(** ** The intervention check *)
(* ===================================================================== *)

Module Intervention.
Import PyStr PyStrFacts Vocabulary RequestLayer ModeratorModel.

Section Runs.
#[local] Existing Instance plain_case.

(** C5, as stated, fails on the reason: on an empty history
    [should_intervene] answers ["Debate hasn't started yet"], with a
    capital, not the text the claim gives. *)
Lemma C5_reason_is_capitalised :
  fst (should_intervene (fun _ _ => PostRaises RequestsConnectionError) (fun _ => "")
         Config.MODERATOR_MODEL (PStr "cats") [] []) <>
    Return (PDict [("needs_intervention", PBool false);
                   ("reason", PStr "debate hasn't started yet")]).
Proof. cbn. intros H. inversion H. Qed.

End Runs.

Section General.
Context {cm : CaseMap}.

(** C5, amended: on an empty history [should_intervene] returns
    [needs_intervention = False] with the reason
    ["Debate hasn't started yet"] and sends nothing to the service; on a
    history that is not empty, if the request raises, whatever the
    exception, it returns [needs_intervention = False] with the reason
    ["Error in intervention check"]. *)
Theorem C5_intervention_fails_soft (post : backend) (py_repr : pyval -> string)
    (model_name : string) (topic : pyval) :
  (forall w,
      should_intervene post py_repr model_name topic [] w =
        (Return (PDict [("needs_intervention", PBool false);
                        ("reason", PStr "Debate hasn't started yet")]), w))
  /\ (forall debate_history context e w w',
      debate_history <> [] ->
      context_str py_repr 3 debate_history = Return context ->
      _make_api_request post model_name (intervention_prompt py_repr topic context) w =
        (Raise e, w') ->
      should_intervene post py_repr model_name topic debate_history w =
        (Return (PDict [("needs_intervention", PBool false);
                        ("reason", PStr "Error in intervention check")]), w')).
Proof.
  split; [reflexivity|].
  intros debate_history context e w w' Hne Hc Hr.
  unfold should_intervene.
  destruct debate_history as [|entry rest]; [congruence|].
  unfold bind, lift, try_except, intervene_try, bind, ret.
  now rewrite Hc, Hr.
Qed.

End General.

Section Runs.
#[local] Existing Instance plain_case.

(** The amended C5 on a one-entry history, with the service timing out. *)
Lemma C5_intervention_fails_soft_witness :
  should_intervene (fun _ _ => PostRaises ReadTimeout) (fun _ => "")
    Config.MODERATOR_MODEL (PStr "cats") [PStr "Cats purr."] [] =
    (Return (PDict [("needs_intervention", PBool false);
                    ("reason", PStr "Error in intervention check")]),
     [mkRequest "http://localhost:11434/api/generate" Config.MODERATOR_MODEL
        (intervention_prompt (fun _ => "") (PStr "cats") "Cats purr.") false 60]).
Proof.
  apply (proj2 (C5_intervention_fails_soft (fun _ _ => PostRaises ReadTimeout) (fun _ => "")
                  Config.MODERATOR_MODEL (PStr "cats"))
           [PStr "Cats purr."] "Cats purr."
           (TimeoutError "Request took too long to process")).
  - discriminate.
  - reflexivity.
  - reflexivity.
Defined.

End Runs.

End Intervention.

(* ===================================================================== *)
(** ** Stance generation *)
(* ===================================================================== *)

Module Stances.
Import PyStr PyStrFacts Vocabulary RequestLayer TopicFilter StanceParsing StanceRefinement.
Import PromptModel.

Section General.
Context {cm : CaseMap}.

(** The retry sends one request and either returns two lines or raises
    its own [ValueError]. *)
Lemma retry_run (post : backend) (model_name topic : string) (w : world) :
  let retry := mkRequest "http://localhost:11434/api/generate" model_name
                 (simple_prompt topic) false 60 in
  let run := _retry_generate_stances post model_name topic w in
  snd run = w ++ [retry]
  /\ (fst run = Raise (ValueError "Failed to generate debate stances even with retry")
      \/ exists reply retry_text first second rest,
           api_try (post w retry) = inr reply
           /\ getitem reply "response" = Return (PStr retry_text)
           /\ nonempty_lines retry_text = first :: second :: rest
           /\ fst run = Return (first, second)).
Proof.
  cbv zeta. unfold _retry_generate_stances, try_except, bind, lift, _make_api_request.
  rewrite make_api_request_run.
  destruct (api_try _) as [e|reply] eqn:Ea; cbn [fst snd].
  - split; [reflexivity|now left].
  - destruct (getitem reply "response") as [field|e] eqn:Eg; cbn [fst snd].
    2:{ split; [reflexivity|now left]. }
    destruct field as [| | |retry_text| |]; cbn [as_str fst snd];
      try (split; [reflexivity|now left]).
    destruct (nonempty_lines retry_text) as [|first [|second rest]] eqn:El;
      cbn [List.length Nat.leb fst snd raise ret];
      try (split; [reflexivity|now left]).
    split; [reflexivity|]. right.
    exists reply, retry_text, first, second, rest. now rewrite El.
Qed.

(** C3: when the first reply parses to a FOR or an AGAINST statement of
    fewer than five characters, [generate_stances] sends exactly one more
    request, the simplified prompt, and then either returns the first two
    non-empty trimmed lines of that reply as the pair or raises the
    generation error; on no path does it send more than two requests. *)
Theorem C3_single_retry (post : backend) (describe : pyexc -> string)
    (model_name topic : string) (w : world) :
  let run := generate_stances post describe model_name topic w in
  let first_request := mkRequest "http://localhost:11434/api/generate" model_name
                         (stances_prompt topic) false 60 in
  let retry := mkRequest "http://localhost:11434/api/generate" model_name
                 (simple_prompt topic) false 60 in
  List.length (snd run) <= List.length w + 2
  /\ (forall response w1 text,
        strip topic <> "" ->
        _make_api_request post model_name (stances_prompt topic) w = (Return response, w1) ->
        getitem response "response" = Return (PStr text) ->
        len (fst (parse_stances text)) < 5
          \/ len (snd (parse_stances text)) < 5 ->
        snd run = w ++ [first_request; retry]
        /\ (fst run = Raise retry_failure
            \/ exists reply retry_text first second rest,
                 api_try (post w1 retry) = inr reply
                 /\ getitem reply "response" = Return (PStr retry_text)
                 /\ nonempty_lines retry_text = first :: second :: rest
                 /\ fst run = Return (first, second))).
Proof.
  cbv zeta. split.
  - unfold generate_stances.
    destruct (_ || _); [cbn; lia|].
    unfold try_except, bind, lift, _make_api_request at 1.
    rewrite make_api_request_run.
    set (w1 := w ++ [_]).
    assert (Hw1 : List.length w1 = List.length w + 1).
    { unfold w1. rewrite length_app. reflexivity. }
    destruct (api_try _); [cbn [snd raise]; lia|].
    destruct (getitem p "response") as [field|e]; [|cbn [snd raise]; lia].
    destruct (as_str field) as [result|e]; [|cbn [snd raise]; lia].
    destruct (parse_stances result) as [f a].
    destruct (_ || _); [|cbn [snd ret]; lia].
    pose proof (proj1 (retry_run post model_name topic w1)) as Hr.
    destruct (_retry_generate_stances post model_name topic w1) as [[r|e] w2];
      cbn [snd raise] in *; rewrite Hr, length_app; cbn [List.length]; lia.
  - intros response w1 text Ht Hr Hf Hshort.
    assert (Hw1 : w1 = w ++ [mkRequest "http://localhost:11434/api/generate" model_name
                               (stances_prompt topic) false 60]).
    { pose proof (make_api_request_world post 60 model_name (stances_prompt topic) w) as H.
      unfold _make_api_request in Hr. now rewrite Hr in H. }
    assert (Hrun : generate_stances post describe model_name topic w =
              match _retry_generate_stances post model_name topic w1 with
              | (Return r, w2) => (Return r, w2)
              | (Raise e, w2) =>
                  (Raise (ValueError ("Failed to generate debate stances: "
                                      ++ str_exc describe e)), w2)
              end).
    { unfold generate_stances. rewrite (topic_guard _ Ht).
      unfold try_except at 1. unfold bind, lift. rewrite Hr, Hf. cbn [as_str].
      destruct (parse_stances text) as [f a]. cbn [fst snd] in Hshort.
      assert (Hc : (len f <? 5) || (len a <? 5) = true).
      { apply orb_true_iff. destruct Hshort; [left|right]; now apply Nat.ltb_lt. }
      rewrite Hc. reflexivity. }
    rewrite Hrun.
    destruct (retry_run post model_name topic w1) as [Hworld Hres].
    destruct (_retry_generate_stances post model_name topic w1) as [[r|e] w2];
      cbn [fst snd] in *.
    + split.
      * rewrite Hworld, Hw1, <- app_assoc. reflexivity.
      * right. destruct Hres as [H|H]; [discriminate|exact H].
    + split.
      * rewrite Hworld, Hw1, <- app_assoc. reflexivity.
      * left. destruct Hres as [H|(? & ? & ? & ? & ? & _ & _ & _ & H)]; [|discriminate].
        inversion H. reflexivity.
Qed.

End General.

Section Runs.
#[local] Existing Instance plain_case.

(** C3 at a service whose first reply is too short to hold two stances
    and whose second reply holds two lines. *)
Lemma C3_single_retry_witness :
  let post : backend := fun w _ =>
    match w with
    | [] => Response 200 (Some (PDict [("response", PStr "FOR: X" )]))
    | _ => Response 200 (Some (PDict [("response",
             PStr ("1. Cats are fine pets." ++ nl ++ nl ++ "  2. Cats scratch."))]))
    end in
  snd (generate_stances post (fun _ => "") Config.PROMPT_MODEL "cats" []) =
    [mkRequest "http://localhost:11434/api/generate" Config.PROMPT_MODEL
       (stances_prompt "cats") false 60;
     mkRequest "http://localhost:11434/api/generate" Config.PROMPT_MODEL
       (simple_prompt "cats") false 60]
  /\ fst (generate_stances post (fun _ => "") Config.PROMPT_MODEL "cats" []) =
       Return ("1. Cats are fine pets.", "2. Cats scratch.").
Proof.
  cbv zeta.
  set (post := fun (w : world) (_ : request) => match w with [] => _ | _ => _ end).
  destruct (proj2 (C3_single_retry post (fun _ => "") Config.PROMPT_MODEL "cats" [])
              (PDict [("response", PStr "FOR: X")]) _ "FOR: X"
              ltac:(discriminate) eq_refl eq_refl
              ltac:(left; cbv; repeat constructor)) as [Hworld _].
  split; [exact Hworld|reflexivity].
Defined.

(** C4, as stated, fails on the very text it names: the statements [X]
    and [Y] of the reply ["FOR: X\nAGAINST: Y"] are shorter than five
    characters, so [generate_stances] takes the retry path, sends a second
    request, and returns the two lines of its reply instead of
    [("X", "Y")]. *)
Lemma C4_short_statements_retry :
  let post : backend :=
    fun _ _ => Response 200 (Some (PDict [("response", PStr (labelled_response "X" "Y"))])) in
  generate_stances post (fun _ => "") Config.PROMPT_MODEL "cats" [] =
    (Return ("FOR: X", "AGAINST: Y"),
     [mkRequest "http://localhost:11434/api/generate" Config.PROMPT_MODEL
        (stances_prompt "cats") false 60;
      mkRequest "http://localhost:11434/api/generate" Config.PROMPT_MODEL
        (simple_prompt "cats") false 60])
  /\ fst (generate_stances post (fun _ => "") Config.PROMPT_MODEL "cats" []) <>
       Return ("X", "Y").
Proof. cbv zeta. split; [reflexivity|]. vm_compute. discriminate. Qed.

End Runs.

Section General.
Context {cm : CaseMap}.

(** C4, amended: on the reply ["FOR: X\nAGAINST: Y"], for statements [X]
    and [Y] that are trimmed, on one line, of five characters or more and
    free of the label token the clean-up removes, [generate_stances]
    returns the pair [(X, Y)] after its one request, without a retry; and
    on every text whose characters upper-case one by one, as those of an
    ASCII text do, the parse is the stated algorithm [Spec.parse]: the
    non-empty trimmed lines, the remainder of the line labelled FOR: or
    FOR, and of the one labelled AGAINST: or AGAINST, in any letter case,
    the first two lines when no statement was extracted, and the residual
    label tokens removed. *)
Theorem C4_labelled_response_parsed (post : backend) (describe : pyexc -> string)
    (model_name topic : string) (w : world) :
  (forall text, letterwise text -> parse_stances text = Spec.parse text)
  /\ (forall X Y response w1,
        strip topic <> "" ->
        statement "FOR" X -> statement "AGAINST" Y ->
        _make_api_request post model_name (stances_prompt topic) w = (Return response, w1) ->
        getitem response "response" = Return (PStr (labelled_response X Y)) ->
        generate_stances post describe model_name topic w = (Return (X, Y), w1)
        /\ w1 = w ++ [mkRequest "http://localhost:11434/api/generate" model_name
                        (stances_prompt topic) false 60]).
Proof.
  split; [exact parse_stances_refines|].
  intros X Y response w1 Ht HX HY Hr Hf. split.
  - unfold generate_stances. rewrite (topic_guard _ Ht).
    unfold try_except, bind, lift. rewrite Hr, Hf. cbn [as_str].
    rewrite (parse_labelled_response X Y HX HY).
    destruct HX as (_ & HX & _). destruct HY as (_ & HY & _).
    apply Nat.ltb_ge in HX, HY. now rewrite HX, HY.
  - pose proof (make_api_request_world post 60 model_name (stances_prompt topic) w) as H.
    unfold _make_api_request in Hr. now rewrite Hr in H.
Qed.

End General.

Section Runs.
#[local] Existing Instance plain_case.

(** The amended C4 on the two stances of the remote-work debate, and its
    parse on a reply with labels in lower case. *)
Lemma C4_labelled_response_parsed_witness :
  parse_stances ("for: Cats are fine pets." ++ nl ++ "against cats scratching") =
    Spec.parse ("for: Cats are fine pets." ++ nl ++ "against cats scratching")
  /\ generate_stances
    (fun _ _ => Response 200 (Some (PDict [("response",
       PStr (labelled_response "Remote work increases flexibility."
                               "Office work improves collaboration."))])))
    (fun _ => "") Config.PROMPT_MODEL "Should remote work be standard?" [] =
  (Return ("Remote work increases flexibility.", "Office work improves collaboration."),
   [mkRequest "http://localhost:11434/api/generate" Config.PROMPT_MODEL
      (stances_prompt "Should remote work be standard?") false 60]).
Proof.
  split.
  { apply (proj1 (C4_labelled_response_parsed (fun _ _ => PostRaises ReadTimeout)
                    (fun _ => "") Config.PROMPT_MODEL "cats" [])).
    cbn. repeat split. }
  apply (proj2 (C4_labelled_response_parsed _ (fun _ => "") Config.PROMPT_MODEL
                  "Should remote work be standard?" [])
           "Remote work increases flexibility." "Office work improves collaboration."
           (PDict [("response",
              PStr (labelled_response "Remote work increases flexibility."
                                      "Office work improves collaboration."))])).
  - discriminate.
  - repeat split; cbv; repeat constructor.
  - repeat split; cbv; repeat constructor.
  - reflexivity.
  - reflexivity.
Defined.

End Runs.

End Stances.

(* ===================================================================== *)
(** ** The context window of a debate turn *)
(* ===================================================================== *)

Module ContextWindow.
Import PyStr PyStrFacts Vocabulary DebateModel.

Section General.
Context {cm : CaseMap}.

Lemma join_empty_cons (x : string) (l : list string) :
  join "" (x :: l) = (x ++ join "" l)%string.
Proof.
  destruct l as [|y l]; [|reflexivity]. simpl. now rewrite append_empty_r.
Qed.

(** [l[-n:]] is a suffix of [l], of length [min (len l) n]. *)
Lemma list_last_suffix {A : Type} (n : nat) (l : list A) :
  l = firstn (List.length l - n) l ++ list_last n l
  /\ List.length (list_last n l) = Nat.min (List.length l) n.
Proof.
  unfold list_last. split.
  - symmetry. apply firstn_skipn.
  - rewrite length_skipn. lia.
Qed.

Lemma format_entry_rendered (py_repr : pyval -> string) (i : nat) (entry : pyval) :
  renderable entry ->
  exists line, format_entry py_repr i entry = Return line /\ rendered py_repr i entry line.
Proof.
  intros [Hraw|(d & side & text & -> & Hside & Htext)].
  - exists ("Point " ++ of_nat (i + 1) ++ ": " ++ py_str py_repr entry ++ nl)%string.
    unfold format_entry. rewrite Hraw. split; [reflexivity|now constructor].
  - exists (upper side ++ ": " ++ py_str py_repr text ++ nl)%string.
    unfold format_entry. cbn [is_dict getitem]. rewrite Hside. cbn [as_str].
    rewrite Htext. split; [reflexivity|now constructor].
Qed.

(** The loop renders its entries one by one, in order, after [acc]. *)
Lemma format_entries_rendered (py_repr : pyval -> string) (entries : list pyval) :
  Forall renderable entries ->
  forall (i : nat) (acc : string),
  exists lines,
    format_entries py_repr i acc entries = Return (acc ++ join "" lines)%string
    /\ List.length lines = List.length entries
    /\ forall k entry, nth_error entries k = Some entry ->
         exists line, nth_error lines k = Some line /\ rendered py_repr (i + k) entry line.
Proof.
  induction 1 as [|entry entries He _ IH]; intros i acc.
  - exists []. cbn. rewrite append_empty_r. repeat split. intros [|k] entry H; discriminate.
  - destruct (format_entry_rendered py_repr i entry He) as (line & Hline & Hr).
    destruct (IH (S i) (acc ++ line)%string) as (lines & Hrun & Hlen & Hnth).
    exists (line :: lines). cbn [format_entries]. rewrite Hline, Hrun.
    rewrite join_empty_cons, append_assoc. repeat split.
    + cbn [List.length]. now rewrite Hlen.
    + intros [|k] e Hk; cbn [nth_error] in *.
      * inversion Hk. subst e. exists line. rewrite Nat.add_0_r. now split.
      * destruct (Hnth k e Hk) as (l & Hl & Hrl). exists l.
        replace (i + S k) with (S i + k) by lia. now split.
Qed.

(** An entry that the loop renders is renderable. *)
Lemma format_entry_returns (py_repr : pyval -> string) (i : nat) (entry : pyval)
    (line : string) :
  format_entry py_repr i entry = Return line -> renderable entry.
Proof.
  unfold format_entry, renderable, structured.
  destruct entry as [| | | | |d]; cbn [is_dict]; try (intros _; now left).
  cbn [getitem].
  destruct (assoc "side" d) as [side_value|] eqn:Hside; [|discriminate].
  destruct side_value as [| | |side| |]; cbn [as_str]; try discriminate.
  destruct (assoc "text" d) as [text|] eqn:Htext; [|discriminate].
  intros _. right. now exists d, side, text.
Qed.

Lemma format_entries_returns (py_repr : pyval -> string) (entries : list pyval) :
  forall (i : nat) (acc context : string),
    format_entries py_repr i acc entries = Return context -> Forall renderable entries.
Proof.
  induction entries as [|entry entries IH]; intros i acc context H; [constructor|].
  cbn [format_entries] in H.
  destruct (format_entry py_repr i entry) as [line|e] eqn:Hline; [|discriminate].
  constructor; [exact (format_entry_returns _ _ _ _ Hline)|exact (IH _ _ _ H)].
Qed.

(** C7, amended: for a history whose last three entries are renderable,
    each a dict with a textual [side] and a [text] or a value that is no
    dict, the context-formatting step of [generate_response] renders the
    last [min (len history) 3] entries of the history, the most recent
    ones, in their order: a structured entry as [SIDE: text] with the side
    in upper case, any entry that is not a dict as [Point N: rawText].  For
    no other history does the step return a context: it raises. *)
Theorem C7_context_window (py_repr : pyval -> string) (history : list pyval) :
  (Forall renderable (list_last 3 history) ->
   exists older window lines,
     history = older ++ window
     /\ List.length window = Nat.min (List.length history) 3
     /\ format_context py_repr (PList history) = Return (join "" lines)
     /\ List.length lines = Nat.min (List.length history) 3
     /\ forall i entry, nth_error window i = Some entry ->
          exists line, nth_error lines i = Some line /\ rendered py_repr i entry line)
  /\ ((exists context, format_context py_repr (PList history) = Return context) ->
      Forall renderable (list_last 3 history))
  /\ (~ Forall renderable (list_last 3 history) ->
      exists e, format_context py_repr (PList history) = Raise e).
Proof.
  assert (Hreturns : (exists context, format_context py_repr (PList history) = Return context) ->
                     Forall renderable (list_last 3 history)).
  { intros [context H]. unfold format_context in H.
    destruct history as [|e rest]; [constructor|].
    cbn [truthy last_three] in H. exact (format_entries_returns _ _ _ _ _ H). }
  split; [|split; [exact Hreturns|]].
  - intros Hwin.
    destruct (list_last_suffix 3 history) as [Hsplit Hlen].
    destruct (format_entries_rendered py_repr _ Hwin 0 "") as (lines & Hrun & Hl & Hnth).
    exists (firstn (List.length history - 3) history), (list_last 3 history), lines.
    split; [exact Hsplit|]. split; [exact Hlen|]. split; [|split].
    + unfold format_context. destruct history as [|e rest].
      * cbn in Hrun |- *. exact Hrun.
      * cbn [truthy last_three]. exact Hrun.
    + now rewrite Hl.
    + exact Hnth.
  - intros Hnot.
    destruct (format_context py_repr (PList history)) as [context|e] eqn:H; [|now exists e].
    exfalso. apply Hnot, Hreturns. now exists context.
Qed.

End General.

Section Runs.
#[local] Existing Instance plain_case.

(** C7, as stated, fails: a history is a list of any entries, and on one
    whose entry is a dict without a [side] the context-formatting step
    renders nothing; it raises [KeyError], and [generate_response] with it,
    before any request. *)
Lemma C7_entry_without_side_raises :
  format_context (fun _ => "") (PList [PDict [("text", PStr "Cats purr.")]]) =
    Raise (KeyError "side")
  /\ generate_response (fun _ _ => Response 200 (Some (PDict [("response", PStr "Yes.")])))
       (fun _ => "") Config.DEBATE_MODEL (PStr "cats")
       (PList [PDict [("text", PStr "Cats purr.")]]) "for" [] =
     (Raise (KeyError "side"), []).
Proof. split; reflexivity. Qed.

(** C7 on a history of four entries, the second one unstructured. *)
Lemma C7_context_window_witness :
  let history :=
    [PDict [("side", PStr "for"); ("text", PStr "one")];
     PStr "two";
     PDict [("side", PStr "for"); ("text", PStr "three")];
     PDict [("side", PStr "against"); ("text", PStr "four")]] in
  exists older window lines,
    history = older ++ window
    /\ List.length window = 3
    /\ format_context (fun _ => "") (PList history) = Return (join "" lines)
    /\ List.length lines = 3
    /\ forall i entry, nth_error window i = Some entry ->
         exists line, nth_error lines i = Some line /\ rendered (fun _ => "") i entry line.
Proof.
  cbv zeta.
  apply (proj1 (C7_context_window (fun _ => "")
    [PDict [("side", PStr "for"); ("text", PStr "one")];
     PStr "two";
     PDict [("side", PStr "for"); ("text", PStr "three")];
     PDict [("side", PStr "against"); ("text", PStr "four")]])).
  apply Forall_cons; [|apply Forall_cons; [|apply Forall_cons; [|apply Forall_nil]]].
  - left. reflexivity.
  - right. exists [("side", PStr "for"); ("text", PStr "three")], "for", (PStr "three").
    repeat split.
  - right. exists [("side", PStr "against"); ("text", PStr "four")], "against", (PStr "four").
    repeat split.
Defined.

Example context_window_run :
  format_context (fun _ => "")
    (PList [PDict [("side", PStr "for"); ("text", PStr "one")];
            PStr "two";
            PDict [("side", PStr "for"); ("text", PStr "three")];
            PDict [("side", PStr "against"); ("text", PStr "four")]]) =
    Return ("Point 1: two" ++ nl ++ "FOR: three" ++ nl ++ "AGAINST: four" ++ nl)%string.
Proof. reflexivity. Qed.

End Runs.

End ContextWindow.

(* ===================================================================== *)
(** ** One round of debate *)
(* ===================================================================== *)

Module Round.
Import PyStr PyStrFacts Vocabulary RequestLayer Routes.

Section WithBackend.
Context {cm : CaseMap}.
Variable post : backend.
Variable py_repr : pyval -> string.

(** [round_try] is [moderation] once the argument is generated and the
    history projected. *)
Lemma round_try_moderation (topic debate_history : pyval) (side : string)
    (w w1 : world) (response argument : pyval) (entries texts : list pyval) :
  DebateModel.generate_response post py_repr Config.DEBATE_MODEL topic debate_history side w =
    (Return response, w1) ->
  getitem response "response" = Return argument ->
  append_entry debate_history (PDict [("side", PStr side); ("text", argument)]) =
    Return entries ->
  texts_of entries = Return texts ->
  round_try post py_repr topic debate_history side w =
    moderation post py_repr topic side argument entries texts w1.
Proof.
  intros Hgen Hget Happ Htexts.
  unfold round_try, moderation, bind, lift.
  rewrite Hgen, Hget, Happ, Htexts.
  destruct (ModeratorModel.should_intervene _ _ _ _ _ _) as [[check|e] w2]; [|reflexivity].
  destruct (getitem check "needs_intervention") as [needs|e]; [|reflexivity].
  destruct (truthy needs); reflexivity.
Qed.

(** When [round_try] stops before the moderator, it raises. *)
Lemma round_try_stops (topic debate_history : pyval) (side : string) (w : world) :
  (forall response w1 argument entries texts,
      DebateModel.generate_response post py_repr Config.DEBATE_MODEL topic debate_history side w =
        (Return response, w1) ->
      getitem response "response" = Return argument ->
      append_entry debate_history (PDict [("side", PStr side); ("text", argument)]) =
        Return entries ->
      texts_of entries = Return texts -> False) ->
  exists e w', round_try post py_repr topic debate_history side w = (Raise e, w').
Proof.
  intros Hno. unfold round_try, bind, lift.
  destruct (DebateModel.generate_response _ _ _ _ _ _ _) as [[response|e] w1] eqn:Hgen;
    [|eauto].
  destruct (getitem response "response") as [argument|e] eqn:Hget; [|eauto].
  destruct (append_entry _ _) as [entries|e] eqn:Happ; [|eauto].
  destruct (texts_of entries) as [texts|e] eqn:Htexts; [|eauto].
  exfalso. eapply Hno; eauto.
Qed.

Lemma moderation_result (topic : pyval) (side : string) (argument : pyval)
    (entries texts : list pyval) (w : world) :
  match moderation post py_repr topic side argument entries texts w with
  | (Raise _, _) => True
  | (Return (body, code), _) =>
      code = 200%Z
      /\ ((exists message summary, body = intervention_body side argument message summary)
          \/ (exists evaluation, body = success_body side argument evaluation entries))
  end.
Proof.
  unfold moderation, bind, lift, ret.
  destruct (ModeratorModel.should_intervene _ _ _ _ _ _) as [[check|e] w2]; [|exact I].
  destruct (getitem check "needs_intervention") as [needs|e]; [|exact I].
  destruct (truthy needs).
  - destruct (ModeratorModel.generate_summary _ _ _ _ _ _) as [[summary|e] w3]; [|exact I].
    destruct (getitem check "reason") as [message|e]; [|exact I].
    split; [reflexivity|]. left. now exists message, summary.
  - destruct (ModeratorModel.evaluate_response _ _ _ _ _ _ _) as [[evaluation|e] w3];
      [|exact I].
    split; [reflexivity|]. right. now exists evaluation.
Qed.

(** What [round_try] returns when it returns. *)
Lemma round_try_result (topic debate_history : pyval) (side : string) (w : world) :
  match round_try post py_repr topic debate_history side w with
  | (Raise _, _) => True
  | (Return (body, code), _) =>
      code = 200%Z
      /\ exists argument entries,
           append_entry debate_history (PDict [("side", PStr side); ("text", argument)]) =
             Return entries
           /\ ((exists message summary, body = intervention_body side argument message summary)
               \/ (exists evaluation, body = success_body side argument evaluation entries))
  end.
Proof.
  destruct (DebateModel.generate_response post py_repr Config.DEBATE_MODEL
              topic debate_history side w) as [[response|e] w1] eqn:Hgen.
  2:{ unfold round_try, bind. now rewrite Hgen. }
  destruct (getitem response "response") as [argument|e] eqn:Hget.
  2:{ unfold round_try, bind, lift. now rewrite Hgen, Hget. }
  destruct (append_entry debate_history (PDict [("side", PStr side); ("text", argument)]))
    as [entries|e] eqn:Happ.
  2:{ unfold round_try, bind, lift. now rewrite Hgen, Hget, Happ. }
  destruct (texts_of entries) as [texts|e] eqn:Htexts.
  2:{ unfold round_try, bind, lift. now rewrite Hgen, Hget, Happ, Htexts. }
  rewrite (round_try_moderation _ _ _ _ _ _ _ _ _ Hgen Hget Happ Htexts).
  pose proof (moderation_result topic side argument entries texts w1) as H.
  destruct (moderation _ _ _ _ _ _ _ _) as [[[body code]|e] w2]; [|exact I].
  destruct H as [Hc H]. split; [exact Hc|]. now exists argument, entries.
Qed.

Lemma handle_errors_result (f : M flask_response) (w : world) :
  exists response w',
    handle_errors f w = (Return response, w')
    /\ (f w = (Return response, w')
        \/ (exists e, f w = (Raise e, w')) /\ error_response response).
Proof.
  unfold handle_errors, try_except, ret.
  destruct (f w) as [[response|e] w'].
  - exists response, w'. split; [reflexivity|now left].
  - destruct e as [r| | | | | |];
      try (eexists _, w'; split; [reflexivity|]; right; split; [eauto|];
           eexists _, _; split; [reflexivity|discriminate]).
    destruct (is_requests_ConnectionError r);
      eexists _, w'; (split; [reflexivity|]); right; (split; [eauto|]);
      eexists _, _; (split; [reflexivity|discriminate]).
Qed.

(** Every call of the route is answered: with an error response, or with
    what [round_try] returned on a request that names a topic and one of
    the two sides. *)
Lemma debate_round_cases (data : pyval) (w : world) :
  exists response w',
    debate_round post py_repr data w = (Return response, w')
    /\ (error_response response
        \/ exists d topic side,
             data = PDict d
             /\ assoc "topic" d = Some topic
             /\ assoc "current_side" d = Some (PStr side)
             /\ (side = "for" \/ side = "against")
             /\ round_try post py_repr topic (history_value d) side w = (Return response, w')).
Proof.
  unfold debate_round.
  destruct (handle_errors_result (debate_round_view post py_repr data) w)
    as (response & w' & Hrun & [Hview|[_ Herr]]).
  2:{ exists response, w'. split; [exact Hrun|now left]. }
  exists response, w'. split; [exact Hrun|].
  clear Hrun. revert Hview.
  unfold debate_round_view, bind, lift, ret, all_fields_in.
  destruct data as [| | | s | l | d]; cbn [field_in method_get]; try discriminate.
  - destruct (contains "topic" s); [destruct (contains "current_side" s)|];
      cbn [negb]; try discriminate;
      intros H; inversion H; left; eexists _, _; (split; [reflexivity|discriminate]).
  - destruct (existsb _ l); [destruct (existsb _ l)|];
      cbn [negb]; try discriminate;
      intros H; inversion H; left; eexists _, _; (split; [reflexivity|discriminate]).
  - destruct (assoc "topic" d) as [topic|] eqn:Ht.
    2:{ cbn [negb]. intros H; inversion H. left.
        eexists _, _; (split; [reflexivity|discriminate]). }
    destruct (assoc "current_side" d) as [current_side|] eqn:Hs.
    2:{ cbn [negb]. intros H; inversion H. left.
        eexists _, _; (split; [reflexivity|discriminate]). }
    cbn [negb].
    assert (Hh : match assoc "debate_history" d with
                 | Some x => Return x
                 | None => Return (PList [])
                 end = Return (history_value d)).
    { unfold history_value. now destruct (assoc "debate_history" d). }
    rewrite Hh. clear Hh.
    destruct current_side as [| | | side | |];
      try (intros H; inversion H; left; eexists _, _; (split; [reflexivity|discriminate])).
    destruct (PyStr.eqb side "for" || PyStr.eqb side "against") eqn:Hside.
    2:{ intros H; inversion H. left. eexists _, _; (split; [reflexivity|discriminate]). }
    unfold try_except, raise.
    destruct (round_try post py_repr topic (history_value d) side w) as [[r|e] w1] eqn:Hround;
      [|discriminate].
    intros H. inversion H. subst. right. exists d, topic, side.
    repeat split; try assumption.
    apply orb_true_iff in Hside as [H1|H1]; apply str_eqb_eq in H1; auto.
Qed.

End WithBackend.
End Round.

(* ===================================================================== *)
(** ** Sides and history across a round *)
(* ===================================================================== *)

Module Alternation.
Import PyStr PyStrFacts Vocabulary RequestLayer Routes Round.

Lemma next_side_for : next_side "for" = "against".
Proof. reflexivity. Qed.

Lemma next_side_against : next_side "against" = "for".
Proof. reflexivity. Qed.

Section General.
Context {cm : CaseMap}.

Lemma next_side_differs (side : string) :
  side = "for" \/ side = "against" -> next_side side <> side.
Proof. intros [->| ->]; discriminate. Qed.

(** The current side of a request, read back from its bindings. *)
Lemma current_side_binding (d : list (string * pyval)) (side : string) :
  method_get (PDict d) "current_side" PNone = Return (PStr side) ->
  assoc "current_side" d = Some (PStr side).
Proof.
  cbn [method_get]. destruct (assoc "current_side" d); intros H; inversion H.
  reflexivity.
Qed.

(** C2: for a request whose [current_side] is ["for"] or ["against"],
    the route answers either with an error response or, with status 200,
    with a [moderator_intervention] or a [success] response; in both of
    these [next_side] is the other side: ["against"] after ["for"], and
    ["for"] after ["against"]. *)
Theorem C2_next_side_is_opposite (post : backend) (py_repr : pyval -> string)
    (data : pyval) (side : string) (w : world) :
  method_get data "current_side" PNone = Return (PStr side) ->
  side = "for" \/ side = "against" ->
  exists fields code w',
    debate_round post py_repr data w = (Return (PDict fields, code), w')
    /\ ((assoc "status" fields = Some (PStr "error") /\ code <> 200%Z)
        \/ (code = 200%Z
            /\ (assoc "status" fields = Some (PStr "moderator_intervention")
                \/ assoc "status" fields = Some (PStr "success"))
            /\ (side = "for" -> assoc "next_side" fields = Some (PStr "against"))
            /\ (side = "against" -> assoc "next_side" fields = Some (PStr "for")))).
Proof.
  intros Hside Hvalid.
  destruct (debate_round_cases post py_repr data w)
    as (response & w' & Hrun & [(message & code & -> & Hcode)|Hround]).
  - eexists _, code, w'. split; [exact Hrun|]. left. now split.
  - destruct Hround as (d & topic & side' & -> & _ & Hs & _ & Hround).
    rewrite (current_side_binding d side Hside) in Hs. inversion Hs. subst side'.
    pose proof (round_try_result post py_repr topic (history_value d) side w) as H.
    rewrite Hround in H. destruct response as [body code].
    destruct H as (-> & argument & entries & _ & Hbody).
    destruct Hbody as [(message & summary & ->)|(evaluation & ->)].
    + eexists _, _, w'. split; [exact Hrun|]. right.
      split; [reflexivity|]. split; [now left|].
      split; intros ->; reflexivity.
    + eexists _, _, w'. split; [exact Hrun|]. right.
      split; [reflexivity|]. split; [now right|].
      split; intros ->; reflexivity.
Qed.

End General.

Section Runs.
#[local] Existing Instance plain_case.

(** C2 on two first rounds: one that the moderator interrupts, for the
    side ["for"], and one that is evaluated, for the side ["against"]. *)
Lemma C2_next_side_is_opposite_witness :
  (exists fields w',
     debate_round
       (fun _ _ => Response 200 (Some (PDict [("response", PStr "True, cats purr.")])))
       (fun _ => "") (PDict [("topic", PStr "cats"); ("current_side", PStr "for")]) [] =
       (Return (PDict fields, 200%Z), w')
     /\ assoc "status" fields = Some (PStr "moderator_intervention")
     /\ assoc "next_side" fields = Some (PStr "against"))
  /\ (exists fields w',
     debate_round
       (fun _ _ => Response 200 (Some (PDict [("response", PStr "Dogs are loyal.")])))
       (fun _ => "") (PDict [("topic", PStr "cats"); ("current_side", PStr "against")]) [] =
       (Return (PDict fields, 200%Z), w')
     /\ assoc "status" fields = Some (PStr "success")
     /\ assoc "next_side" fields = Some (PStr "for")).
Proof.
  split.
  - destruct (C2_next_side_is_opposite
        (fun _ _ => Response 200 (Some (PDict [("response", PStr "True, cats purr.")])))
        (fun _ => "") (PDict [("topic", PStr "cats"); ("current_side", PStr "for")])
        "for" [] eq_refl (or_introl eq_refl))
      as (fields & code & w' & Hrun & Hcases).
    assert (Hfields : code = 200%Z
                      /\ assoc "status" fields = Some (PStr "moderator_intervention"))
      by (vm_compute in Hrun; inversion Hrun; now split).
    destruct Hfields as [-> Hstatus].
    exists fields, w'. split; [exact Hrun|]. split; [exact Hstatus|].
    destruct Hcases as [[_ Hc]|(_ & _ & Hnext & _)]; [now elim Hc|now apply Hnext].
  - destruct (C2_next_side_is_opposite
        (fun _ _ => Response 200 (Some (PDict [("response", PStr "Dogs are loyal.")])))
        (fun _ => "") (PDict [("topic", PStr "cats"); ("current_side", PStr "against")])
        "against" [] eq_refl (or_intror eq_refl))
      as (fields & code & w' & Hrun & Hcases).
    assert (Hfields : code = 200%Z /\ assoc "status" fields = Some (PStr "success"))
      by (vm_compute in Hrun; inversion Hrun; now split).
    destruct Hfields as [-> Hstatus].
    exists fields, w'. split; [exact Hrun|]. split; [exact Hstatus|].
    destruct Hcases as [[_ Hc]|(_ & _ & _ & Hnext)]; [now elim Hc|now apply Hnext].
Defined.

End Runs.

Lemma alternating_snoc (sides : list (option pyval)) (d x : option pyval) :
  alternating sides -> last sides d <> x -> alternating (sides ++ [x]).
Proof.
  induction sides as [|a [|b rest] IH]; intros Halt Hlast.
  - exact I.
  - cbn in *. now split.
  - destruct Halt as [Hab Hrest]. split; [exact Hab|].
    apply IH; [exact Hrest|exact Hlast].
Qed.

Section Runs.
#[local] Existing Instance plain_case.

(** C6, as stated, fails on the alternation: a request for the side
    ["for"] whose history already ends with a ["for"] entry is answered
    with [success], and the returned history has two ["for"] entries in a
    row. *)
Lemma C6_same_side_twice :
  let post : backend :=
    fun _ _ => Response 200 (Some (PDict [("response", PStr "Cats also purr.")])) in
  let data :=
    PDict [("topic", PStr "cats"); ("current_side", PStr "for");
           ("debate_history", PList [PDict [("side", PStr "for"); ("text", PStr "Cats nap.")]])] in
  let returned :=
    [PDict [("side", PStr "for"); ("text", PStr "Cats nap.")];
     PDict [("side", PStr "for"); ("text", PStr "Cats also purr.")]] in
  fst (debate_round post (fun _ => "") data []) =
    Return (success_body "for" (PStr "Cats also purr.")
              (PDict [("response", PStr "Cats also purr.")]) returned, 200%Z)
  /\ ~ alternating (map side_of returned).
Proof.
  cbv zeta. split; [reflexivity|].
  cbn. intros [H _]. now apply H.
Qed.

End Runs.

Section General.
Context {cm : CaseMap}.

(** C6, amended: when the route answers [success], the returned history
    is the supplied one (none or [None] read as empty) with exactly one
    entry appended at its end, [{side: current_side, text: argument}] for
    the returned argument, so that no earlier entry is changed or removed;
    the returned [next_side] is the side other than [current_side]; and
    the sides of the returned history alternate whenever those of the
    supplied history do and [current_side] differs from the side of its
    last entry. *)
Theorem C6_history_grows_by_one (post : backend) (py_repr : pyval -> string)
    (data : pyval) (fields : list (string * pyval)) (code : Z) (w w' : world) :
  debate_round post py_repr data w = (Return (PDict fields, code), w') ->
  assoc "status" fields = Some (PStr "success") ->
  exists side argument,
    method_get data "current_side" PNone = Return (PStr side)
    /\ (side = "for" \/ side = "against")
    /\ assoc "argument" fields = Some argument
    /\ assoc "debate_history" fields =
         Some (PList (supplied_history data ++ [PDict [("side", PStr side); ("text", argument)]]))
    /\ assoc "next_side" fields = Some (PStr (next_side side))
    /\ next_side side <> side
    /\ (alternating (map side_of (supplied_history data)) ->
        last (map side_of (supplied_history data)) None <> Some (PStr side) ->
        alternating (map side_of
          (supplied_history data ++ [PDict [("side", PStr side); ("text", argument)]]))).
Proof.
  intros Hrun Hstatus.
  destruct (debate_round_cases post py_repr data w)
    as (response & w1 & Hrun' & Hcases).
  rewrite Hrun in Hrun'. inversion Hrun'. subst response w1. clear Hrun'.
  destruct Hcases as [(message & c & H & _)|Hround].
  { inversion H. subst. discriminate. }
  destruct Hround as (d & topic & side & -> & _ & Hs & Hvalid & Hround).
  pose proof (round_try_result post py_repr topic (history_value d) side w) as H.
  rewrite Hround in H.
  destruct H as (_ & argument & entries & Happ & Hbody).
  destruct Hbody as [(message & summary & Hb)|(evaluation & Hb)];
    inversion Hb; subst fields; [discriminate|].
  assert (Hentries : entries =
            supplied_history (PDict d) ++ [PDict [("side", PStr side); ("text", argument)]]).
  { unfold supplied_history, append_entry in *. cbn [method_get].
    fold (history_value d) in *.
    assert (Hh : match assoc "debate_history" d with
                 | Some x => Return x
                 | None => Return (PList [])
                 end = Return (history_value d)).
    { unfold history_value. now destruct (assoc "debate_history" d). }
    rewrite Hh.
    destruct (history_value d); inversion Happ; reflexivity. }
  exists side, argument. cbn [method_get]. rewrite Hs.
  split; [reflexivity|]. split; [exact Hvalid|]. split; [reflexivity|].
  split; [now rewrite Hentries|]. split; [reflexivity|].
  split; [now apply next_side_differs|].
  intros Halt Hlast. rewrite map_app. cbn [map side_of assoc PyStr.eqb].
  eapply alternating_snoc; eassumption.
Qed.

End General.

Section Runs.
#[local] Existing Instance plain_case.

(** The amended C6 on the first round of a debate, no history supplied. *)
Lemma C6_history_grows_by_one_witness :
  let post : backend :=
    fun _ _ => Response 200 (Some (PDict [("response", PStr "Cats purr.")])) in
  let data := PDict [("topic", PStr "cats"); ("current_side", PStr "for")] in
  exists fields w',
    debate_round post (fun _ => "") data [] = (Return (PDict fields, 200%Z), w')
    /\ assoc "debate_history" fields =
         Some (PList [PDict [("side", PStr "for"); ("text", PStr "Cats purr.")]])
    /\ assoc "next_side" fields = Some (PStr "against").
Proof.
  cbv zeta.
  set (post := fun (_ : world) (_ : request) =>
                 Response 200 (Some (PDict [("response", PStr "Cats purr.")]))).
  set (data := PDict [("topic", PStr "cats"); ("current_side", PStr "for")]).
  destruct (debate_round post (fun _ => "") data []) as [[[[| | | | |fields] code]|e] w'] eqn:Hrun;
    try (vm_compute in Hrun; discriminate).
  assert (Hcode : code = 200%Z) by (vm_compute in Hrun; now inversion Hrun).
  subst code.
  assert (Hstatus : assoc "status" fields = Some (PStr "success"))
    by (vm_compute in Hrun; now inversion Hrun).
  destruct (C6_history_grows_by_one post (fun _ => "") data fields 200%Z [] w' Hrun Hstatus)
    as (side & argument & Hside & _ & Harg & Hhist & Hnext & _).
  assert (side = "for") by (cbn in Hside; now inversion Hside). subst side.
  assert (argument = PStr "Cats purr.").
  { vm_compute in Hrun. inversion Hrun. subst fields. cbn in Harg. now inversion Harg. }
  subst argument.
  exists fields, w'. split; [reflexivity|]. split; [exact Hhist|exact Hnext].
Defined.

End Runs.

End Alternation.

(* ===================================================================== *)
(** ** What the moderator is given *)
(* ===================================================================== *)

Module Projection.
Import PyStr PyStrFacts Vocabulary RequestLayer Routes Round ContextWindow.

Section General.
Context {cm : CaseMap}.





End General.

Section WithBackend.
Context {cm : CaseMap}.
Variable post : backend.
Variable py_repr : pyval -> string.


(** The route on a request that names a topic and one of the two sides. *)
Lemma debate_round_valid (d : list (string * pyval)) (topic : pyval) (side : string)
    (w : world) :
  assoc "topic" d = Some topic ->
  assoc "current_side" d = Some (PStr side) ->
  side = "for" \/ side = "against" ->
  debate_round_view post py_repr (PDict d) w =
    round_try post py_repr topic (history_value d) side w.
Proof.
  intros Ht Hs Hvalid.
  unfold debate_round_view, bind, lift, all_fields_in. cbn [field_in method_get].
  rewrite Ht, Hs. cbn [negb].
  assert (Hh : match assoc "debate_history" d with
               | Some x => Return x
               | None => Return (PList [])
               end = Return (history_value d)).
  { unfold history_value. now destruct (assoc "debate_history" d). }
  rewrite Hh.
  assert (Hb : PyStr.eqb side "for" || PyStr.eqb side "against" = true)
    by (destruct Hvalid as [->| ->]; reflexivity).
  rewrite Hb. unfold try_except, raise.
  now destruct (round_try post py_repr topic (history_value d) side w) as [[r|e] w1].
Qed.

Lemma handle_errors_world (f : M flask_response) (w : world) :
  snd (handle_errors f w) = snd (f w).
Proof.
  unfold handle_errors, try_except, ret.
  destruct (f w) as [[r|e] w1]; [reflexivity|].
  destruct e as [r| | | | | |]; try reflexivity.
  now destruct (is_requests_ConnectionError r).
Qed.


End WithBackend.
End Projection.

Module ModeratorView.
Import PyStr PyStrFacts Vocabulary RequestLayer Routes Round ContextWindow Projection.

Section General.
Context {cm : CaseMap}.



End General.

Section Runs.
#[local] Existing Instance plain_case.


End Runs.

Section General.
Context {cm : CaseMap}.


End General.

Section Runs.
#[local] Existing Instance plain_case.


End Runs.

End ModeratorView.

(* ===================================================================== *)
(** ** System prompts *)
(* ===================================================================== *)

Module SystemPrompts.
Import PyStr PyStrFacts Vocabulary RequestLayer PromptModel.

(** [generate_system_prompt] by what the request gives. *)
Lemma generate_system_prompt_run (post : backend) (model_name stance topic : string)
    (w : world) :
  stance <> "" -> topic <> "" ->
  let rq := mkRequest "http://localhost:11434/api/generate" model_name
              (system_prompt_request stance topic) false 60 in
  generate_system_prompt post model_name stance topic w =
    (match api_try (post w rq) with
     | inl e => Raise (api_handlers e)
     | inr reply =>
         match getitem reply "response" with
         | Raise e => Raise e
         | Return field =>
             match as_str field with
             | Raise e => Raise e
             | Return text =>
                 if len (strip text) <? 50
                 then Raise (ValueError "Generated system prompt is too short")
                 else Return (strip text)
             end
         end
     end, w ++ [rq]).
Proof.
  intros Hs Ht. cbv zeta. unfold generate_system_prompt.
  apply str_eqb_neq in Hs, Ht. rewrite Hs, Ht. cbn [orb].
  unfold try_except, bind, lift, _make_api_request. rewrite make_api_request_run.
  destruct (api_try _) as [e|reply]; [reflexivity|].
  destruct (getitem reply "response") as [field|e]; [|reflexivity].
  destruct (as_str field) as [text|e]; [|reflexivity].
  now destruct (len (strip text) <? 50).
Qed.

(** X1: the failures of [generate_system_prompt], all of them.  Without a
    stance or without a topic it raises [ValueError] and sends nothing.
    Otherwise it sends its one request, and it raises exactly when the
    request raises (the exception leaves as it is, not wrapped), when the
    reply has no ['response'] ([KeyError], or [TypeError] for a reply that
    is no dict), when the ['response'] is not text ([AttributeError]), or
    when the trimmed text has fewer than fifty characters
    ([ValueError]). *)
Theorem system_prompt_failures (post : backend) (model_name stance topic : string)
    (w : world) :
  (stance = "" \/ topic = "" ->
     generate_system_prompt post model_name stance topic w =
       (Raise (ValueError "Stance and topic are required"), w))
  /\ (stance <> "" -> topic <> "" ->
      let rq := mkRequest "http://localhost:11434/api/generate" model_name
                  (system_prompt_request stance topic) false 60 in
      snd (generate_system_prompt post model_name stance topic w) = w ++ [rq]
      /\ forall e,
           fst (generate_system_prompt post model_name stance topic w) = Raise e <->
           (exists r, api_try (post w rq) = inl r /\ e = api_handlers r)
           \/ (exists reply,
                 api_try (post w rq) = inr reply /\ getitem reply "response" = Raise e)
           \/ (exists reply field,
                 api_try (post w rq) = inr reply
                 /\ getitem reply "response" = Return field /\ as_str field = Raise e)
           \/ (exists reply text,
                 api_try (post w rq) = inr reply
                 /\ getitem reply "response" = Return (PStr text)
                 /\ len (strip text) < 50
                 /\ e = ValueError "Generated system prompt is too short")).
Proof.
  split.
  - unfold generate_system_prompt. intros [-> | ->]; [reflexivity|].
    now rewrite orb_true_r.
  - intros Hs Ht rq. rewrite (generate_system_prompt_run _ _ _ _ _ Hs Ht).
    cbv zeta. fold rq. cbn [fst snd]. split; [reflexivity|]. intros e.
    destruct (api_try (post w rq)) as [r|reply].
    { split.
      - intros H. inversion H. left. now exists r.
      - intros [(r' & Hr & ->)|[(reply & H & _)|[(reply & field & H & _)|
                 (reply & text & H & _)]]]; try discriminate.
        now inversion Hr. }
    destruct (getitem reply "response") as [field|e0] eqn:Hget.
    2:{ split.
        - intros H. inversion H. subst e0. right. left. now exists reply.
        - intros [(r' & Hr & _)|[(reply' & Hr & Hg)|[(reply' & field & Hr & Hg & _)|
                   (reply' & text & Hr & Hg & _)]]]; try discriminate;
            inversion Hr; subst reply'; rewrite Hget in Hg; congruence. }
    assert (Hback : forall outcome : outcome string,
              (forall text, field = PStr text -> len (strip text) < 50 ->
                 outcome = Raise (ValueError "Generated system prompt is too short")) ->
              (forall e', as_str field = Raise e' -> outcome = Raise e') ->
              (exists r, @inr requests_exc pyval reply = inl r /\ e = api_handlers r)
              \/ (exists reply0, @inr requests_exc pyval reply = inr reply0
                                 /\ getitem reply0 "response" = Raise e)
              \/ (exists reply0 field0, @inr requests_exc pyval reply = inr reply0
                     /\ getitem reply0 "response" = Return field0 /\ as_str field0 = Raise e)
              \/ (exists reply0 text, @inr requests_exc pyval reply = inr reply0
                     /\ getitem reply0 "response" = Return (PStr text)
                     /\ len (strip text) < 50
                     /\ e = ValueError "Generated system prompt is too short") ->
              outcome = Raise e).
    { intros outcome Hshort Hattr
        [(r' & Hr & _)|[(reply' & Hr & Hg)|[(reply' & field' & Hr & Hg & Ha)|
           (reply' & text' & Hr & Hg & Hlt & ->)]]]; try discriminate;
        inversion Hr; subst reply'; rewrite Hget in Hg; try discriminate;
        inversion Hg; subst.
      - now apply Hattr.
      - now apply (Hshort text'). }
    destruct field as [| | |text| |]; cbn [as_str];
      try (split;
           [intros H; inversion H; subst e; right; right; left; eexists reply, _;
            split; [reflexivity|]; split; [exact Hget|reflexivity]
           |apply Hback; [discriminate|cbn [as_str]; congruence]]).
    destruct (len (strip text) <? 50) eqn:Hlen.
    + split.
      * intros H. inversion H. right. right. right. exists reply, text.
        split; [reflexivity|]. split; [exact Hget|].
        split; [now apply Nat.ltb_lt|reflexivity].
      * apply Hback; [reflexivity|discriminate].
    + split; [discriminate|].
      intros [(r' & Hr & _)|[(reply' & Hr & Hg)|[(reply' & field & Hr & Hg & Ha)|
               (reply' & text' & Hr & Hg & Hshort & _)]]]; try discriminate;
        inversion Hr; subst reply'; rewrite Hget in Hg; try discriminate.
      * inversion Hg; subst field. discriminate.
      * inversion Hg; subst text'. apply Nat.ltb_ge in Hlen. lia.
Qed.

(** X1 with no stance, with the service timing out, with a reply that has
    no ['response'], and with a reply of eight characters between
    blanks. *)
Lemma system_prompt_failures_witness :
  generate_system_prompt (fun _ _ => PostRaises ReadTimeout) "m" "" "cats" [] =
    (Raise (ValueError "Stance and topic are required"), [])
  /\ fst (generate_system_prompt (fun _ _ => PostRaises ReadTimeout) "m" "Cats purr." "cats" []) =
    Raise (TimeoutError "Request took too long to process")
  /\ fst (generate_system_prompt (fun _ _ => Response 200 (Some (PDict [])))
            "m" "Cats purr." "cats" []) =
    Raise (KeyError "response")
  /\ fst (generate_system_prompt
            (fun _ _ => Response 200 (Some (PDict [("response", PStr "  Be kind.  ")])))
            "m" "Cats purr." "cats" []) =
    Raise (ValueError "Generated system prompt is too short").
Proof.
  split; [|split; [|split]].
  - apply (proj1 (system_prompt_failures (fun _ _ => PostRaises ReadTimeout) "m" "" "cats" [])).
    now left.
  - apply (proj2 (proj2 (system_prompt_failures (fun _ _ => PostRaises ReadTimeout)
                           "m" "Cats purr." "cats" [])
                    ltac:(discriminate) ltac:(discriminate))).
    left. exists ReadTimeout. now split.
  - apply (proj2 (proj2 (system_prompt_failures (fun _ _ => Response 200 (Some (PDict [])))
                           "m" "Cats purr." "cats" [])
                    ltac:(discriminate) ltac:(discriminate))).
    right. left. exists (PDict []). now split.
  - apply (proj2 (proj2 (system_prompt_failures
               (fun _ _ => Response 200 (Some (PDict [("response", PStr "  Be kind.  ")])))
               "m" "Cats purr." "cats" [])
               ltac:(discriminate) ltac:(discriminate))).
    right. right. right.
    exists (PDict [("response", PStr "  Be kind.  ")]), "  Be kind.  ".
    split; [reflexivity|]. split; [reflexivity|]. split; [cbv; repeat constructor|reflexivity].
Defined.

(** X2: a system prompt that [generate_system_prompt] returns is the
    trimmed text of the reply, has fifty characters or more and no blank
    at either end, and cost exactly one request. *)
Theorem system_prompt_postcondition (post : backend) (model_name stance topic : string)
    (w w' : world) (system_prompt : string) :
  generate_system_prompt post model_name stance topic w = (Return system_prompt, w') ->
  50 <= len system_prompt
  /\ strip system_prompt = system_prompt
  /\ (exists reply text,
        api_try (post w (mkRequest "http://localhost:11434/api/generate" model_name
                           (system_prompt_request stance topic) false 60)) = inr reply
        /\ getitem reply "response" = Return (PStr text)
        /\ system_prompt = strip text)
  /\ w' = w ++ [mkRequest "http://localhost:11434/api/generate" model_name
                  (system_prompt_request stance topic) false 60].
Proof.
  intros Hrun.
  assert (Hargs : stance <> "" /\ topic <> "").
  { unfold generate_system_prompt in Hrun.
    destruct (PyStr.eqb stance "") eqn:Hs; [discriminate|].
    destruct (PyStr.eqb topic "") eqn:Ht; [discriminate|].
    split; now apply str_eqb_neq. }
  destruct Hargs as [Hs Ht].
  rewrite (generate_system_prompt_run _ _ _ _ _ Hs Ht) in Hrun. cbv zeta in Hrun.
  destruct (api_try _) as [e|reply] eqn:Ha; [discriminate|].
  destruct (getitem reply "response") as [field|e] eqn:Hf; [|discriminate].
  destruct field as [| | |text| |]; cbn [as_str] in Hrun; try discriminate.
  destruct (len (strip text) <? 50) eqn:Hlen; [discriminate|].
  inversion Hrun. subst. apply Nat.ltb_ge in Hlen.
  split; [exact Hlen|]. split; [apply strip_idem|]. split; [|reflexivity].
  now exists reply, text.
Qed.

(** X2 on a reply of fifty-eight characters between blanks. *)
Lemma system_prompt_postcondition_witness :
  50 <= len "You argue for cats. Be civil, be brief, and cite evidence."
  /\ strip "You argue for cats. Be civil, be brief, and cite evidence." =
       "You argue for cats. Be civil, be brief, and cite evidence.".
Proof.
  destruct (system_prompt_postcondition
    (fun _ _ => Response 200 (Some (PDict [("response",
       PStr "  You argue for cats. Be civil, be brief, and cite evidence.  ")])))
    "m" "Cats purr." "cats" [] _
    "You argue for cats. Be civil, be brief, and cite evidence." eq_refl)
    as (H1 & H2 & _).
  now split.
Defined.

End SystemPrompts.

(* ===================================================================== *)
(** ** What stance generation hands back *)
(* ===================================================================== *)

Module StanceResults.
Import PyStr PyStrFacts Vocabulary RequestLayer TopicFilter Stances PromptModel.

Section General.
Context {cm : CaseMap}.

(** The lines kept by the parse are trimmed and not empty. *)
Lemma nonempty_lines_kept (text line : string) :
  In line (nonempty_lines text) -> line <> "" /\ strip line = line.
Proof.
  unfold nonempty_lines. intros Hin.
  apply in_map_iff in Hin as [raw [<- Hraw]].
  apply filter_In in Hraw as [_ Hne].
  split; [|apply strip_idem].
  apply negb_true_iff in Hne. now apply str_eqb_neq.
Qed.

Lemma parse_stances_trimmed (text : string) :
  strip (fst (parse_stances text)) = fst (parse_stances text)
  /\ strip (snd (parse_stances text)) = snd (parse_stances text).
Proof.
  unfold parse_stances.
  destruct (fold_left scan_line (nonempty_lines text) ("", "")) as [f1 a1].
  match goal with |- context [if ?c then _ else _] => destruct c end;
    cbn [fst snd]; split; apply strip_idem.
Qed.

(** X3: [generate_stances] raises nothing but [ValueError]: an exception
    of the request leaves as [ValueError] with the text
    ["Failed to generate debate stances: "] followed by the text of the
    exception, so that its class is lost to the caller. *)
Theorem stances_raise_only_value_errors (post : backend) (describe : pyexc -> string)
    (model_name topic : string) (w : world) :
  (forall e, fst (generate_stances post describe model_name topic w) = Raise e ->
     exists message, e = ValueError message)
  /\ (strip topic <> "" ->
      forall e w',
        _make_api_request post model_name (stances_prompt topic) w = (Raise e, w') ->
        generate_stances post describe model_name topic w =
          (Raise (ValueError ("Failed to generate debate stances: " ++ str_exc describe e)), w')).
Proof.
  split.
  - unfold generate_stances. destruct (_ || _).
    + cbn. intros e H. inversion H. eauto.
    + unfold try_except.
      destruct (bind _ _ w) as [[r|e0] w1]; cbn [fst raise]; intros e H; inversion H.
      eauto.
  - intros Ht e w' Hr. unfold generate_stances. rewrite (topic_guard _ Ht).
    unfold try_except, bind. now rewrite Hr.
Qed.

End General.

Section Runs.
#[local] Existing Instance plain_case.

(** X3 with the service out of reach. *)
Lemma stances_raise_only_value_errors_witness :
  generate_stances (fun _ _ => PostRaises RequestsConnectionError) (fun _ => "")
    Config.PROMPT_MODEL "cats" [] =
    (Raise (ValueError "Failed to generate debate stances: AI service is unavailable"),
     [prompt_request (stances_prompt "cats")]).
Proof.
  apply (proj2 (stances_raise_only_value_errors
                  (fun _ _ => PostRaises RequestsConnectionError) (fun _ => "")
                  Config.PROMPT_MODEL "cats" [])
           ltac:(discriminate) (ConnectionError "AI service is unavailable")).
  reflexivity.
Defined.

End Runs.

Section General.
Context {cm : CaseMap}.

(** What [generate_stances] returns has passed the parse or the retry:
    both statements are trimmed and not empty. *)
Lemma generate_stances_returned (post : backend) (describe : pyexc -> string)
    (model_name topic : string) (w w' : world) (for_stance against_stance : string) :
  generate_stances post describe model_name topic w =
    (Return (for_stance, against_stance), w') ->
  (for_stance <> "" /\ strip for_stance = for_stance)
  /\ (against_stance <> "" /\ strip against_stance = against_stance).
Proof.
  intros Hrun. unfold generate_stances in Hrun.
  destruct (_ || _); [discriminate|].
  unfold try_except, bind, lift in Hrun.
  destruct (_make_api_request post model_name (stances_prompt topic) w)
    as [[response|e] w1]; [|discriminate].
  destruct (getitem response "response") as [field|e]; [|discriminate].
  destruct (as_str field) as [result|e]; [|discriminate].
  pose proof (parse_stances_trimmed result) as [Hf Ha].
  destruct (parse_stances result) as [f a]. cbn [fst snd] in Hf, Ha.
  destruct ((len f <? 5) || (len a <? 5)) eqn:Hshort.
  - destruct (retry_run post model_name topic w1) as [_ Hres].
    destruct (_retry_generate_stances post model_name topic w1) as [[r|e] w2];
      [|discriminate].
    inversion Hrun. subst r w2. cbn [fst] in Hres.
    destruct Hres as [Hres|(reply & text & l1 & l2 & rest & _ & _ & Hlines & Hres)];
      [discriminate|].
    inversion Hres. subst l1 l2.
    split; apply (nonempty_lines_kept text); rewrite Hlines; cbn; auto.
  - inversion Hrun. subst f a w1.
    apply orb_false_iff in Hshort as [H1 H2].
    apply Nat.ltb_ge in H1, H2.
    split; (split; [intros ->; cbn in *; lia|assumption]).
Qed.

(** X4: the two stances [generate_stances] returns are never empty and
    carry no blank at either end, whether they come from the first parse
    or from the retry; the test [not for_stance or not against_stance] of
    [start_debate] can therefore not fire. *)
Theorem stances_returned_not_empty (post : backend) (describe : pyexc -> string)
    (model_name topic : string) (w w' : world) (for_stance against_stance : string) :
  generate_stances post describe model_name topic w =
    (Return (for_stance, against_stance), w') ->
  for_stance <> "" /\ against_stance <> ""
  /\ strip for_stance = for_stance /\ strip against_stance = against_stance
  /\ PyStr.eqb for_stance "" || PyStr.eqb against_stance "" = false.
Proof.
  intros Hrun.
  destruct (generate_stances_returned _ _ _ _ _ _ _ _ Hrun) as [[Hf1 Hf2] [Ha1 Ha2]].
  repeat split; try assumption.
  apply orb_false_iff. split; now apply str_eqb_neq.
Qed.

End General.

Section Runs.
#[local] Existing Instance plain_case.

(** X4 on the retry path: the first reply is too short, the second gives
    two lines between blanks. *)
Lemma stances_returned_not_empty_witness :
  "1. Cats are fine pets." <> "" /\ "2. Cats scratch." <> "".
Proof.
  destruct (stances_returned_not_empty
    (fun w _ => match w with
                | [] => Response 200 (Some (PDict [("response", PStr "FOR: X")]))
                | _ => Response 200 (Some (PDict [("response",
                         PStr ("  1. Cats are fine pets." ++ nl ++ nl ++ "  2. Cats scratch. "))]))
                end)
    (fun _ => "") Config.PROMPT_MODEL "cats" [] _
    "1. Cats are fine pets." "2. Cats scratch." eq_refl) as (H1 & H2 & _).
  now split.
Defined.

End Runs.

End StanceResults.

(* ===================================================================== *)
(** ** Debate turns and the windows of the moderator *)
(* ===================================================================== *)

Module Windows.
Import PyStr PyStrFacts Vocabulary RequestLayer.

Section General.
Context {cm : CaseMap}.

(** [l[-n:]] only looks at the last [n] items. *)
Lemma list_last_app {A : Type} (n : nat) (older recent : list A) :
  n <= List.length recent -> list_last n (older ++ recent) = list_last n recent.
Proof.
  intros Hn. unfold list_last. rewrite length_app, skipn_app.
  rewrite skipn_all2 by lia. cbn [app]. f_equal. lia.
Qed.

Lemma format_context_window (py_repr : pyval -> string) (older recent : list pyval) :
  3 <= List.length recent ->
  DebateModel.format_context py_repr (PList (older ++ recent)) =
    DebateModel.format_context py_repr (PList recent).
Proof.
  intros Hn. unfold DebateModel.format_context.
  assert (H1 : truthy (PList recent) = true) by (destruct recent; [cbn in Hn; lia|reflexivity]).
  assert (H2 : truthy (PList (older ++ recent)) = true).
  { destruct older; [exact H1|reflexivity]. }
  rewrite H1, H2. cbn [DebateModel.last_three]. now rewrite list_last_app.
Qed.

Lemma context_str_window (py_repr : pyval -> string) (n : nat) (older recent : list pyval) :
  n <= List.length recent ->
  ModeratorModel.context_str py_repr n (older ++ recent) =
    ModeratorModel.context_str py_repr n recent.
Proof.
  intros Hn. unfold ModeratorModel.context_str. now rewrite list_last_app.
Qed.

End General.

Section WithBackend.
Context {cm : CaseMap}.
Variable post : backend.
Variable py_repr : pyval -> string.


(** X6: only the last three entries of the history reach the debater:
    with three entries or more in [recent], [generate_response] does on
    [older ++ recent] what it does on [recent] alone. *)
Theorem generate_response_reads_last_three (model_name : string) (topic : pyval)
    (older recent : list pyval) (stance : string) (w : world) :
  3 <= List.length recent ->
  DebateModel.generate_response post py_repr model_name topic (PList (older ++ recent)) stance w =
    DebateModel.generate_response post py_repr model_name topic (PList recent) stance w.
Proof.
  intros Hn. unfold DebateModel.generate_response.
  now rewrite (format_context_window py_repr older recent Hn).
Qed.

(** X7: the moderator reads a window of the history too: the last three
    entries for [should_intervene] and [evaluate_response], the last five
    for [generate_summary]; older entries change nothing. *)
Theorem moderator_reads_recent_entries (model_name : string) (topic argument : pyval)
    (older recent : list pyval) (w : world) :
  (3 <= List.length recent ->
     ModeratorModel.should_intervene post py_repr model_name topic (older ++ recent) w =
       ModeratorModel.should_intervene post py_repr model_name topic recent w
     /\ ModeratorModel.evaluate_response post py_repr model_name topic argument
          (older ++ recent) w =
        ModeratorModel.evaluate_response post py_repr model_name topic argument recent w)
  /\ (5 <= List.length recent ->
     ModeratorModel.generate_summary post py_repr model_name topic (older ++ recent) w =
       ModeratorModel.generate_summary post py_repr model_name topic recent w).
Proof.
  split.
  - intros Hn. split.
    + unfold ModeratorModel.should_intervene.
      rewrite (context_str_window py_repr 3 older recent Hn).
      destruct recent as [|r recent']; [cbn in Hn; lia|].
      now destruct older.
    + unfold ModeratorModel.evaluate_response.
      now rewrite (context_str_window py_repr 3 older recent Hn).
  - intros Hn. unfold ModeratorModel.generate_summary.
    rewrite (context_str_window py_repr 5 older recent Hn).
    destruct recent as [|r recent']; [cbn in Hn; lia|].
    now destruct older.
Qed.

(** X8: [should_intervene] raises only while it formats the history: on
    an empty history, and on any history whose last three entries can be
    formatted, it returns a dict with a Boolean [needs_intervention] and a
    textual [reason], whatever the service does. *)
Theorem should_intervene_always_answers (model_name : string) (topic : pyval)
    (debate_history : list pyval) (w : world) :
  debate_history = []
    \/ (exists context, ModeratorModel.context_str py_repr 3 debate_history = Return context) ->
  exists verdict reason w',
    ModeratorModel.should_intervene post py_repr model_name topic debate_history w =
      (Return (PDict [("needs_intervention", PBool verdict); ("reason", PStr reason)]), w').
Proof.
  intros [-> | [context Hc]].
  - now exists false, "Debate hasn't started yet", w.
  - unfold ModeratorModel.should_intervene.
    destruct debate_history as [|entry rest].
    + now exists false, "Debate hasn't started yet", w.
    + unfold bind, lift, try_except. rewrite Hc.
      unfold ModeratorModel.intervene_try, bind, lift, ret.
      destruct (ModeratorModel._make_api_request _ _ _ _) as [[reply|e] w1];
        [|now eexists _, _, _].
      destruct (getitem reply "response") as [field|e]; [|now eexists _, _, _].
      destruct (as_str field) as [text|e]; now eexists _, _, _.
Qed.

End WithBackend.

Section Runs.
#[local] Existing Instance plain_case.

(** X6 on a history of four entries and its last three. *)
Lemma generate_response_reads_last_three_witness :
  let post : backend :=
    fun _ _ => Response 200 (Some (PDict [("response", PStr "Dogs are loyal.")])) in
  DebateModel.generate_response post (fun _ => "") Config.DEBATE_MODEL (PStr "cats")
    (PList ([PStr "one"] ++ [PStr "two"; PStr "three"; PStr "four"])) "for" [] =
  DebateModel.generate_response post (fun _ => "") Config.DEBATE_MODEL (PStr "cats")
    (PList [PStr "two"; PStr "three"; PStr "four"]) "for" [].
Proof.
  cbv zeta.
  apply (generate_response_reads_last_three _ (fun _ => "") Config.DEBATE_MODEL (PStr "cats")
           [PStr "one"] [PStr "two"; PStr "three"; PStr "four"] "for" []).
  cbn. lia.
Defined.


(** X7 on a history of six texts and its last five. *)
Lemma moderator_reads_recent_entries_witness :
  let post : backend :=
    fun _ _ => Response 200 (Some (PDict [("response", PStr "A fair debate.")])) in
  ModeratorModel.generate_summary post (fun _ => "") Config.MODERATOR_MODEL (PStr "cats")
    ([PStr "one"] ++ [PStr "two"; PStr "three"; PStr "four"; PStr "five"; PStr "six"]) [] =
  ModeratorModel.generate_summary post (fun _ => "") Config.MODERATOR_MODEL (PStr "cats")
    [PStr "two"; PStr "three"; PStr "four"; PStr "five"; PStr "six"] [].
Proof.
  cbv zeta.
  apply (proj2 (moderator_reads_recent_entries _ (fun _ => "") Config.MODERATOR_MODEL
                  (PStr "cats") PNone [PStr "one"]
                  [PStr "two"; PStr "three"; PStr "four"; PStr "five"; PStr "six"] [])).
  cbn. lia.
Defined.

(** X8 on a history of one text, with a service that answers no JSON. *)
Lemma should_intervene_always_answers_witness :
  exists verdict reason w',
    ModeratorModel.should_intervene (fun _ _ => Response 200 None) (fun _ => "")
      Config.MODERATOR_MODEL (PStr "cats") [PStr "Cats purr."] [] =
      (Return (PDict [("needs_intervention", PBool verdict); ("reason", PStr reason)]), w').
Proof.
  apply should_intervene_always_answers.
  right. now exists "Cats purr.".
Defined.

End Runs.

End Windows.

(* ===================================================================== *)
(** ** The exceptions that reach [handle_errors] *)
(* ===================================================================== *)

Module Raised.
Import PyStr PyStrFacts Vocabulary RequestLayer.

Section General.
Context {cm : CaseMap}.

Lemma getitem_500 (v : pyval) (key : string) (e : pyexc) :
  getitem v key = Raise e -> answered_500 e.
Proof.
  destruct v; cbn; try (intros H; inversion H; exact I).
  destruct (assoc key d); intros H; inversion H. exact I.
Qed.

Lemma method_get_500 (v : pyval) (key : string) (default : pyval) (e : pyexc) :
  method_get v key default = Raise e -> answered_500 e.
Proof.
  destruct v; cbn; try (intros H; inversion H; exact I).
  destruct (assoc key d); discriminate.
Qed.

Lemma as_str_500 (v : pyval) (e : pyexc) : as_str v = Raise e -> answered_500 e.
Proof. destruct v; cbn; intros H; inversion H; exact I. Qed.

Lemma field_in_500 (field : string) (data : pyval) (e : pyexc) :
  Routes.field_in field data = Raise e -> answered_500 e.
Proof. destruct data; cbn; intros H; inversion H; exact I. Qed.

Lemma all_fields_in_500 (fields : list string) (data : pyval) (e : pyexc) :
  Routes.all_fields_in fields data = Raise e -> answered_500 e.
Proof.
  induction fields as [|field rest IH]; cbn; [discriminate|].
  destruct (Routes.field_in field data) as [[|]|e0] eqn:Hf.
  - exact IH.
  - discriminate.
  - intros H. inversion H. subst. eapply field_in_500; eassumption.
Qed.

Lemma append_entry_500 (debate_history entry : pyval) (e : pyexc) :
  Routes.append_entry debate_history entry = Raise e -> answered_500 e.
Proof. destruct debate_history; cbn; intros H; inversion H; exact I. Qed.

Lemma summary_history_500 (debate_history : pyval) (e : pyexc) :
  Routes.summary_history debate_history = Raise e -> answered_500 e.
Proof.
  destruct debate_history; cbn; try discriminate;
    match goal with |- context [if ?c then _ else _] => destruct c end;
    intros H; inversion H; exact I.
Qed.

Lemma traverse_500 {A B : Type} (f : A -> outcome B) (l : list A) (e : pyexc) :
  (forall x e', f x = Raise e' -> answered_500 e') ->
  traverse f l = Raise e -> answered_500 e.
Proof.
  intros Hf. induction l as [|x l IH]; cbn; [discriminate|].
  destruct (f x) as [y|e0] eqn:Hx.
  - destruct (traverse f l) as [ys|e1]; [discriminate|].
    intros H. inversion H. subst. now apply IH.
  - intros H. inversion H. subst. eapply Hf; eassumption.
Qed.

Lemma texts_of_500 (debate_history : list pyval) (e : pyexc) :
  Routes.texts_of debate_history = Raise e -> answered_500 e.
Proof.
  apply traverse_500. intros x e'. apply getitem_500.
Qed.

Lemma format_item_500 (py_repr : pyval -> string) (entry : pyval) (e : pyexc) :
  ModeratorModel.format_item py_repr entry = Raise e -> answered_500 e.
Proof.
  unfold ModeratorModel.format_item. destruct (is_dict entry); [|discriminate].
  destruct (getitem entry "side") as [side|e0] eqn:Hs.
  - destruct (as_str side) as [text|e1] eqn:Ha.
    + destruct (getitem entry "text") as [t|e2] eqn:Ht; [discriminate|].
      intros H. inversion H. subst. eapply getitem_500; eassumption.
    + intros H. inversion H. subst. eapply as_str_500; eassumption.
  - intros H. inversion H. subst. eapply getitem_500; eassumption.
Qed.

Lemma context_str_500 (py_repr : pyval -> string) (n : nat) (debate_history : list pyval)
    (e : pyexc) :
  ModeratorModel.context_str py_repr n debate_history = Raise e -> answered_500 e.
Proof.
  unfold ModeratorModel.context_str.
  destruct (traverse _ _) as [l|e0] eqn:Ht; [discriminate|].
  intros H. inversion H. subst.
  eapply traverse_500; [|exact Ht]. intros x e'. apply format_item_500.
Qed.

Lemma format_entry_500 (py_repr : pyval -> string) (i : nat) (entry : pyval) (e : pyexc) :
  DebateModel.format_entry py_repr i entry = Raise e -> answered_500 e.
Proof.
  unfold DebateModel.format_entry. destruct (is_dict entry); [|discriminate].
  destruct (getitem entry "side") as [side|e0] eqn:Hs.
  - destruct (as_str side) as [text|e1] eqn:Ha.
    + destruct (getitem entry "text") as [t|e2] eqn:Ht; [discriminate|].
      intros H. inversion H. subst. eapply getitem_500; eassumption.
    + intros H. inversion H. subst. eapply as_str_500; eassumption.
  - intros H. inversion H. subst. eapply getitem_500; eassumption.
Qed.

Lemma format_entries_500 (py_repr : pyval -> string) (entries : list pyval) (i : nat)
    (acc : string) (e : pyexc) :
  DebateModel.format_entries py_repr i acc entries = Raise e -> answered_500 e.
Proof.
  revert i acc. induction entries as [|entry rest IH]; intros i acc; cbn; [discriminate|].
  destruct (DebateModel.format_entry py_repr i entry) as [line|e0] eqn:Hl.
  - apply IH.
  - intros H. inversion H. subst. eapply format_entry_500; eassumption.
Qed.

Lemma format_context_500 (py_repr : pyval -> string) (context : pyval) (e : pyexc) :
  DebateModel.format_context py_repr context = Raise e -> answered_500 e.
Proof.
  unfold DebateModel.format_context. destruct (truthy context); [|discriminate].
  destruct (DebateModel.last_three context) as [entries|e0] eqn:Hl.
  - apply format_entries_500.
  - intros H. inversion H. subst.
    destruct context; cbn in Hl; inversion Hl; exact I.
Qed.

(** The request layer never lets a [requests] connection error through:
    its first handler replaces every one of them. *)
Lemma make_api_request_500 (post : backend) (timeout : Z) (model_name prompt : string)
    (w w' : world) (e : pyexc) :
  make_api_request post timeout model_name prompt w = (Raise e, w') -> answered_500 e.
Proof.
  rewrite make_api_request_run. destruct (api_try _) as [r|j]; [|discriminate].
  intros H. inversion H. unfold api_handlers.
  destruct (is_requests_ConnectionError r) eqn:Hc; [exact I|].
  destruct (is_requests_Timeout r); [exact I|].
  destruct (is_JSONDecodeError r); [exact I|exact Hc].
Qed.

End General.

End Raised.

Module RaisedByModels.
Import PyStr PyStrFacts Vocabulary RequestLayer Raised.

Create HintDb raised.

#[local] Hint Resolve getitem_500 method_get_500 as_str_500 field_in_500
  all_fields_in_500 append_entry_500 summary_history_500 texts_of_500
  context_str_500 format_context_500 make_api_request_500 : raised.

(** The innermost scrutinee of the matches in [t]. *)
Ltac innermost t :=
  match t with
  | context [match ?y with _ => _ end] => innermost y
  | context [match ?y with _ => _ end] => y
  end.

(** Case analysis on every step of a run that ended with an exception. *)
Ltac split_run H :=
  repeat (let T := type of H in let x := innermost T in destruct x eqn:?);
  inversion H; subst; try exact I; eauto with raised.

Section WithBackend.
Context {cm : CaseMap}.
Variable post : backend.
Variable py_repr : pyval -> string.
Variable describe : pyexc -> string.

Lemma generate_response_500 (model_name : string) (topic context : pyval) (stance : string)
    (w w' : world) (e : pyexc) :
  DebateModel.generate_response post py_repr model_name topic context stance w = (Raise e, w') ->
  answered_500 e.
Proof.
  intros H.
  unfold DebateModel.generate_response, DebateModel._make_api_request,
    bind, lift, try_except, raise, ret in H.
  split_run H.
Qed.

Lemma should_intervene_500 (model_name : string) (topic : pyval)
    (debate_history : list pyval) (w w' : world) (e : pyexc) :
  ModeratorModel.should_intervene post py_repr model_name topic debate_history w = (Raise e, w') ->
  answered_500 e.
Proof.
  intros H.
  unfold ModeratorModel.should_intervene, ModeratorModel.intervene_try,
    ModeratorModel._make_api_request, bind, lift, try_except, raise, ret in H.
  split_run H.
Qed.

Lemma generate_summary_500 (model_name : string) (topic : pyval)
    (debate_history : list pyval) (w w' : world) (e : pyexc) :
  ModeratorModel.generate_summary post py_repr model_name topic debate_history w = (Raise e, w') ->
  answered_500 e.
Proof.
  intros H.
  unfold ModeratorModel.generate_summary, ModeratorModel._make_api_request,
    bind, lift, try_except, raise, ret in H.
  split_run H.
Qed.

Lemma evaluate_response_500 (model_name : string) (topic argument : pyval)
    (debate_history : list pyval) (w w' : world) (e : pyexc) :
  ModeratorModel.evaluate_response post py_repr model_name topic argument debate_history w =
    (Raise e, w') ->
  answered_500 e.
Proof.
  intros H.
  unfold ModeratorModel.evaluate_response, ModeratorModel._make_api_request,
    bind, lift, try_except, raise, ret in H.
  split_run H.
Qed.

Lemma filter_topic_500 (model_name topic : string) (w w' : world) (e : pyexc) :
  FilterModel.filter_topic post model_name topic w = (Raise e, w') -> answered_500 e.
Proof.
  intros H.
  unfold FilterModel.filter_topic, try_except, raise, ret in H.
  split_run H.
Qed.

Lemma generate_stances_500 (model_name topic : string) (w w' : world) (e : pyexc) :
  PromptModel.generate_stances post describe model_name topic w = (Raise e, w') ->
  answered_500 e.
Proof.
  intros H.
  unfold PromptModel.generate_stances, try_except, raise in H.
  split_run H.
Qed.

Lemma generate_system_prompt_500 (model_name stance topic : string) (w w' : world)
    (e : pyexc) :
  PromptModel.generate_system_prompt post model_name stance topic w = (Raise e, w') ->
  answered_500 e.
Proof.
  intros H.
  unfold PromptModel.generate_system_prompt, PromptModel._make_api_request,
    bind, lift, try_except, raise, ret in H.
  split_run H.
Qed.

End WithBackend.
End RaisedByModels.

(* ===================================================================== *)
(** ** How the routes answer *)
(* ===================================================================== *)

Module RouteAnswers.
Import PyStr PyStrFacts Vocabulary RequestLayer Raised RaisedByModels Routes.

#[local] Hint Resolve getitem_500 method_get_500 as_str_500 field_in_500
  all_fields_in_500 append_entry_500 summary_history_500 texts_of_500
  context_str_500 format_context_500 make_api_request_500
  generate_response_500 should_intervene_500 generate_summary_500
  evaluate_response_500 filter_topic_500 generate_stances_500
  generate_system_prompt_500 : raised.

(** A view answers with status 200 or 400, or raises an exception that
    [handle_errors] answers with status 500. *)
Ltac view_answer H :=
  repeat (let T := type of H in let x := innermost T in destruct x eqn:?);
  inversion H; subst; try exact I; auto; eauto with raised.

Section WithBackend.
Context {cm : CaseMap}.
Variable post : backend.
Variable py_repr : pyval -> string.
Variable describe : pyexc -> string.

Lemma round_try_answer (topic debate_history : pyval) (side : string) (w : world) :
  match round_try post py_repr topic debate_history side w with
  | (Return (_, code), _) => code = 200%Z \/ code = 400%Z
  | (Raise e, _) => answered_500 e
  end.
Proof.
  destruct (round_try post py_repr topic debate_history side w) as [[[body code]|e] w'] eqn:H;
    unfold round_try, bind, lift, ret in H; view_answer H.
Qed.

Lemma debate_round_view_answer (data : pyval) (w : world) :
  match debate_round_view post py_repr data w with
  | (Return (_, code), _) => code = 200%Z \/ code = 400%Z
  | (Raise e, _) => answered_500 e
  end.
Proof.
  destruct (debate_round_view post py_repr data w) as [[[body code]|e] w'] eqn:H;
    unfold debate_round_view, bind, lift, ret, try_except, raise in H.
  - repeat (let T := type of H in let x := innermost T in destruct x eqn:?);
      inversion H; subst; auto.
    match goal with
    | Hr : round_try _ _ ?t ?h ?s ?w0 = _ |- _ =>
        pose proof (round_try_answer t h s w0) as Ha; rewrite Hr in Ha; exact Ha
    end.
  - repeat (let T := type of H in let x := innermost T in destruct x eqn:?);
      inversion H; subst; eauto with raised.
    match goal with
    | Hr : round_try _ _ ?t ?h ?s ?w0 = _ |- _ =>
        pose proof (round_try_answer t h s w0) as Ha; rewrite Hr in Ha; exact Ha
    end.
Qed.

Lemma start_debate_setup_answer (topic : string) (w : world) :
  match start_debate_setup post describe topic w with
  | (Return (_, code), _) => code = 200%Z \/ code = 400%Z
  | (Raise e, _) => answered_500 e
  end.
Proof.
  destruct (start_debate_setup post describe topic w) as [[[body code]|e] w'] eqn:H;
    unfold start_debate_setup, bind, lift, ret, raise in H; view_answer H.
Qed.

Lemma start_debate_view_answer (data : pyval) (w : world) :
  match start_debate_view post describe data w with
  | (Return (_, code), _) => code = 200%Z \/ code = 400%Z
  | (Raise e, _) => answered_500 e
  end.
Proof.
  destruct (start_debate_view post describe data w) as [[[body code]|e] w'] eqn:H;
    unfold start_debate_view, bind, lift, ret, try_except, raise in H;
    repeat (let T := type of H in let x := innermost T in destruct x eqn:?);
    inversion H; subst; auto; eauto with raised;
    match goal with
    | Hr : start_debate_setup _ _ ?t ?w0 = _ |- _ =>
        pose proof (start_debate_setup_answer t w0) as Ha; rewrite Hr in Ha; exact Ha
    end.
Qed.

Lemma end_debate_view_answer (data : pyval) (w : world) :
  match end_debate_view post py_repr data w with
  | (Return (_, code), _) => code = 200%Z \/ code = 400%Z
  | (Raise e, _) => answered_500 e
  end.
Proof.
  destruct (end_debate_view post py_repr data w) as [[[body code]|e] w'] eqn:H;
    unfold end_debate_view, bind, lift, ret, try_except, raise in H; view_answer H.
Qed.

(** What [handle_errors] makes of a view that answers 200 or 400 and
    raises nothing that is a [requests] connection error. *)
Lemma handle_errors_answer (f : M flask_response) (w : world) :
  match f w with
  | (Return (_, code), _) => code = 200%Z \/ code = 400%Z
  | (Raise e, _) => answered_500 e
  end ->
  exists body code w',
    handle_errors f w = (Return (body, code), w')
    /\ (code = 200%Z \/ code = 400%Z \/ code = 500%Z).
Proof.
  unfold handle_errors, try_except, ret.
  destruct (f w) as [[[body code]|e] w'].
  - intros [H|H]; exists body, code, w'; auto.
  - intros He. destruct e as [r| | | | | |]; try (eexists _, _, w'; split; [reflexivity|auto]).
    cbn in He. rewrite He. eexists _, _, w'; split; [reflexivity|auto].
Qed.

(** X9: every request to [/start_debate], [/debate_round] and
    [/end_debate] is answered, with status 200, 400 or 500.  The 503
    answer of [handle_errors] is never given: [_make_api_request] replaces
    every connection error of [requests] by the built-in [ConnectionError],
    which [handle_errors] does not tell from any other exception. *)
Theorem routes_never_answer_503 (data : pyval) (w : world) :
  (exists body code w',
     start_debate post describe data w = (Return (body, code), w')
     /\ (code = 200%Z \/ code = 400%Z \/ code = 500%Z))
  /\ (exists body code w',
     debate_round post py_repr data w = (Return (body, code), w')
     /\ (code = 200%Z \/ code = 400%Z \/ code = 500%Z))
  /\ (exists body code w',
     end_debate post py_repr data w = (Return (body, code), w')
     /\ (code = 200%Z \/ code = 400%Z \/ code = 500%Z)).
Proof.
  split; [|split].
  - apply handle_errors_answer, start_debate_view_answer.
  - apply handle_errors_answer, debate_round_view_answer.
  - apply handle_errors_answer, end_debate_view_answer.
Qed.

End WithBackend.

Section Runs.
#[local] Existing Instance plain_case.

Example unreachable_service_is_answered_500 :
  debate_round (fun _ _ => PostRaises RequestsConnectionError) (fun _ => "")
    (PDict [("topic", PStr "cats"); ("current_side", PStr "for")]) [] =
    (Return internal_error,
     [mkRequest "http://localhost:11434/api/generate" Config.DEBATE_MODEL
        (DebateModel.response_prompt (fun _ => "") (PStr "cats") "for" "") false 60]).
Proof. reflexivity. Qed.

End Runs.

End RouteAnswers.

(* ===================================================================== *)
(** ** How many requests a call sends *)
(* ===================================================================== *)

Module Budget.
Import PyStr PyStrFacts Vocabulary RequestLayer RaisedByModels Routes.

Lemma make_api_request_sends (post : backend) (timeout : Z) (model_name prompt : string)
    (w w' : world) (o : outcome pyval) :
  make_api_request post timeout model_name prompt w = (o, w') ->
  List.length w' = List.length w + 1.
Proof.
  intros H. pose proof (make_api_request_world post timeout model_name prompt w) as Hw.
  rewrite H in Hw. cbn [snd] in Hw. subst w'. rewrite length_app. reflexivity.
Qed.

(** Turn what is known of the runs of the steps into what they sent. *)
Ltac count_sends :=
  repeat match goal with
         | H : make_api_request _ _ _ _ _ = (_, _) |- _ =>
             apply make_api_request_sends in H
         end.

(** Case analysis on every step of a run, then counting. *)
Ltac budget H :=
  repeat (let T := type of H in let x := innermost T in destruct x eqn:?);
  inversion H; subst; count_sends; try lia.

Section WithBackend.
Context {cm : CaseMap}.
Variable post : backend.
Variable py_repr : pyval -> string.
Variable describe : pyexc -> string.

Lemma generate_response_sends (model_name : string) (topic context : pyval) (stance : string)
    (w w' : world) (o : outcome pyval) :
  DebateModel.generate_response post py_repr model_name topic context stance w = (o, w') ->
  List.length w <= List.length w' <= List.length w + 1.
Proof.
  intros H.
  unfold DebateModel.generate_response, DebateModel._make_api_request,
    bind, lift, try_except, raise, ret in H.
  budget H.
Qed.

Lemma should_intervene_sends (model_name : string) (topic : pyval)
    (debate_history : list pyval) (w w' : world) (o : outcome pyval) :
  ModeratorModel.should_intervene post py_repr model_name topic debate_history w = (o, w') ->
  List.length w <= List.length w' <= List.length w + 1.
Proof.
  intros H.
  unfold ModeratorModel.should_intervene, ModeratorModel.intervene_try,
    ModeratorModel._make_api_request, bind, lift, try_except, raise, ret in H.
  budget H.
Qed.

Lemma generate_summary_sends (model_name : string) (topic : pyval)
    (debate_history : list pyval) (w w' : world) (o : outcome pyval) :
  ModeratorModel.generate_summary post py_repr model_name topic debate_history w = (o, w') ->
  List.length w <= List.length w' <= List.length w + 1.
Proof.
  intros H.
  unfold ModeratorModel.generate_summary, ModeratorModel._make_api_request,
    bind, lift, try_except, raise, ret in H.
  budget H.
Qed.

Lemma evaluate_response_sends (model_name : string) (topic argument : pyval)
    (debate_history : list pyval) (w w' : world) (o : outcome pyval) :
  ModeratorModel.evaluate_response post py_repr model_name topic argument debate_history w =
    (o, w') ->
  List.length w <= List.length w' <= List.length w + 1.
Proof.
  intros H.
  unfold ModeratorModel.evaluate_response, ModeratorModel._make_api_request,
    bind, lift, try_except, raise, ret in H.
  budget H.
Qed.

Lemma filter_topic_sends (model_name topic : string) (w w' : world) (o : outcome pyval) :
  FilterModel.filter_topic post model_name topic w = (o, w') ->
  List.length w <= List.length w' <= List.length w + 1.
Proof.
  intros H.
  unfold FilterModel.filter_topic, FilterModel.filter_try, FilterModel._make_api_request,
    bind, lift, try_except, raise, ret in H.
  budget H.
Qed.

Lemma retry_generate_stances_sends (model_name topic : string) (w w' : world)
    (o : outcome (string * string)) :
  PromptModel._retry_generate_stances post model_name topic w = (o, w') ->
  List.length w' = List.length w + 1.
Proof.
  intros H.
  unfold PromptModel._retry_generate_stances, PromptModel._make_api_request,
    bind, lift, try_except, raise, ret in H.
  budget H.
Qed.

Lemma generate_stances_sends (model_name topic : string) (w w' : world)
    (o : outcome (string * string)) :
  PromptModel.generate_stances post describe model_name topic w = (o, w') ->
  List.length w <= List.length w' <= List.length w + 2.
Proof.
  intros H.
  unfold PromptModel.generate_stances, PromptModel._make_api_request,
    bind, lift, try_except, raise, ret in H.
  repeat (let T := type of H in let x := innermost T in destruct x eqn:?);
    inversion H; subst; count_sends;
    repeat match goal with
           | Hr : PromptModel._retry_generate_stances _ _ _ _ = (_, _) |- _ =>
               apply retry_generate_stances_sends in Hr
           end; lia.
Qed.

Lemma generate_system_prompt_sends (model_name stance topic : string) (w w' : world)
    (o : outcome string) :
  PromptModel.generate_system_prompt post model_name stance topic w = (o, w') ->
  List.length w <= List.length w' <= List.length w + 1.
Proof.
  intros H.
  unfold PromptModel.generate_system_prompt, PromptModel._make_api_request,
    bind, lift, try_except, raise, ret in H.
  budget H.
Qed.

(** Turn the runs of the model operations into what they sent. *)
Ltac count_calls :=
  repeat match goal with
         | H : DebateModel.generate_response _ _ _ _ _ _ _ = (_, _) |- _ =>
             apply generate_response_sends in H
         | H : ModeratorModel.should_intervene _ _ _ _ _ _ = (_, _) |- _ =>
             apply should_intervene_sends in H
         | H : ModeratorModel.generate_summary _ _ _ _ _ _ = (_, _) |- _ =>
             apply generate_summary_sends in H
         | H : ModeratorModel.evaluate_response _ _ _ _ _ _ _ = (_, _) |- _ =>
             apply evaluate_response_sends in H
         | H : FilterModel.filter_topic _ _ _ _ = (_, _) |- _ =>
             apply filter_topic_sends in H
         | H : PromptModel.generate_stances _ _ _ _ _ = (_, _) |- _ =>
             apply generate_stances_sends in H
         | H : PromptModel.generate_system_prompt _ _ _ _ _ = (_, _) |- _ =>
             apply generate_system_prompt_sends in H
         end.

Ltac route_budget H :=
  repeat (let T := type of H in let x := innermost T in destruct x eqn:?);
  inversion H; subst; count_calls; try lia.

Lemma round_try_sends (topic debate_history : pyval) (side : string) (w w' : world)
    (o : outcome flask_response) :
  round_try post py_repr topic debate_history side w = (o, w') ->
  List.length w' <= List.length w + 3.
Proof.
  intros H. unfold round_try, bind, lift, ret in H. route_budget H.
Qed.

Lemma start_debate_setup_sends (topic : string) (w w' : world)
    (o : outcome flask_response) :
  start_debate_setup post describe topic w = (o, w') ->
  List.length w' <= List.length w + 4.
Proof.
  intros H. unfold start_debate_setup, bind, lift, ret, raise in H. route_budget H.
Qed.

(** X10: what a request can cost.  [/start_debate] sends at most five
    requests to the service (the filter, the stances and their one retry,
    the two system prompts), [/debate_round] at most three (the turn, the
    intervention check, and the summary or the evaluation), [/end_debate]
    at most one. *)
Theorem routes_request_budget (data : pyval) (w : world) :
  List.length (snd (start_debate post describe data w)) <= List.length w + 5
  /\ List.length (snd (debate_round post py_repr data w)) <= List.length w + 3
  /\ List.length (snd (end_debate post py_repr data w)) <= List.length w + 1.
Proof.
  unfold start_debate, debate_round, end_debate.
  rewrite !Projection.handle_errors_world.
  split; [|split].
  - destruct (start_debate_view post describe data w) as [o w'] eqn:H. cbn [snd].
    unfold start_debate_view, bind, lift, ret, try_except, raise in H.
    repeat (let T := type of H in let x := innermost T in destruct x eqn:?);
      inversion H; subst; count_calls;
      repeat match goal with
             | Hr : start_debate_setup _ _ _ _ = (_, _) |- _ =>
                 apply start_debate_setup_sends in Hr
             end; lia.
  - destruct (debate_round_view post py_repr data w) as [o w'] eqn:H. cbn [snd].
    unfold debate_round_view, bind, lift, ret, try_except, raise in H.
    repeat (let T := type of H in let x := innermost T in destruct x eqn:?);
      inversion H; subst;
      repeat match goal with
             | Hr : round_try _ _ _ _ _ _ = (_, _) |- _ => apply round_try_sends in Hr
             end; lia.
  - destruct (end_debate_view post py_repr data w) as [o w'] eqn:H. cbn [snd].
    unfold end_debate_view, bind, lift, ret, try_except, raise in H.
    route_budget H.
Qed.

End WithBackend.
End Budget.

(* ===================================================================== *)
(** ** Requests the routes turn down *)
(* ===================================================================== *)

Module Rejections.
Import PyStr PyStrFacts Vocabulary RequestLayer TopicFilter Routes Round.

Section WithBackend.
Context {cm : CaseMap}.
Variable post : backend.
Variable py_repr : pyval -> string.

(** X11: [/debate_round] on a JSON object.  Without a [topic] or a
    [current_side] key it answers 400 "Missing required debate
    information"; with a [current_side] that is neither ["for"] nor
    ["against"], 400 "Invalid debate side specified"; with a [topic] that
    is present but false (null, empty) and a valid side, the generic 500.
    None of the three sends a request. *)
Theorem debate_round_turns_down (d : list (string * pyval)) (w : world) :
  (assoc "topic" d = None \/ assoc "current_side" d = None ->
     debate_round post py_repr (PDict d) w =
       (Return (jsonify [("status", PStr "error");
                         ("message", PStr "Missing required debate information")], 400%Z), w))
  /\ (forall topic current_side,
        assoc "topic" d = Some topic -> assoc "current_side" d = Some current_side ->
        current_side <> PStr "for" -> current_side <> PStr "against" ->
        debate_round post py_repr (PDict d) w =
          (Return (jsonify [("status", PStr "error");
                            ("message", PStr "Invalid debate side specified")], 400%Z), w))
  /\ (forall topic side,
        assoc "topic" d = Some topic -> assoc "current_side" d = Some (PStr side) ->
        side = "for" \/ side = "against" -> truthy topic = false ->
        debate_round post py_repr (PDict d) w = (Return internal_error, w)).
Proof.
  split; [|split].
  - intros Hmiss. unfold debate_round, handle_errors, try_except, debate_round_view,
      bind, lift, all_fields_in. cbn [field_in].
    destruct (assoc "topic" d) as [t|] eqn:Ht; [|reflexivity].
    destruct Hmiss as [Hm|Hm]; [discriminate|]. now rewrite Hm.
  - intros topic current_side Ht Hs Hf Ha.
    unfold debate_round, handle_errors, try_except, debate_round_view,
      bind, lift, all_fields_in. cbn [field_in method_get]. rewrite Ht, Hs. cbn [negb].
    destruct (assoc "debate_history" d); destruct current_side as [| | |side| |];
      try reflexivity;
      (destruct (PyStr.eqb side "for") eqn:E1;
       [apply str_eqb_eq in E1; subst; congruence|];
       destruct (PyStr.eqb side "against") eqn:E2;
       [apply str_eqb_eq in E2; subst; congruence|]; reflexivity).
  - intros topic side Ht Hs Hvalid Hfalse.
    unfold debate_round, handle_errors.
    unfold try_except at 1.
    rewrite (Projection.debate_round_valid post py_repr d topic side w Ht Hs Hvalid).
    unfold round_try, bind, DebateModel.generate_response. rewrite Hfalse. reflexivity.
Qed.

(** X12: a [moderator_intervention] answer carries the argument, the
    reason of the moderator, a summary and the next side, and no
    [debate_history]: the new entry is not returned to the caller. *)
Theorem intervention_returns_no_history (data : pyval) (fields : list (string * pyval))
    (code : Z) (w w' : world) :
  debate_round post py_repr data w = (Return (PDict fields, code), w') ->
  assoc "status" fields = Some (PStr "moderator_intervention") ->
  code = 200%Z
  /\ assoc "debate_history" fields = None
  /\ exists argument message summary side,
       fields = [("status", PStr "moderator_intervention"); ("argument", argument);
                 ("message", message); ("summary", summary);
                 ("next_side", PStr (next_side side))]
       /\ (side = "for" \/ side = "against").
Proof.
  intros Hrun Hstatus.
  destruct (debate_round_cases post py_repr data w) as (response & w1 & Hrun' & Hcases).
  rewrite Hrun in Hrun'. inversion Hrun'. subst response w1. clear Hrun'.
  destruct Hcases as [(message & c & H & _)|Hround].
  { inversion H. subst. discriminate. }
  destruct Hround as (d & topic & side & -> & _ & _ & Hvalid & Hround).
  pose proof (round_try_result post py_repr topic (history_value d) side w) as H.
  rewrite Hround in H.
  destruct H as (Hcode & argument & entries & _ & Hbody).
  destruct Hbody as [(message & summary & Hb)|(evaluation & Hb)];
    inversion Hb; subst fields; [|discriminate].
  split; [exact Hcode|]. split; [reflexivity|].
  now exists argument, message, summary, side.
Qed.

End WithBackend.

Section Runs.
#[local] Existing Instance plain_case.

(** X11 on a request without a side, on one for the side ["neutral"], and
    on one whose topic is null. *)
Lemma debate_round_turns_down_witness :
  debate_round (fun _ _ => PostRaises ReadTimeout) (fun _ => "") (PDict [("topic", PStr "cats")]) [] =
    (Return (jsonify [("status", PStr "error");
                      ("message", PStr "Missing required debate information")], 400%Z), [])
  /\ debate_round (fun _ _ => PostRaises ReadTimeout) (fun _ => "")
       (PDict [("topic", PStr "cats"); ("current_side", PStr "neutral")]) [] =
     (Return (jsonify [("status", PStr "error");
                       ("message", PStr "Invalid debate side specified")], 400%Z), [])
  /\ debate_round (fun _ _ => PostRaises ReadTimeout) (fun _ => "")
       (PDict [("topic", PNone); ("current_side", PStr "for")]) [] = (Return internal_error, []).
Proof.
  split; [|split].
  - apply (proj1 (debate_round_turns_down (fun _ _ => PostRaises ReadTimeout) (fun _ => "")
                    [("topic", PStr "cats")] []) (or_intror eq_refl)).
  - apply (proj1 (proj2 (debate_round_turns_down (fun _ _ => PostRaises ReadTimeout) (fun _ => "")
               [("topic", PStr "cats"); ("current_side", PStr "neutral")] []))
               (PStr "cats") (PStr "neutral") eq_refl eq_refl
               ltac:(discriminate) ltac:(discriminate)).
  - apply (proj2 (proj2 (debate_round_turns_down (fun _ _ => PostRaises ReadTimeout) (fun _ => "")
             [("topic", PNone); ("current_side", PStr "for")] []))
             PNone "for" eq_refl eq_refl (or_introl eq_refl) eq_refl).
Defined.


(** X12 on a first round that the moderator interrupts. *)
Lemma intervention_returns_no_history_witness :
  exists fields,
    fst (debate_round
           (fun _ _ => Response 200 (Some (PDict [("response", PStr "True, cats purr.")])))
           (fun _ => "") (PDict [("topic", PStr "cats"); ("current_side", PStr "for")]) []) =
      Return (PDict fields, 200%Z)
    /\ assoc "debate_history" fields = None.
Proof.
  set (post := fun (_ : world) (_ : request) =>
                 Response 200 (Some (PDict [("response", PStr "True, cats purr.")]))).
  set (data := PDict [("topic", PStr "cats"); ("current_side", PStr "for")]).
  destruct (debate_round post (fun _ => "") data []) as [[[[| | | | |fields] code]|e] w'] eqn:Hrun;
    try (vm_compute in Hrun; discriminate).
  assert (Hstatus : assoc "status" fields = Some (PStr "moderator_intervention"))
    by (vm_compute in Hrun; now inversion Hrun).
  destruct (intervention_returns_no_history post (fun _ => "") data fields code [] w'
              Hrun Hstatus) as (-> & Hnone & _).
  exists fields. now split.
Defined.

End Runs.

End Rejections.

(* ===================================================================== *)
(** ** The topic at the door of [/start_debate] *)
(* ===================================================================== *)

Module Admission.
Import PyStr PyStrFacts Vocabulary RequestLayer TopicFilter Routes.

Section WithBackend.
Context {cm : CaseMap}.
Variable post : backend.
Variable describe : pyexc -> string.

(** [start_debate] once the topic has passed the two guards. *)
Lemma start_debate_filtered (d : list (string * pyval)) (text : string) (w : world) :
  assoc "topic" d = Some (PStr text) -> strip text <> "" ->
  start_debate post describe (PDict d) w =
    handle_errors
      (filter_result <- FilterModel.filter_topic post Config.FILTER_MODEL text ;;
       appropriate <- lift (getitem filter_result "is_appropriate") ;;
       if negb (truthy appropriate)
       then ret (jsonify [("status", PStr "error");
                          ("message", PStr "Topic is not appropriate for debate. Please choose another topic.")],
                 400%Z)
       else start_debate_setup post describe text) w.
Proof.
  intros Ht Hs. unfold start_debate, handle_errors, start_debate_view.
  unfold try_except at 1. unfold bind at 1. unfold lift at 1. cbn [method_get]. rewrite Ht.
  assert (Htruthy : truthy (PStr text) = true).
  { destruct text; [now elim Hs|reflexivity]. }
  rewrite Htruthy. cbn [negb]. unfold bind at 1. unfold lift at 1. cbn [as_str].
  assert (Hlen : (len (strip text) =? 0) = false).
  { destruct (strip text); [congruence|reflexivity]. }
  rewrite Hlen. unfold try_except, bind, lift, raise.
  destruct (FilterModel.filter_topic post Config.FILTER_MODEL text w) as [[r|e] w1];
    [|reflexivity].
  destruct (getitem r "is_appropriate") as [a|e]; [|reflexivity].
  destruct (negb (truthy a)); [reflexivity|].
  now destruct (start_debate_setup post describe text w1) as [[r2|e2] w2].
Qed.

(** X13: [/start_debate] on a JSON object.  A topic that is missing, false
    (null, empty) or blank is answered 400 "Please provide a valid debate
    topic" and nothing is sent.  For any other textual topic one request
    goes to the filter, and unless its reply carries a text in which
    [true] occurs (in any case of the letters), the answer is 400 "Topic
    is not appropriate for debate. Please choose another topic.": so it is
    when the service is out of reach, times out or answers with an error
    status. *)
Theorem start_debate_turns_down (d : list (string * pyval)) (w : world) :
  (assoc "topic" d = None
   \/ (exists topic, assoc "topic" d = Some topic /\ truthy topic = false)
   \/ (exists text, assoc "topic" d = Some (PStr text) /\ strip text = "") ->
     start_debate post describe (PDict d) w =
       (Return (jsonify [("status", PStr "error");
                         ("message", PStr "Please provide a valid debate topic")], 400%Z), w))
  /\ (forall text,
        assoc "topic" d = Some (PStr text) -> strip text <> "" ->
        (forall reply answer,
           api_try (post w (filter_request text)) = inr reply ->
           getitem reply "response" = Return (PStr answer) ->
           contains "true" (lower (strip answer)) = false) ->
        start_debate post describe (PDict d) w =
          (Return (jsonify [("status", PStr "error");
                            ("message", PStr "Topic is not appropriate for debate. Please choose another topic.")],
                   400%Z),
           w ++ [filter_request text])).
Proof.
  split.
  - intros H. unfold start_debate, handle_errors, try_except, start_debate_view, bind, lift.
    cbn [method_get].
    destruct H as [-> | [(topic & -> & Hf) | (text & -> & Hb)]].
    + reflexivity.
    + now rewrite Hf.
    + destruct (truthy (PStr text)); [|reflexivity].
      cbn [negb as_str]. now rewrite Hb.
  - intros text Ht Hs Hno.
    rewrite (start_debate_filtered d text w Ht Hs).
    unfold handle_errors, try_except, bind.
    rewrite (filter_topic_run _ _ _ _ Hs).
    unfold FilterModel.filter_try, bind, lift, FilterModel._make_api_request.
    rewrite make_api_request_run. fold (filter_request text).
    destruct (api_try (post w (filter_request text))) as [e|reply]; [reflexivity|].
    specialize (Hno reply).
    destruct (getitem reply "response") as [field|e]; [|reflexivity].
    destruct field as [| | |answer| |]; try reflexivity.
    cbn [as_str]. unfold ret, FilterModel.parse_verdict.
    rewrite (Hno answer eq_refl eq_refl). reflexivity.
Qed.

End WithBackend.

Section Runs.
#[local] Existing Instance plain_case.

(** X13 on a request without a topic, and on the topic ["cats"] with the
    service out of reach and with the answer ["Yes, a fine topic."]. *)
Lemma start_debate_turns_down_witness :
  start_debate (fun _ _ => PostRaises RequestsConnectionError) (fun _ => "") (PDict []) [] =
    (Return (jsonify [("status", PStr "error");
                      ("message", PStr "Please provide a valid debate topic")], 400%Z), [])
  /\ start_debate (fun _ _ => PostRaises RequestsConnectionError) (fun _ => "")
       (PDict [("topic", PStr "cats")]) [] =
     (Return (jsonify [("status", PStr "error");
                       ("message", PStr "Topic is not appropriate for debate. Please choose another topic.")],
              400%Z),
      [filter_request "cats"])
  /\ start_debate
       (fun _ _ => Response 200 (Some (PDict [("response", PStr "Yes, a fine topic.")])))
       (fun _ => "") (PDict [("topic", PStr "cats")]) [] =
     (Return (jsonify [("status", PStr "error");
                       ("message", PStr "Topic is not appropriate for debate. Please choose another topic.")],
              400%Z),
      [filter_request "cats"]).
Proof.
  split; [|split].
  - apply (proj1 (start_debate_turns_down
                    (fun _ _ => PostRaises RequestsConnectionError) (fun _ => "") [] [])).
    now left.
  - apply (proj2 (start_debate_turns_down
                    (fun _ _ => PostRaises RequestsConnectionError) (fun _ => "")
                    [("topic", PStr "cats")] []) "cats" eq_refl ltac:(discriminate)).
    intros reply answer H. discriminate.
  - apply (proj2 (start_debate_turns_down
                    (fun _ _ => Response 200 (Some (PDict [("response", PStr "Yes, a fine topic.")])))
                    (fun _ => "") [("topic", PStr "cats")] []) "cats" eq_refl ltac:(discriminate)).
    intros reply answer H1 H2. vm_compute in H1. inversion H1. subst reply.
    vm_compute in H2. inversion H2. subst answer. reflexivity.
Defined.

End Runs.

End Admission.

(* ===================================================================== *)
(** ** A debate that opens *)
(* ===================================================================== *)

Module Opening.
Import PyStr PyStrFacts Vocabulary RequestLayer TopicFilter Routes Round.

Section WithBackend.
Context {cm : CaseMap}.
Variable post : backend.
Variable describe : pyexc -> string.

(** A system prompt that is returned has passed the length check. *)
Lemma generate_system_prompt_returned (model_name stance topic : string) (w w' : world)
    (system_prompt : string) :
  PromptModel.generate_system_prompt post model_name stance topic w =
    (Return system_prompt, w') ->
  50 <= len system_prompt.
Proof.
  unfold PromptModel.generate_system_prompt.
  destruct (_ || _); [discriminate|].
  unfold try_except, bind, lift, raise, ret.
  destruct (PromptModel._make_api_request _ _ _ _) as [[reply|e] w1]; [|discriminate].
  destruct (getitem reply "response") as [field|e]; [|discriminate].
  destruct (as_str field) as [text|e]; [|discriminate].
  destruct (len (strip text) <? 50) eqn:Hlen; [discriminate|].
  intros H. inversion H. now apply Nat.ltb_ge in Hlen.
Qed.

(** What [start_debate_setup] returns when it returns. *)
Lemma start_debate_setup_returned (topic : string) (w w' : world) (response : flask_response) :
  start_debate_setup post describe topic w = (Return response, w') ->
  exists for_stance against_stance for_prompt against_prompt,
    response =
      (jsonify [("status", PStr "success");
                ("data", PDict [("topic", PStr topic);
                                ("for_stance", PStr for_stance);
                                ("against_stance", PStr against_stance);
                                ("for_system_prompt", PStr for_prompt);
                                ("against_system_prompt", PStr against_prompt)])], 200%Z)
    /\ for_stance <> "" /\ against_stance <> ""
    /\ 50 <= len for_prompt /\ 50 <= len against_prompt.
Proof.
  unfold start_debate_setup, bind, raise, ret.
  destruct (PromptModel.generate_stances _ _ _ _ _) as [[[f a]|e] w1] eqn:Hst; [|discriminate].
  destruct (PyStr.eqb f "" || PyStr.eqb a ""); [discriminate|].
  destruct (PromptModel.generate_system_prompt post _ f topic w1) as [[fp|e] w2] eqn:Hf;
    [|discriminate].
  destruct (PromptModel.generate_system_prompt post _ a topic w2) as [[ap|e] w3] eqn:Ha;
    [|discriminate].
  intros H. inversion H. subst.
  destruct (StanceResults.generate_stances_returned _ _ _ _ _ _ _ _ Hst) as [[Hf1 _] [Ha1 _]].
  exists f, a, fp, ap. split; [reflexivity|].
  repeat split; try assumption.
  - exact (generate_system_prompt_returned _ _ _ _ _ _ Hf).
  - exact (generate_system_prompt_returned _ _ _ _ _ _ Ha).
Qed.

(** X14: when [/start_debate] answers with status 200, the request named
    a textual topic that is not blank, the filter's reply carried a text in
    which [true] occurs, and the body is [status: success] with the topic
    as it was sent, two stances that are not empty and two system prompts
    of fifty characters or more. *)
Theorem start_debate_opens (data body : pyval) (w w' : world) :
  start_debate post describe data w = (Return (body, 200%Z), w') ->
  exists text for_stance against_stance for_prompt against_prompt,
    method_get data "topic" PNone = Return (PStr text)
    /\ strip text <> ""
    /\ (exists reply answer,
          api_try (post w (filter_request text)) = inr reply
          /\ getitem reply "response" = Return (PStr answer)
          /\ contains "true" (lower (strip answer)) = true)
    /\ body =
         jsonify [("status", PStr "success");
                  ("data", PDict [("topic", PStr text);
                                  ("for_stance", PStr for_stance);
                                  ("against_stance", PStr against_stance);
                                  ("for_system_prompt", PStr for_prompt);
                                  ("against_system_prompt", PStr against_prompt)])]
    /\ for_stance <> "" /\ against_stance <> ""
    /\ 50 <= len for_prompt /\ 50 <= len against_prompt.
Proof.
  intros Hrun. unfold start_debate in Hrun.
  destruct (handle_errors_result (start_debate_view post describe data) w)
    as (response & w1 & Hrun' & [Hview|[_ Herr]]);
    rewrite Hrun in Hrun'; inversion Hrun'; subst response w1; clear Hrun'.
  2:{ destruct Herr as (message & code & H & Hcode). inversion H. subst. now elim Hcode. }
  clear Hrun. revert Hview.
  unfold start_debate_view, bind, lift, ret.
  destruct data as [| | | | |d]; cbn [method_get]; try discriminate.
  destruct (assoc "topic" d) as [topic|]; [|discriminate].
  destruct (truthy topic); cbn [negb]; [|discriminate].
  destruct topic as [| | |text| |]; cbn [as_str]; try discriminate.
  destruct (len (strip text) =? 0) eqn:Hlen; [discriminate|].
  assert (Hs : strip text <> "").
  { intros Hb. rewrite Hb in Hlen. discriminate. }
  unfold try_except, bind. rewrite (filter_topic_run _ _ _ _ Hs).
  unfold FilterModel.filter_try, bind, lift, FilterModel._make_api_request, ret, raise.
  rewrite make_api_request_run. fold (filter_request text).
  destruct (api_try (post w (filter_request text))) as [e|reply] eqn:Hreply; [discriminate|].
  destruct (getitem reply "response") as [field|e] eqn:Hfield; [|discriminate].
  destruct field as [| | |answer| |]; cbn [as_str]; try discriminate.
  unfold FilterModel.parse_verdict. cbn [getitem assoc PyStr.eqb N.eqb Pos.eqb andb truthy].
  destruct (contains "true" (lower (strip answer))) eqn:Htrue; cbn [negb]; [|discriminate].
  destruct (start_debate_setup post describe text _) as [[response|e] w2] eqn:Hsetup;
    [|discriminate].
  intros H. inversion H. subst response w2.
  destruct (start_debate_setup_returned _ _ _ _ Hsetup)
    as (f & a & fp & ap & Hbody & Hf & Ha & Hfp & Hap).
  inversion Hbody. subst body.
  exists text, f, a, fp, ap.
  split; [reflexivity|]. split; [exact Hs|].
  split; [now exists reply, answer|].
  split; [reflexivity|]. repeat split; assumption.
Qed.

End WithBackend.

Section Runs.
#[local] Existing Instance plain_case.

(** X14 on the topic ["cats"], with a service that approves the topic,
    gives two labelled stances and then a system prompt of fifty-eight
    characters. *)
Lemma start_debate_opens_witness :
  let post : backend :=
    fun w _ =>
      match w with
      | [] => Response 200 (Some (PDict [("response", PStr "True. A fine topic.")]))
      | [_] => Response 200 (Some (PDict [("response",
                 PStr ("FOR: Cats are fine pets." ++ nl ++ "AGAINST: Cats scratch things."))]))
      | _ => Response 200 (Some (PDict [("response",
               PStr "You argue for cats. Be civil, be brief, and cite evidence.")]))
      end in
  exists body w' for_stance against_stance,
    start_debate post (fun _ => "") (PDict [("topic", PStr "cats")]) [] =
      (Return (body, 200%Z), w')
    /\ getitem body "data" =
         Return (PDict [("topic", PStr "cats");
                        ("for_stance", PStr for_stance);
                        ("against_stance", PStr against_stance);
                        ("for_system_prompt",
                         PStr "You argue for cats. Be civil, be brief, and cite evidence.");
                        ("against_system_prompt",
                         PStr "You argue for cats. Be civil, be brief, and cite evidence.")])
    /\ for_stance <> "" /\ against_stance <> "".
Proof.
  intros post.
  set (data := PDict [("topic", PStr "cats")]).
  destruct (start_debate post (fun _ => "") data []) as [[[body code]|e] w'] eqn:Hrun;
    [|vm_compute in Hrun; discriminate].
  assert (Hcode : code = 200%Z) by (vm_compute in Hrun; now inversion Hrun).
  subst code.
  destruct (start_debate_opens post (fun _ => "") data body [] w' Hrun)
    as (text & f & a & fp & ap & _ & _ & _ & Hbody & Hf & Ha & _ & _).
  exists body, w', f, a. split; [reflexivity|]. split; [|now split].
  rewrite Hbody in Hrun. vm_compute in Hrun. inversion Hrun. subst.
  reflexivity.
Defined.

End Runs.

End Opening.

(* ===================================================================== *)
(** ** The final summary of [/end_debate] *)
(* ===================================================================== *)

Module Closing.
Import PyStr PyStrFacts Vocabulary RequestLayer Raised Routes.

Section General.
Context {cm : CaseMap}.

(** An exception that is no connection error of [requests] is answered
    with the generic 500. *)
Lemma handle_errors_500 (f : M flask_response) (w w' : world) (e : pyexc) :
  f w = (Raise e, w') -> answered_500 e ->
  handle_errors f w = (Return internal_error, w').
Proof.
  intros Hf He. unfold handle_errors, try_except. rewrite Hf.
  destruct e as [r| | | | | |]; try reflexivity.
  cbn in He. now rewrite He.
Qed.

(** The loop of [generate_summary] on structured entries with textual
    texts gives their lines [SIDE: text]. *)
Lemma traverse_structured_lines (py_repr : pyval -> string) (entries : list pyval)
    (lines : list string) :
  Forall2 structured_line entries lines ->
  traverse (ModeratorModel.format_item py_repr) entries = Return lines.
Proof.
  induction 1 as [|entry line entries lines Hline _ IH]; [reflexivity|].
  cbn [traverse]. rewrite IH.
  destruct Hline as (d & side & text & -> & Hside & Htext & ->).
  unfold ModeratorModel.format_item. cbn [is_dict getitem].
  rewrite Hside, Htext. reflexivity.
Qed.

(** A value that is false gives [generate_summary] no history. *)
Lemma summary_history_false (debate_history : pyval) :
  truthy debate_history = false -> summary_history debate_history = Return [].
Proof.
  destruct debate_history as [| b | z | s | l | d]; cbn; intros H; try rewrite H;
    try reflexivity; try discriminate.
  - destruct s; [reflexivity|discriminate].
  - destruct l; [reflexivity|discriminate].
Qed.

End General.

Section WithBackend.
Context {cm : CaseMap}.
Variable post : backend.
Variable py_repr : pyval -> string.

(** [end_debate] on a request that has both keys. *)
Lemma end_debate_present (d : list (string * pyval)) (topic debate_history : pyval)
    (w : world) :
  assoc "topic" d = Some topic -> assoc "debate_history" d = Some debate_history ->
  end_debate post py_repr (PDict d) w =
    handle_errors
      (history <- lift (summary_history debate_history) ;;
       final_summary <- ModeratorModel.generate_summary post py_repr
                          Config.MODERATOR_MODEL topic history ;;
       ret (jsonify [("status", PStr "success"); ("final_summary", final_summary)], 200%Z)) w.
Proof.
  intros Ht Hh. unfold end_debate, handle_errors, end_debate_view.
  unfold try_except at 1. unfold bind at 1. unfold lift at 1. cbn [field_in]. rewrite Ht.
  cbn [negb]. unfold bind at 1. unfold lift at 1. cbn [field_in]. rewrite Hh. cbn [negb].
  unfold try_except, bind, lift, raise. cbn [getitem]. rewrite Ht, Hh.
  destruct (summary_history debate_history) as [history|e]; [|reflexivity].
  now destruct (ModeratorModel.generate_summary _ _ _ _ _ _) as [[s|e] w1].
Qed.

(** X15: [/end_debate] on a JSON object.  Without a [topic] or a
    [debate_history] key it answers 400 "Missing required debate
    information for summary"; with both keys and a history that is false
    (null, an empty list) it answers the generic 500: the [ValueError] of
    [generate_summary] for an empty history is not told to the caller.
    Neither sends a request. *)
Theorem end_debate_turns_down (d : list (string * pyval)) (w : world) :
  (assoc "topic" d = None \/ assoc "debate_history" d = None ->
     end_debate post py_repr (PDict d) w =
       (Return (jsonify [("status", PStr "error");
                         ("message", PStr "Missing required debate information for summary")],
                400%Z), w))
  /\ (forall topic debate_history,
        assoc "topic" d = Some topic -> assoc "debate_history" d = Some debate_history ->
        truthy debate_history = false ->
        end_debate post py_repr (PDict d) w = (Return internal_error, w)).
Proof.
  split.
  - intros Hmiss. unfold end_debate, handle_errors, try_except, end_debate_view, bind, lift.
    cbn [field_in].
    destruct (assoc "topic" d) as [t|]; [|reflexivity].
    destruct Hmiss as [Hm|Hm]; [discriminate|]. now rewrite Hm.
  - intros topic debate_history Ht Hh Hfalse.
    rewrite (end_debate_present d topic debate_history w Ht Hh).
    apply (handle_errors_500 _ w w (ValueError "No debate history provided for summary"));
      [|exact I].
    unfold bind, lift. now rewrite (summary_history_false _ Hfalse).
Qed.

(** X16: [/end_debate] hands the history to the moderator as it came, so
    that structured entries reach the summary prompt with their sides.  On
    a history that is not empty and whose last five entries are dicts with
    a textual [side] and a textual [text], exactly one request is sent: the
    summary prompt over the lines [SIDE: text] of these entries, joined by
    line feeds.  The ['response'] of the reply is returned as
    [final_summary] with status 200; a failed request, or a reply without
    ['response'], is answered with the generic 500. *)
Theorem end_debate_summarises (d : list (string * pyval)) (topic : pyval)
    (history : list pyval) (lines : list string) (w : world) :
  assoc "topic" d = Some topic ->
  assoc "debate_history" d = Some (PList history) ->
  history <> [] ->
  Forall2 structured_line (list_last 5 history) lines ->
  let rq := moderator_request
              (ModeratorModel.summary_prompt py_repr topic (join nl lines)) in
  end_debate post py_repr (PDict d) w =
    (match api_try (post w rq) with
     | inl _ => Return internal_error
     | inr reply =>
         match getitem reply "response" with
         | Return final_summary =>
             Return (jsonify [("status", PStr "success");
                              ("final_summary", final_summary)], 200%Z)
         | Raise _ => Return internal_error
         end
     end, w ++ [rq]).
Proof.
  intros Ht Hh Hne Hlines rq.
  rewrite (end_debate_present d topic (PList history) w Ht Hh).
  assert (Hrun : (history0 <- lift (summary_history (PList history)) ;;
                  final_summary <- ModeratorModel.generate_summary post py_repr
                                     Config.MODERATOR_MODEL topic history0 ;;
                  ret (jsonify [("status", PStr "success");
                                ("final_summary", final_summary)], 200%Z)) w =
                 (match api_try (post w rq) with
                  | inl e => Raise (api_handlers e)
                  | inr reply =>
                      match getitem reply "response" with
                      | Return final_summary =>
                          Return (jsonify [("status", PStr "success");
                                           ("final_summary", final_summary)], 200%Z)
                      | Raise e => Raise e
                      end
                  end, w ++ [rq])).
  { unfold bind at 1. unfold lift at 1. cbn [summary_history].
    unfold bind, ModeratorModel.generate_summary.
    destruct history as [|entry rest]; [now elim Hne|].
    unfold bind, lift, ModeratorModel.context_str.
    rewrite (traverse_structured_lines py_repr _ _ Hlines).
    unfold try_except, bind, lift, raise, ret, ModeratorModel._make_api_request.
    rewrite make_api_request_run. fold (moderator_request
      (ModeratorModel.summary_prompt py_repr topic (join nl lines))). fold rq.
    destruct (api_try (post w rq)) as [e|reply]; [reflexivity|].
    now destruct (getitem reply "response"). }
  destruct (api_try (post w rq)) as [e|reply] eqn:Hreply.
  - apply (handle_errors_500 _ _ _ _ Hrun).
    apply (make_api_request_500 post 60 Config.MODERATOR_MODEL
             (ModeratorModel.summary_prompt py_repr topic (join nl lines)) w (w ++ [rq])).
    rewrite make_api_request_run. fold (moderator_request
      (ModeratorModel.summary_prompt py_repr topic (join nl lines))). fold rq.
    now rewrite Hreply.
  - destruct (getitem reply "response") as [final_summary|e] eqn:Hget.
    + unfold handle_errors, try_except. now rewrite Hrun.
    + apply (handle_errors_500 _ _ _ _ Hrun). exact (getitem_500 _ _ _ Hget).
Qed.

End WithBackend.

Section Runs.
#[local] Existing Instance plain_case.

(** X15 on a request without a history and on one with an empty list. *)
Lemma end_debate_turns_down_witness :
  end_debate (fun _ _ => Response 200 (Some (PDict [("response", PStr "A summary.")])))
    (fun _ => "") (PDict [("topic", PStr "cats")]) [] =
    (Return (jsonify [("status", PStr "error");
                      ("message", PStr "Missing required debate information for summary")],
             400%Z), [])
  /\ end_debate (fun _ _ => Response 200 (Some (PDict [("response", PStr "A summary.")])))
       (fun _ => "") (PDict [("topic", PStr "cats"); ("debate_history", PList [])]) [] =
     (Return internal_error, []).
Proof.
  split.
  - apply (proj1 (end_debate_turns_down _ (fun _ => "") [("topic", PStr "cats")] [])).
    now right.
  - apply (proj2 (end_debate_turns_down _ (fun _ => "")
                    [("topic", PStr "cats"); ("debate_history", PList [])] [])
             (PStr "cats") (PList []) eq_refl eq_refl eq_refl).
Defined.

(** X16 on a history of two structured entries. *)
Lemma end_debate_summarises_witness :
  let history := [PDict [("side", PStr "for"); ("text", PStr "Cats purr.")];
                  PDict [("side", PStr "against"); ("text", PStr "Cats scratch.")]] in
  end_debate (fun _ _ => Response 200 (Some (PDict [("response", PStr "A summary.")])))
    (fun _ => "") (PDict [("topic", PStr "cats"); ("debate_history", PList history)]) [] =
    (Return (jsonify [("status", PStr "success"); ("final_summary", PStr "A summary.")], 200%Z),
     [moderator_request
        (ModeratorModel.summary_prompt (fun _ => "") (PStr "cats")
           ("FOR: Cats purr." ++ nl ++ "AGAINST: Cats scratch."))]).
Proof.
  cbv zeta.
  apply (end_debate_summarises
           (fun _ _ => Response 200 (Some (PDict [("response", PStr "A summary.")])))
           (fun _ => "")
           [("topic", PStr "cats");
            ("debate_history",
             PList [PDict [("side", PStr "for"); ("text", PStr "Cats purr.")];
                    PDict [("side", PStr "against"); ("text", PStr "Cats scratch.")]])]
           (PStr "cats")
           [PDict [("side", PStr "for"); ("text", PStr "Cats purr.")];
            PDict [("side", PStr "against"); ("text", PStr "Cats scratch.")]]
           ["FOR: Cats purr."; "AGAINST: Cats scratch."] [] eq_refl eq_refl
           ltac:(discriminate)).
  apply Forall2_cons.
  - now exists [("side", PStr "for"); ("text", PStr "Cats purr.")], "for", "Cats purr.".
  - apply Forall2_cons; [|apply Forall2_nil].
    now exists [("side", PStr "against"); ("text", PStr "Cats scratch.")],
               "against", "Cats scratch.".
Defined.

End Runs.

End Closing.

(* ===================================================================== *)
(** ** Rounds in sequence *)
(* ===================================================================== *)

Module Rounds.
Import PyStr PyStrFacts Vocabulary RequestLayer Routes Round.

Section WithBackend.
Context {cm : CaseMap}.
Variable post : backend.
Variable py_repr : pyval -> string.

(** The body of a [success] answer of [/debate_round]. *)
Lemma success_round (data : pyval) (fields : list (string * pyval)) (code : Z)
    (w w' : world) :
  debate_round post py_repr data w = (Return (PDict fields, code), w') ->
  assoc "status" fields = Some (PStr "success") ->
  exists side argument evaluation,
    method_get data "current_side" PNone = Return (PStr side)
    /\ (side = "for" \/ side = "against")
    /\ PDict fields =
         success_body side argument evaluation
           (supplied_history data ++ [PDict [("side", PStr side); ("text", argument)]]).
Proof.
  intros Hrun Hstatus.
  destruct (debate_round_cases post py_repr data w) as (response & w1 & Hrun' & Hcases).
  rewrite Hrun in Hrun'. inversion Hrun'. subst response w1. clear Hrun'.
  destruct Hcases as [(message & c & H & _)|Hround].
  { inversion H. subst. discriminate. }
  destruct Hround as (d & topic & side & -> & _ & Hs & Hvalid & Hround).
  pose proof (round_try_result post py_repr topic (history_value d) side w) as H.
  rewrite Hround in H.
  destruct H as (_ & argument & entries & Happ & Hbody).
  destruct Hbody as [(message & summary & Hb)|(evaluation & Hb)];
    inversion Hb; subst fields; [discriminate|].
  exists side, argument, evaluation. cbn [method_get]. rewrite Hs.
  split; [reflexivity|]. split; [exact Hvalid|].
  unfold success_body, jsonify. do 6 f_equal.
  unfold supplied_history, append_entry, history_value in *. cbn [method_get].
  destruct (assoc "debate_history" d) as [h|]; [|now inversion Happ].
  destruct h; inversion Happ; reflexivity.
Qed.

(** X17: two rounds in sequence.  When a [success] answer is fed back,
    its [next_side] as the [current_side] and its [debate_history] as the
    [debate_history] of the next request, and that request is answered
    with [success] too, the history returned is the one first supplied
    followed by two entries of opposite sides, first the side of the first
    request and then the other one, and the turn is back with the first
    side. *)
Theorem two_rounds_take_turns (data : pyval) (d : list (string * pyval))
    (first second : list (string * pyval)) (code code' : Z) (w w' w'' : world) :
  debate_round post py_repr data w = (Return (PDict first, code), w') ->
  assoc "status" first = Some (PStr "success") ->
  assoc "current_side" d = assoc "next_side" first ->
  assoc "debate_history" d = assoc "debate_history" first ->
  debate_round post py_repr (PDict d) w' = (Return (PDict second, code'), w'') ->
  assoc "status" second = Some (PStr "success") ->
  exists side argument reply,
    method_get data "current_side" PNone = Return (PStr side)
    /\ assoc "debate_history" second =
         Some (PList (supplied_history data
                        ++ [PDict [("side", PStr side); ("text", argument)];
                            PDict [("side", PStr (next_side side)); ("text", reply)]]))
    /\ next_side side <> side
    /\ assoc "next_side" second = Some (PStr side).
Proof.
  intros Hrun1 Hst1 Hside Hhist Hrun2 Hst2.
  destruct (success_round _ _ _ _ _ Hrun1 Hst1)
    as (side & argument & evaluation & Hs1 & Hvalid & Hbody1).
  destruct (success_round _ _ _ _ _ Hrun2 Hst2)
    as (side' & reply & evaluation' & Hs2 & _ & Hbody2).
  inversion Hbody1. subst first. clear Hbody1.
  cbn in Hside, Hhist.
  cbn [method_get] in Hs2. rewrite Hside in Hs2. inversion Hs2. subst side'. clear Hs2.
  assert (Hsupplied : supplied_history (PDict d) =
            supplied_history data ++ [PDict [("side", PStr side); ("text", argument)]]).
  { unfold supplied_history at 1. cbn [method_get]. now rewrite Hhist. }
  rewrite Hsupplied in Hbody2. inversion Hbody2. subst second. clear Hbody2.
  exists side, argument, reply.
  split; [exact Hs1|]. split; [cbn; now rewrite <- app_assoc|].
  destruct Hvalid as [-> | ->]; (split; [discriminate|reflexivity]).
Qed.

End WithBackend.

Section Runs.
#[local] Existing Instance plain_case.

(** X17 on the first two rounds of a debate. *)
Lemma two_rounds_take_turns_witness :
  let post : backend :=
    fun w _ =>
      match w with
      | [] => Response 200 (Some (PDict [("response", PStr "Cats purr.")]))
      | [_; _; _] => Response 200 (Some (PDict [("response", PStr "Cats scratch.")]))
      | _ => Response 200 (Some (PDict [("response", PStr "No.")]))
      end in
  exists second w'',
    debate_round post (fun _ => "")
      (PDict [("topic", PStr "cats"); ("current_side", PStr "against");
              ("debate_history",
               PList [PDict [("side", PStr "for"); ("text", PStr "Cats purr.")]])])
      (snd (debate_round post (fun _ => "")
              (PDict [("topic", PStr "cats"); ("current_side", PStr "for")]) [])) =
      (Return (PDict second, 200%Z), w'')
    /\ assoc "debate_history" second =
         Some (PList [PDict [("side", PStr "for"); ("text", PStr "Cats purr.")];
                      PDict [("side", PStr "against"); ("text", PStr "Cats scratch.")]])
    /\ assoc "next_side" second = Some (PStr "for").
Proof.
  intros post.
  set (data := PDict [("topic", PStr "cats"); ("current_side", PStr "for")]).
  set (d := [("topic", PStr "cats"); ("current_side", PStr "against");
             ("debate_history",
              PList [PDict [("side", PStr "for"); ("text", PStr "Cats purr.")]])]).
  destruct (debate_round post (fun _ => "") data [])
    as [[[[| | | | |first] code]|e] w'] eqn:Hrun1; try (vm_compute in Hrun1; discriminate).
  cbn [snd].
  destruct (debate_round post (fun _ => "") (PDict d) w')
    as [[[[| | | | |second] code']|e] w''] eqn:Hrun2;
    try (vm_compute in Hrun1; inversion Hrun1; subst; vm_compute in Hrun2; discriminate).
  assert (Hfirst : first =
            [("status", PStr "success"); ("argument", PStr "Cats purr.");
             ("evaluation", PDict [("response", PStr "No.")]);
             ("next_side", PStr "against");
             ("debate_history",
              PList [PDict [("side", PStr "for"); ("text", PStr "Cats purr.")]])])
    by (vm_compute in Hrun1; now inversion Hrun1).
  assert (Hsecond : code' = 200%Z /\ assoc "status" second = Some (PStr "success")).
  { vm_compute in Hrun1. inversion Hrun1. subst.
    vm_compute in Hrun2. inversion Hrun2. now split. }
  destruct Hsecond as [-> Hst2].
  destruct (two_rounds_take_turns post (fun _ => "") data d first second code 200%Z [] w' w''
              Hrun1 ltac:(now rewrite Hfirst) ltac:(now rewrite Hfirst)
              ltac:(now rewrite Hfirst) Hrun2 Hst2)
    as (side & argument & reply & Hside & Hhist & _ & Hnext).
  assert (side = "for") by (cbn in Hside; now inversion Hside). subst side.
  exists second, w''. split; [reflexivity|].
  assert (Hargs : argument = PStr "Cats purr." /\ reply = PStr "Cats scratch.").
  { vm_compute in Hrun1. inversion Hrun1. subst.
    vm_compute in Hrun2. inversion Hrun2. subst second.
    cbn in Hhist. inversion Hhist. now split. }
  destruct Hargs as [-> ->]. split; [exact Hhist|exact Hnext].
Defined.

End Runs.

End Rounds.
